(** * Web ORCA diagnostic and reporting scripts: model and properties

    A shallow embedding of the Python scripts [test_orca_odbc.py],
    [connection_troubleshoot.py] and [check_today_visits.py].

    - Python [str] values are lists of Unicode code points, so that [len]
      and slicing count characters the way Python does.
    - The ODBC driver, the database behind it and the console are an
      environment that answers every call either with a value or with a
      raised exception; the answer may depend on the position of the call
      in the run.
    - A routine is a function from the world (calls made so far, lines
      printed so far) to a result (returned value or raised exception)
      and the new world. *)

From Stdlib Require Import ZArith NArith String Ascii List Lia DecimalString.
From stdpp Require Import base list gmap.

(** ** The Python run-time model *)

Module Py.

(** *** Strings *)

Abbreviation char := N (only parsing).
Abbreviation str := (list N) (only parsing).

(** Source literals are written as UTF-8 text and decoded to code points. *)
Fixpoint utf8_decode (bs : list N) : str :=
  match bs with
  | [] => []
  | b :: r =>
    if (b <? 128)%N then b :: utf8_decode r
    else if (b <? 224)%N then
      match r with
      | c1 :: r' => ((b - 192) * 64 + (c1 - 128))%N :: utf8_decode r'
      | _ => []
      end
    else if (b <? 240)%N then
      match r with
      | c1 :: c2 :: r' =>
        ((b - 224) * 4096 + (c1 - 128) * 64 + (c2 - 128))%N :: utf8_decode r'
      | _ => []
      end
    else
      match r with
      | c1 :: c2 :: c3 :: r' =>
        ((b - 240) * 262144 + (c1 - 128) * 4096 + (c2 - 128) * 64 + (c3 - 128))%N
          :: utf8_decode r'
      | _ => []
      end
  end.

Definition u (s : string) : str :=
  utf8_decode (map N_of_ascii (list_ascii_of_string s)).

(** [s[a:b]] for [0 <= a <= b]. *)
Definition slice (a b : nat) (s : str) : str := take (b - a) (drop a s).

(** [str(n)] for an [int]. *)
Definition str_of_Z (z : Z) : str := u (NilZero.string_of_int (Z.to_int z)).
Definition str_of_nat (n : nat) : str := str_of_Z (Z.of_nat n).

Definition space : char := 32%N.

(** Characters for which [str.isspace] holds. *)
Definition isspace (c : char) : bool :=
  ((9 <=? c) && (c <=? 13) || (28 <=? c) && (c <=? 32) || (c =? 133) || (c =? 160)
   || (c =? 5760) || (8192 <=? c) && (c <=? 8202) || (c =? 8232) || (c =? 8233)
   || (c =? 8239) || (c =? 8287) || (c =? 12288))%N.

Fixpoint lstrip (s : str) : str :=
  match s with
  | c :: r => if isspace c then lstrip r else s
  | [] => []
  end.

(** [s.strip()] *)
Definition strip (s : str) : str := rev (lstrip (rev (lstrip s))).

(** The alignment of a format specification: [<], [>] and [^]. *)
Inductive align := AlignLeft | AlignRight | AlignCenter.

(** [format(s, "<w")], [format(s, ">w")], [format(s, "^w")] on text:
    the text is never shortened; when centring, the odd blank goes to
    the right. *)
Definition pad (a : align) (width : nat) (s : str) : str :=
  let n := width - length s in
  match a with
  | AlignLeft => s ++ replicate n space
  | AlignRight => replicate n space ++ s
  | AlignCenter => replicate (n / 2) space ++ s ++ replicate (n - n / 2) space
  end.

Fixpoint startswith (s prefix : str) : bool :=
  match prefix, s with
  | [], _ => true
  | p :: prefix', c :: s' => (p =? c)%N && startswith s' prefix'
  | _ :: _, [] => false
  end.

(** [needle in s] *)
Fixpoint contains (needle s : str) : bool :=
  startswith s needle ||
  match s with
  | [] => false
  | _ :: s' => contains needle s'
  end.

(** ["\n".join(lines)] *)
Fixpoint join_lines (lines : list str) : str :=
  match lines with
  | [] => []
  | [l] => l
  | l :: rest => l ++ u (String "010" EmptyString) ++ join_lines rest
  end.

(** *** Values held by a result row *)

Inductive cell :=
| None_
| Str (s : str)
| Int (z : Z).

Definition row := list cell.

(** Truth value of a cell. *)
Definition truthy (c : cell) : bool :=
  match c with
  | None_ => false
  | Str [] => false
  | Str _ => true
  | Int z => negb (z =? 0)%Z
  end.

(** [c or default] *)
Definition or_ (c : cell) (default : str) : cell :=
  if truthy c then c else Str default.

(** The value the driver hands over for a text column: [None] for NULL. *)
Definition text (v : option str) : cell :=
  match v with
  | Some s => Str s
  | None => None_
  end.

(** [v or default] on a text column. *)
Definition text_or (v : option str) (default : str) : str :=
  match v with
  | Some (c :: s) => c :: s
  | _ => default
  end.

(** [str(c)], which is also what [f"{c}"] gives. *)
Definition str_of_cell (c : cell) : str :=
  match c with
  | None_ => u "None"
  | Str s => s
  | Int z => str_of_Z z
  end.

(** *** Exceptions *)

Inductive exn :=
| pyodbc_Error (msg : str)
| ImportError (msg : str)
| TypeError (msg : str)
| ValueError (msg : str)
| IndexError (msg : str)
| EOFError (msg : str)
| OtherException (msg : str)
| KeyboardInterrupt.

(** [str(e)] *)
Definition str_of_exn (e : exn) : str :=
  match e with
  | pyodbc_Error m | ImportError m | TypeError m | ValueError m
  | IndexError m | EOFError m | OtherException m => m
  | KeyboardInterrupt => []
  end.

(** The classes named by the [except] clauses of the scripts.
    [KeyboardInterrupt] derives from [BaseException] only. *)
Definition is_pyodbc_Error (e : exn) : bool :=
  match e with pyodbc_Error _ => true | _ => false end.
Definition is_ImportError (e : exn) : bool :=
  match e with ImportError _ => true | _ => false end.
Definition is_KeyboardInterrupt (e : exn) : bool :=
  match e with KeyboardInterrupt => true | _ => false end.
Definition is_Exception (e : exn) : bool :=
  match e with KeyboardInterrupt => false | _ => true end.

Inductive result (A : Type) :=
| Ret (a : A)
| Raise (e : exn).
Arguments Ret {A} a.
Arguments Raise {A} e.

(** *** The environment: driver, database and console *)

(** The SQL statements the scripts send. *)
Inductive query :=
| sql_version             (* SELECT version(); *)
| sql_current_database    (* SELECT current_database(); *)
| sql_current_user        (* SELECT current_user; *)
| sql_server_encoding     (* SHOW server_encoding; *)
| sql_patients            (* the patient list of list_patients *)
| sql_patient_statistics  (* the four counts of list_patients *)
| sql_search              (* the LIKE search of search_patients *)
| sql_today               (* SELECT TO_CHAR(CURRENT_DATE, 'YYYYMMDD'); *)
| sql_visits              (* the visits of one day, ordered by time *)
| sql_department_counts   (* visits of one day grouped by department *)
| sql_patient_summary     (* the three counts of the default mode *)
| sql_visit_count.        (* number of visits of one day *)

Inductive call :=
| connect (connection_string : str) (timeout : option Z)
| cursor
| execute (sql : query) (params : list cell)
| fetchone
| fetchall
| cursor_close
| connection_close
| drivers
| input (prompt : str).

Definition reply (c : call) : Type :=
  match c with
  | connect _ _ | cursor | execute _ _ | cursor_close | connection_close => unit
  | fetchone => option row
  | fetchall => list row
  | drivers => list str
  | input _ => str
  end.

(** The answer to the [n]-th call of the run. *)
Definition environment := forall (n : nat) (c : call), result (reply c).

(** [history] holds the calls made so far, the latest first;
    [stdout] holds the printed lines in order. *)
Record world := World { history : list call; stdout : list str }.

Definition start : world := World [] [].

(** The calls in the order they were made. *)
Definition trace (w : world) : list call := rev (history w).

Definition M (A : Type) := world -> result A * world.

Definition ret {A} (a : A) : M A := fun w => (Ret a, w).
Definition raise {A} (e : exn) : M A := fun w => (Raise e, w).
Definition bind {A B} (m : M A) (k : A -> M B) : M B :=
  fun w =>
    match m w with
    | (Ret a, w') => k a w'
    | (Raise e, w') => (Raise e, w')
    end.

Definition print (line : str) : M unit :=
  fun w => (Ret tt, World (history w) (stdout w ++ [line])).

Definition perform (env : environment) (c : call) : M (reply c) :=
  fun w => (env (length (history w)) c, World (c :: history w) (stdout w)).

(** [try: body  except C1 as e: h1  except C2 as e: h2 ...]: the first
    clause whose class matches handles the exception. *)
Definition handle {A} (handlers : list ((exn -> bool) * (exn -> M A))) (e : exn)
    : M A :=
  fun w =>
    match find (fun h => fst h e) handlers with
    | Some h => snd h e w
    | None => (Raise e, w)
    end.

Definition try_except {A} (body : M A)
    (handlers : list ((exn -> bool) * (exn -> M A))) : M A :=
  fun w =>
    match body w with
    | (Ret a, w') => (Ret a, w')
    | (Raise e, w') => handle handlers e w'
    end.

(** [for x in xs: body x] *)
Fixpoint for_each {A} (xs : list A) (body : A -> M unit) : M unit :=
  match xs with
  | [] => ret tt
  | x :: rest => bind (body x) (fun _ => for_each rest body)
  end.

(** *** Operations on cells that can raise *)

(** [r[i]] *)
Definition index (r : row) (i : nat) : M cell :=
  match r !! i with
  | Some c => ret c
  | None => raise (IndexError (u "tuple index out of range"))
  end.

(** [len(c)] *)
Definition len (c : cell) : result nat :=
  match c with
  | Str s => Ret (length s)
  | None_ => Raise (TypeError (u "object of type 'NoneType' has no len()"))
  | Int _ => Raise (TypeError (u "object of type 'int' has no len()"))
  end.

(** [c[a:b]] *)
Definition slice_cell (a b : nat) (c : cell) : result str :=
  match c with
  | Str s => Ret (slice a b s)
  | None_ => Raise (TypeError (u "'NoneType' object is not subscriptable"))
  | Int _ => Raise (TypeError (u "'int' object is not subscriptable"))
  end.

(** [f"{c:<w}"], [f"{c:>w}"], [f"{c:^w}"] *)
Definition format (a : align) (width : nat) (c : cell) : result str :=
  match c with
  | Str s => Ret (pad a width s)
  | Int z => Ret (pad a width (str_of_Z z))
  | None_ =>
    Raise (TypeError (u "unsupported format string passed to NoneType.__format__"))
  end.

(** [c > 0] *)
Definition gt_0 (c : cell) : result bool :=
  match c with
  | Int z => Ret (0 <? z)%Z
  | None_ =>
    Raise (TypeError (u "'>' not supported between instances of 'NoneType' and 'int'"))
  | Str _ =>
    Raise (TypeError (u "'>' not supported between instances of 'str' and 'int'"))
  end.

Definition lift {A} (r : result A) : M A := fun w => (r, w).

(** [import pyodbc] *)
Definition import_pyodbc (installed : bool) : M unit :=
  if installed then ret tt
  else raise (ImportError (u "No module named 'pyodbc'")).

(** The exit status of the interpreter: the argument of [sys.exit]
    (0 at the end of the script), 1 after an exception nobody caught,
    130 after an interrupt nobody caught. *)
Definition exit_status (r : result Z) : Z :=
  match r with
  | Ret code => code
  | Raise KeyboardInterrupt => 130
  | Raise _ => 1
  end.

(** [cursor.fetchone()[0]] *)
Definition fetchone_0 (env : environment) : M cell :=
  bind (perform env fetchone) (fun r =>
    match r with
    | Some r => index r 0
    | None => raise (TypeError (u "'NoneType' object is not subscriptable"))
    end).

End Py.

Import Py.

Notation "x <- m ;; k" := (bind m (fun x => k))
  (at level 20, m at level 99, k at level 200, only parsing).
Notation "m ;; k" := (bind m (fun _ => k))
  (at level 100, k at level 200, right associativity, only parsing).

(** The newline character inside a printed text. *)
Definition nl : str := [10%N].

(** ["=" * n] *)
Definition rule (n : nat) : str := replicate n 61%N.

(** ** check_today_visits.py *)

Module check_today_visits.

(** Lines 41 and 72:
    [f"{uketime[:2]}:{uketime[2:4]}:{uketime[4:6]}"
       if uketime and len(uketime) >= 6 else uketime or "未設定"] *)
Definition time_str (uketime : cell) : result cell :=
  let otherwise := or_ uketime (u "未設定") in
  if truthy uketime then
    match len uketime with
    | Raise e => Raise e
    | Ret n =>
      if 6 <=? n then
        match slice_cell 0 2 uketime, slice_cell 2 4 uketime, slice_cell 4 6 uketime with
        | Ret hh, Ret mm, Ret ss => Ret (Str (hh ++ u ":" ++ mm ++ u ":" ++ ss))
        | Raise e, _, _ | _, Raise e, _ | _, _, Raise e => Raise e
        end
      else Ret otherwise
    end
  else Ret otherwise.

End check_today_visits.

(** ** test_orca_odbc.py *)

Module test_orca_odbc.

(** *** Expressions evaluated by the database

    A column value is [None] for SQL NULL; a condition is [None] when
    its truth value is unknown. *)

Definition sql_is_not_null (v : option str) : option bool :=
  Some (match v with Some _ => true | None => false end).

(** [v != lit] *)
Definition sql_ne (v : option str) (lit : str) : option bool :=
  match v with
  | Some s => Some (negb (bool_decide (s = lit)))
  | None => None
  end.

Definition sql_and (a b : option bool) : option bool :=
  match a, b with
  | Some false, _ | _, Some false => Some false
  | Some true, Some true => Some true
  | _, _ => None
  end.

(** [SUBSTRING(s, from, count)] with [from >= 1]. *)
Definition SUBSTRING (s : str) (from count : nat) : str :=
  take count (drop (from - 1) s).

(** Lines 196-202 and 304-310, the column [birth_date]:
    [CASE WHEN birthday IS NOT NULL AND birthday != '' THEN
       SUBSTRING(birthday, 1, 4) || '年' || SUBSTRING(birthday, 5, 2) || '月'
       || SUBSTRING(birthday, 7, 2) || '日'
     ELSE '生年月日不明' END]
    The comparison and [SUBSTRING] are those of the type [text].  On a
    [character(n)] column PostgreSQL disregards trailing blanks in the
    comparison and removes them before [SUBSTRING]: there the two agree
    on every value that does not end in a blank, and [birthday] stands
    for the stored value without its padding. *)
Definition birth_date (birthday : option str) : str :=
  match sql_and (sql_is_not_null birthday) (sql_ne birthday []), birthday with
  | Some true, Some b =>
    SUBSTRING b 1 4 ++ u "年" ++ SUBSTRING b 5 2 ++ u "月" ++ SUBSTRING b 7 2 ++ u "日"
  | _, _ => u "生年月日不明"
  end.

(** Lines 191-195 and 299-303, the column [gender]. *)
Definition gender (sex : option str) : str :=
  if bool_decide (sex = Some (u "1")) then u "男性"
  else if bool_decide (sex = Some (u "2")) then u "女性"
  else u "不明".

(** Lines 203-206, the column [status]. *)
Definition status (deathkbn : option str) : str :=
  match sql_and (sql_is_not_null deathkbn) (sql_ne deathkbn (u " ")) with
  | Some true => u "死亡"
  | _ => u "生存"
  end.

(** *** Formatting done by the script *)

(** [if len(s) > threshold: s = s[:keep] + "..."] on text. *)
Definition truncate (threshold keep : nat) (s : str) : str :=
  if threshold <? length s then slice 0 keep s ++ u "..." else s.

(** The same statement on a cell: [len] raises on a value that is not
    text. *)
Definition truncate_cell (threshold keep : nat) (c : cell) : result cell :=
  match c with
  | Str s => Ret (Str (truncate threshold keep s))
  | other =>
    match len other with
    | Raise e => Raise e
    | Ret _ => Ret other
    end
  end.

(** Lines 428-441 and 472-476: the two literals hold the same entries. *)
Definition dept_map : gmap str str :=
  list_to_map
    [ (u "01", u "内科"); (u "02", u "外科"); (u "03", u "小児科");
      (u "04", u "産婦人科"); (u "05", u "眼科"); (u "06", u "耳鼻科");
      (u "07", u "皮膚科"); (u "08", u "泌尿器科"); (u "09", u "整形外科");
      (u "10", u "脳神経外科"); (u "11", u "呼吸器科"); (u "12", u "循環器科") ].

(** [dept_map.get(code, code or default)] *)
Definition dept_map_get (code : cell) (default : str) : cell :=
  match code with
  | Str s =>
    match dept_map !! s with
    | Some name => Str name
    | None => or_ code default
    end
  | _ => or_ code default
  end.

(** Line 442, the per-visit table. *)
Definition dept_name (sryka : cell) : cell := dept_map_get sryka (u "未設定").

(** Line 477, the department breakdown. *)
Definition dept_name_statistics (dept : cell) : cell := dept_map_get dept (u "不明").

(** Lines 417-421. *)
Definition time_str (uketime : cell) : result cell :=
  if truthy uketime then
    match len uketime with
    | Raise e => Raise e
    | Ret n =>
      if 6 <=? n then
        match slice_cell 0 2 uketime, slice_cell 2 4 uketime, slice_cell 4 6 uketime with
        | Ret hh, Ret mm, Ret ss => Ret (Str (hh ++ u ":" ++ mm ++ u ":" ++ ss))
        | Raise e, _, _ | _, Raise e, _ | _, _, Raise e => Raise e
        end
      else Ret (or_ uketime (u "未設定"))
    end
  else Ret (or_ uketime (u "未設定")).

(** [a or b] on two cells. *)
Definition or_cell (a b : cell) : cell := if truthy a then a else b.

(** The threshold, the kept prefix and the column width of the name
    and phonetic-name columns: lines 234-239 ([> 18], [[:15]], [^20]),
    lines 340-347 ([> 13], [[:10]], [^15]) and lines 445-450 ([> 18],
    [[:15]], [^20] for the name; [> 16], [[:13]], [^18] for the
    phonetic name). *)
Definition name_columns : list (nat * nat * nat) :=
  [ (18, 15, 20); (13, 10, 15); (16, 13, 18) ].

(** [a, b, ... = r] with [n] targets, when [r] does not have [n] entries. *)
Definition unpack_error (n : nat) (r : row) : exn :=
  if length r <? n then
    ValueError (u "not enough values to unpack (expected " ++ str_of_nat n
                ++ u ", got " ++ str_of_nat (length r) ++ u ")")
  else ValueError (u "too many values to unpack (expected " ++ str_of_nat n ++ u ")").

(** The connection string of lines 172-179, 280-287, 364-371 and 558-565. *)
Definition connection_string : str :=
  u "DRIVER={PostgreSQL Unicode};SERVER=localhost;PORT=5432;DATABASE=orca;UID=orca;PWD=orca;".

(** The dictionary returned by [test_connection] (its [connection]
    entry, the closed connection, is left out). *)
Record connection_info := ConnectionInfo {
  info_driver : str;
  info_version : cell;
  info_database : cell;
  info_user : cell;
  info_encoding : cell
}.

Section Routines.

Variable env : environment.

(** Lines 14-77. *)
Definition test_connection (connection_string driver_name : str)
    : M (option connection_info) :=
  try_except
    (print (nl ++ u "=== Testing " ++ driver_name ++ u " Driver ===") ;;
     print (u "Connection string: " ++ connection_string) ;;
     perform env (connect connection_string (Some 10%Z)) ;;
     perform env cursor ;;
     perform env (execute sql_version []) ;;
     version <- fetchone_0 env ;;
     perform env (execute sql_current_database []) ;;
     database <- fetchone_0 env ;;
     perform env (execute sql_current_user []) ;;
     user <- fetchone_0 env ;;
     perform env (execute sql_server_encoding []) ;;
     encoding <- fetchone_0 env ;;
     print (u "✓ Connection successful!") ;;
     print (u "  Database: " ++ str_of_cell database) ;;
     print (u "  User: " ++ str_of_cell user) ;;
     print (u "  PostgreSQL Version: " ++ str_of_cell version) ;;
     print (u "  Encoding: " ++ str_of_cell encoding) ;;
     perform env cursor_close ;;
     perform env connection_close ;;
     ret (Some (ConnectionInfo driver_name version database user encoding)))
    [ (is_pyodbc_Error,
       fun e => print (u "✗ Connection failed: " ++ str_of_exn e) ;; ret None);
      (is_Exception,
       fun e => print (u "✗ Unexpected error: " ++ str_of_exn e) ;; ret None) ].

(** Lines 80-86. *)
Definition list_available_drivers : M (list str) :=
  print (u "=== Available ODBC Drivers ===") ;;
  ds <- perform env drivers ;;
  for_each (combine (seq 1 (length ds)) ds)
    (fun id => print (str_of_nat (fst id) ++ u ". " ++ snd id)) ;;
  ret ds.

(** Lines 108-112: database, uid, pwd. *)
Definition alternative_params : list (str * str * str) :=
  [ (u "receipt", u "receipt", u "receipt");
    (u "weborca", u "weborca", u "weborca");
    (u "postgres", u "postgres", []) ].

(** Lines 115-122, 128-135 and 145-152 with the values of
    [connection_params]. *)
Definition driver_connection_string (driver database uid pwd : str) : str :=
  u "DRIVER={" ++ driver ++ u "};" ++ u "SERVER=localhost;" ++ u "PORT=5432;"
  ++ u "DATABASE=" ++ database ++ u ";" ++ u "UID=" ++ uid ++ u ";"
  ++ u "PWD=" ++ pwd ++ u ";".

(** Lines 142-156: the loop leaves at the first connection that works. *)
Fixpoint try_alternatives (alts : list (str * str * str)) : M unit :=
  match alts with
  | [] => ret tt
  | (database, uid, pwd) :: rest =>
    print (nl ++ u "Trying database: " ++ database ++ u ", user: " ++ uid) ;;
    result <- test_connection
                (driver_connection_string (u "PostgreSQL ANSI") database uid pwd)
                (u "PostgreSQL ANSI (" ++ database ++ u ")") ;;
    match result with
    | Some _ => ret tt
    | None => try_alternatives rest
    end
  end.

(** Lines 89-164. *)
Definition test_orca_database : M unit :=
  print (u "Web ORCA PostgreSQL ODBC Connection Test") ;;
  print (rule 50) ;;
  list_available_drivers ;;
  result_ansi <- test_connection
    (driver_connection_string (u "PostgreSQL ANSI") (u "orca") (u "orca") (u "orca"))
    (u "PostgreSQL ANSI") ;;
  match result_ansi with
  | Some _ => ret tt
  | None =>
    result_unicode <- test_connection
      (driver_connection_string (u "PostgreSQL Unicode") (u "orca") (u "orca") (u "orca"))
      (u "PostgreSQL Unicode") ;;
    match result_unicode with
    | Some _ => ret tt
    | None =>
      print (nl ++ u "=== Trying Alternative Connection Parameters ===") ;;
      try_alternatives alternative_params
    end
  end ;;
  print (nl ++ u "=== Connection Test Summary ===") ;;
  print (u "If all connections failed, check:") ;;
  print (u "1. PostgreSQL is running and accepting connections") ;;
  print (u "2. Database name, username, and password are correct") ;;
  print (u "3. User has proper permissions to access the database") ;;
  print (u "4. ODBC drivers are properly installed") ;;
  print (u "5. Firewall settings allow database connections").

(** The two [except] clauses that close [list_patients],
    [search_patients] and [show_todays_visits]. *)
Definition database_handlers : list ((exn -> bool) * (exn -> M unit)) :=
  [ (is_pyodbc_Error,
     fun e => print (u "✗ データベース接続エラー: " ++ str_of_exn e));
    (is_Exception,
     fun e => print (u "✗ 予期しないエラー: " ++ str_of_exn e)) ].

Definition fmt (a : align) (width : nat) (c : cell) : M str :=
  lift (format a width c).

(** Line 222. *)
Definition patients_header : str :=
  pad AlignRight 4 (u "ID") ++ u " | " ++ pad AlignCenter 20 (u "患者名") ++ u " | "
  ++ pad AlignCenter 20 (u "フリガナ") ++ u " | " ++ pad AlignCenter 6 (u "性別")
  ++ u " | " ++ pad AlignCenter 12 (u "生年月日") ++ u " | "
  ++ pad AlignCenter 6 (u "状態").

(** Lines 225-239, one turn of the loop. *)
Definition list_patients_row (patient : row) : M unit :=
  ptid <- index patient 0 ;;
  name <- index patient 1 ;;
  let name := or_ name (u "名前なし") in
  kananame <- index patient 2 ;;
  let kananame := or_ kananame (u "フリガナなし") in
  gender <- index patient 3 ;;
  birth_date <- index patient 4 ;;
  status <- index patient 5 ;;
  name <- lift (truncate_cell 18 15 name) ;;
  kananame <- lift (truncate_cell 18 15 kananame) ;;
  f0 <- fmt AlignRight 4 ptid ;;
  f1 <- fmt AlignCenter 20 name ;;
  f2 <- fmt AlignCenter 20 kananame ;;
  f3 <- fmt AlignCenter 6 gender ;;
  f4 <- fmt AlignCenter 12 birth_date ;;
  f5 <- fmt AlignCenter 6 status ;;
  print (f0 ++ u " | " ++ f1 ++ u " | " ++ f2 ++ u " | " ++ f3 ++ u " | " ++ f4
         ++ u " | " ++ f5).

(** Lines 167-268. *)
Definition list_patients : M unit :=
  print (nl ++ u "=== Patient List ===") ;;
  try_except
    (perform env (connect connection_string (Some 10%Z)) ;;
     perform env cursor ;;
     perform env (execute sql_patients []) ;;
     patients <- perform env fetchall ;;
     match patients with
     | [] => print (u "患者データが見つかりませんでした。")
     | _ =>
       print (u "登録患者数: " ++ str_of_nat (length patients) ++ u "名" ++ nl) ;;
       print (rule 80) ;;
       print patients_header ;;
       print (rule 80) ;;
       for_each patients list_patients_row ;;
       print (rule 80) ;;
       print (nl ++ u "=== 統計情報 ===") ;;
       perform env (execute sql_patient_statistics []) ;;
       stats <- perform env fetchone ;;
       match stats with
       | Some (c :: r) =>
         let stats := c :: r in
         s0 <- index stats 0 ;;
         print (u "総患者数: " ++ str_of_cell s0 ++ u "名") ;;
         s1 <- index stats 1 ;;
         print (u "男性: " ++ str_of_cell s1 ++ u "名") ;;
         s2 <- index stats 2 ;;
         print (u "女性: " ++ str_of_cell s2 ++ u "名") ;;
         s3 <- index stats 3 ;;
         print (u "死亡: " ++ str_of_cell s3 ++ u "名")
       | _ => ret tt
       end ;;
       perform env cursor_close ;;
       perform env connection_close
     end)
    database_handlers.

(** Line 328. *)
Definition search_header : str :=
  pad AlignRight 4 (u "ID") ++ u " | " ++ pad AlignCenter 15 (u "患者名") ++ u " | "
  ++ pad AlignCenter 15 (u "フリガナ") ++ u " | " ++ pad AlignCenter 6 (u "性別")
  ++ u " | " ++ pad AlignCenter 12 (u "生年月日") ++ u " | "
  ++ pad AlignCenter 15 (u "電話番号").

(** Lines 331-347, one turn of the loop. *)
Definition search_patients_row (patient : row) : M unit :=
  ptid <- index patient 0 ;;
  name <- index patient 1 ;;
  let name := or_ name (u "名前なし") in
  kananame <- index patient 2 ;;
  let kananame := or_ kananame (u "フリガナなし") in
  gender <- index patient 3 ;;
  birth_date <- index patient 4 ;;
  phone <- index patient 5 ;;
  let phone := or_ phone (u "未登録") in
  name <- lift (truncate_cell 13 10 name) ;;
  kananame <- lift (truncate_cell 13 10 kananame) ;;
  phone <- lift (truncate_cell 13 10 phone) ;;
  f0 <- fmt AlignRight 4 ptid ;;
  f1 <- fmt AlignCenter 15 name ;;
  f2 <- fmt AlignCenter 15 kananame ;;
  f3 <- fmt AlignCenter 6 gender ;;
  f4 <- fmt AlignCenter 12 birth_date ;;
  f5 <- fmt AlignCenter 15 phone ;;
  print (f0 ++ u " | " ++ f1 ++ u " | " ++ f2 ++ u " | " ++ f3 ++ u " | " ++ f4
         ++ u " | " ++ f5).

(** Line 324. *)
Definition no_match_message (search_term : str) : str :=
  u "「" ++ search_term ++ u "」に一致する患者が見つかりませんでした。".

(** Lines 271-357. *)
Definition search_patients : M unit :=
  print (nl ++ u "=== 患者検索 ===") ;;
  typed <- perform env (input (u "患者名またはフリガナを入力してください: ")) ;;
  let search_term := strip typed in
  match search_term with
  | [] => print (u "検索語を入力してください。")
  | _ =>
    try_except
      (perform env (connect connection_string (Some 10%Z)) ;;
       perform env cursor ;;
       let search_pattern := Str (u "%" ++ search_term ++ u "%") in
       perform env (execute sql_search [search_pattern; search_pattern]) ;;
       results <- perform env fetchall ;;
       match results with
       | [] => print (no_match_message search_term)
       | _ =>
         print (u "検索結果: " ++ str_of_nat (length results) ++ u "件" ++ nl) ;;
         print (rule 100) ;;
         print search_header ;;
         print (rule 100) ;;
         for_each results search_patients_row ;;
         print (rule 100)
       end ;;
       perform env cursor_close ;;
       perform env connection_close)
      database_handlers
  end.

(** [f"{today[:4]}年{today[4:6]}月{today[6:8]}日"], lines 406 and 409. *)
Definition today_text (today : cell) : result str :=
  match slice_cell 0 4 today, slice_cell 4 6 today, slice_cell 6 8 today with
  | Ret y, Ret m, Ret d => Ret (y ++ u "年" ++ m ++ u "月" ++ d ++ u "日")
  | Raise e, _, _ | _, Raise e, _ | _, _, Raise e => Raise e
  end.

(** Line 406. *)
Definition no_visits_message (today : str) : str :=
  u "本日（" ++ today ++ u "）の来院患者はいません。".

(** Line 411. *)
Definition visits_header : str :=
  pad AlignCenter 12 (u "来院時刻") ++ u " | " ++ pad AlignCenter 8 (u "患者ID")
  ++ u " | " ++ pad AlignCenter 20 (u "患者名") ++ u " | "
  ++ pad AlignCenter 18 (u "フリガナ") ++ u " | " ++ pad AlignCenter 8 (u "診療科").

(** Lines 414-450, one turn of the loop. *)
Definition show_todays_visits_row (visit : row) : M unit :=
  match visit with
  | [ukeymd; uketime; ptid; name; sryka; full_name; kananame; sex; birthday] =>
    time_str <- lift (time_str uketime) ;;
    let patient_name := or_ (or_cell name full_name) (u "名前なし") in
    let patient_kana := or_ kananame (u "フリガナなし") in
    let dept_name := dept_name sryka in
    patient_name <- lift (truncate_cell 18 15 patient_name) ;;
    patient_kana <- lift (truncate_cell 16 13 patient_kana) ;;
    f0 <- fmt AlignCenter 12 time_str ;;
    f1 <- fmt AlignCenter 8 ptid ;;
    f2 <- fmt AlignCenter 20 patient_name ;;
    f3 <- fmt AlignCenter 18 patient_kana ;;
    f4 <- fmt AlignCenter 8 dept_name ;;
    print (f0 ++ u " | " ++ f1 ++ u " | " ++ f2 ++ u " | " ++ f3 ++ u " | " ++ f4)
  | _ => raise (unpack_error 9 visit)
  end.

(** Lines 471-478, one turn of the loop. *)
Definition department_count_row (r : row) : M unit :=
  match r with
  | [dept; count] =>
    print (str_of_cell (dept_name_statistics dept) ++ u ": " ++ str_of_cell count
           ++ u "名")
  | _ => raise (unpack_error 2 r)
  end.

(** Lines 360-486. *)
Definition show_todays_visits : M unit :=
  print (nl ++ u "=== 本日の来院患者 ===") ;;
  try_except
    (perform env (connect connection_string (Some 10%Z)) ;;
     perform env cursor ;;
     perform env (execute sql_today []) ;;
     today <- fetchone_0 env ;;
     perform env (execute sql_visits [today]) ;;
     visits <- perform env fetchall ;;
     match visits with
     | [] =>
       day <- lift (today_text today) ;;
       print (no_visits_message day)
     | _ =>
       day <- lift (today_text today) ;;
       print (u "本日（" ++ day ++ u "）の来院患者数: " ++ str_of_nat (length visits)
              ++ u "名" ++ nl) ;;
       print (rule 90) ;;
       print visits_header ;;
       print (rule 90) ;;
       for_each visits show_todays_visits_row ;;
       print (rule 90) ;;
       print (nl ++ u "=== 診療科別統計 ===") ;;
       perform env (execute sql_department_counts [today]) ;;
       dept_stats <- perform env fetchall ;;
       for_each dept_stats department_count_row ;;
       perform env cursor_close ;;
       perform env connection_close
     end)
    database_handlers.

(** [input(prompt) or default] *)
Definition input_or (prompt default : str) : M str :=
  typed <- perform env (input prompt) ;;
  ret (match typed with [] => default | _ => typed end).

(** Lines 489-521. *)
Definition test_specific_connection : M unit :=
  print (nl ++ u "=== Custom Connection Test ===") ;;
  server <- input_or (u "Enter server (default: localhost): ") (u "localhost") ;;
  port <- input_or (u "Enter port (default: 5432): ") (u "5432") ;;
  database <- perform env (input (u "Enter database name: ")) ;;
  username <- perform env (input (u "Enter username: ")) ;;
  password <- perform env (input (u "Enter password: ")) ;;
  match database, username with
  | _ :: _, _ :: _ =>
    print (nl ++ u "Available PostgreSQL drivers:") ;;
    print (u "1. PostgreSQL ANSI") ;;
    print (u "2. PostgreSQL Unicode") ;;
    choice <- input_or (u "Choose driver (1 or 2, default: 1): ") (u "1") ;;
    let driver :=
      if bool_decide (choice = u "1") then u "PostgreSQL ANSI"
      else u "PostgreSQL Unicode" in
    test_connection
      (u "DRIVER={" ++ driver ++ u "};" ++ u "SERVER=" ++ server ++ u ";"
       ++ u "PORT=" ++ port ++ u ";" ++ u "DATABASE=" ++ database ++ u ";"
       ++ u "UID=" ++ username ++ u ";" ++ u "PWD=" ++ password ++ u ";")
      driver ;;
    ret tt
  | _, _ => print (u "Database name and username are required!")
  end.

(** Lines 567-612: the patient summary of the default mode. *)
Definition patient_summary (argv0 : str) : M unit :=
  try_except
    (perform env (connect connection_string (Some 10%Z)) ;;
     perform env cursor ;;
     perform env (execute sql_patient_summary []) ;;
     stats <- perform env fetchone ;;
     positive <-
       match stats with
       | Some (c :: r) => lift (gt_0 c)
       | _ => ret false
       end ;;
     (if positive : bool then
        let stats := default [] stats in
        print (nl ++ u "=== 患者データ概要 ===") ;;
        s0 <- index stats 0 ;;
        print (u "登録患者数: " ++ str_of_cell s0 ++ u "名") ;;
        s1 <- index stats 1 ;;
        s2 <- index stats 2 ;;
        print (u "男性: " ++ str_of_cell s1 ++ u "名, 女性: " ++ str_of_cell s2 ++ u "名") ;;
        perform env (execute sql_today []) ;;
        today <- fetchone_0 env ;;
        perform env (execute sql_visit_count [today]) ;;
        today_visits <- fetchone_0 env ;;
        print (u "本日の来院患者数: " ++ str_of_cell today_visits ++ u "名") ;;
        print (nl ++ u "患者一覧を表示するには: python3 " ++ argv0 ++ u " --patients") ;;
        print (u "患者を検索するには: python3 " ++ argv0 ++ u " --search") ;;
        print (u "本日の来院患者を表示するには: python3 " ++ argv0 ++ u " --today")
      else print (u "患者データが登録されていません。")) ;;
     perform env cursor_close ;;
     perform env connection_close)
    [ (is_Exception,
       fun e => print (u "患者データの取得に失敗しました: " ++ str_of_exn e)) ].

(** Lines 529-612: the mode chosen by [sys.argv[1]]. *)
Definition dispatch (argv0 : str) (args : list str) : M unit :=
  match args with
  | option :: _ =>
    if bool_decide (option = u "--interactive") then test_specific_connection
    else if bool_decide (option = u "--patients") then list_patients
    else if bool_decide (option = u "--search") then search_patients
    else if bool_decide (option = u "--today") then show_todays_visits
    else if bool_decide (option = u "--help") then
      print (u "Web ORCA PostgreSQL ODBC Connection Test Script") ;;
      print (nl ++ u "Usage:") ;;
      print (u "  python3 test_orca_odbc.py                - Test ODBC connection") ;;
      print (u "  python3 test_orca_odbc.py --patients     - List all patients") ;;
      print (u "  python3 test_orca_odbc.py --search       - Search patients by name") ;;
      print (u "  python3 test_orca_odbc.py --today        - Show today's visits") ;;
      print (u "  python3 test_orca_odbc.py --interactive  - Custom connection test") ;;
      print (u "  python3 test_orca_odbc.py --help         - Show this help")
    else
      print (u "Unknown option: " ++ option) ;;
      print (u "Use --help to see available options.")
  | [] =>
    test_orca_database ;;
    print (nl ++ rule 50) ;;
    print (u "患者データの概要を表示しています...") ;;
    patient_summary argv0
  end.

(** Lines 524-623: the body run as a script; the value is the
    argument of [sys.exit], 0 when the end of the script is reached. *)
Definition main_block (installed : bool) (argv0 : str) (args : list str) : M Z :=
  try_except
    (import_pyodbc installed ;;
     dispatch argv0 args ;;
     ret 0%Z)
    [ (is_ImportError,
       fun _ =>
         print (u "Error: pyodbc module is not installed.") ;;
         print (u "Please install it using: pip install pyodbc") ;;
         ret 1%Z);
      (is_KeyboardInterrupt,
       fun _ => print (nl ++ u "Test interrupted by user.") ;; ret 0%Z);
      (is_Exception,
       fun e => print (u "Unexpected error: " ++ str_of_exn e) ;; ret 1%Z) ].

(** The whole script: the imports of lines 9-11, then the body.  The
    value is the exit status of the process. *)
Definition script (installed : bool) (argv0 : str) (args : list str) : M Z :=
  import_pyodbc installed ;;
  main_block installed argv0 args.

End Routines.

End test_orca_odbc.

(** ** connection_troubleshoot.py *)

Module connection_troubleshoot.

(** The dictionary returned by [test_connection_with_ssl_modes]. *)
Inductive ssl_result :=
| Success (ssl_mode : str) (version : cell)
| Failure.

Definition success (r : ssl_result) : bool :=
  match r with Success _ _ => true | Failure => false end.

(** Lines 14-19. *)
Definition ssl_modes : list (str * str) :=
  [ (u "disable", u "No SSL encryption");
    (u "allow", u "SSL if server prefers it");
    (u "prefer", u "SSL preferred but optional");
    (u "require", u "SSL required") ].

(** Lines 27-35. *)
Definition connection_string (server port database user password ssl_mode : str) : str :=
  u "DRIVER={PostgreSQL Unicode};" ++ u "SERVER=" ++ server ++ u ";"
  ++ u "PORT=" ++ port ++ u ";" ++ u "DATABASE=" ++ database ++ u ";"
  ++ u "UID=" ++ user ++ u ";" ++ u "PWD=" ++ password ++ u ";"
  ++ u "SSLMode=" ++ ssl_mode ++ u ";".

(** Lines 80-98, the list [entries]. *)
Definition pg_hba_entries (databases users : list str) (client_ip : str) : list str :=
  [ u "# Add these lines to pg_hba.conf on the PostgreSQL server";
    u "# (Replace /32 with appropriate subnet if needed)";
    [] ]
  ++ flat_map (fun db =>
       flat_map (fun user =>
         [ u "hostssl    " ++ pad AlignLeft 12 db ++ u " " ++ pad AlignLeft 12 user
           ++ u " " ++ client_ip ++ u "/32        md5";
           u "host       " ++ pad AlignLeft 12 db ++ u " " ++ pad AlignLeft 12 user
           ++ u " " ++ client_ip ++ u "/32        md5" ]) users) databases
  ++ [ [];
       u "# After adding these lines:";
       u "# 1. Save the pg_hba.conf file";
       u "# 2. Restart PostgreSQL or run: SELECT pg_reload_conf();";
       u "# 3. Test the connection again" ].

(** Lines 77-98. *)
Definition generate_pg_hba_entries (databases users : list str) (client_ip : str) : str :=
  join_lines (pg_hba_entries databases users client_ip).

(** Lines 108-113: database, user, password. *)
Definition test_configs : list (str * str * str) :=
  [ (u "orca", u "orca", u "orca");
    (u "receipt", u "receipt", u "receipt");
    (u "weborca", u "weborca", u "weborca");
    (u "postgres", u "postgres", []) ].

Section Routines.

Variable env : environment.

(** Lines 62-73. *)
Definition analyze (database error_msg : str) : M unit :=
  if contains (u "pg_hba.conf entry") error_msg then
    if contains (u "100.89.18.15") error_msg then
      print (u "  → Authentication issue: Your IP (100.89.18.15) is not allowed") ;;
      if contains (u "SSL encryption") error_msg then
        print (u "  → Server requires SSL but your IP is not in pg_hba.conf for SSL connections")
      else if contains (u "no encryption") error_msg then
        print (u "  → Server allows non-SSL but your IP is not in pg_hba.conf")
      else ret tt
    else ret tt
  else if contains (u "authentication failed") error_msg then
    print (u "  → Wrong username/password")
  else if contains (u "database") error_msg && contains (u "does not exist") error_msg then
    print (u "  → Database '" ++ database ++ u "' does not exist")
  else ret tt.

(** Lines 57-73: the clause [except pyodbc.Error as e] of an attempt;
    [None] lets the loop go on. *)
Definition attempt_failed (database ssl_mode : str) (e : exn)
    : M (option ssl_result) :=
  let error_msg := str_of_exn e in
  print (u "✗ FAILED with SSL mode: " ++ ssl_mode) ;;
  print (u "  Error: " ++ error_msg) ;;
  analyze database error_msg ;;
  ret None.

(** Lines 37-73: one connection attempt; [Some] is the value returned
    from inside the loop. *)
Definition attempt (server port database user password ssl_mode : str)
    : M (option ssl_result) :=
  let connection_string :=
    connection_string server port database user password ssl_mode in
  try_except
    (print (u "Connection string: " ++ connection_string) ;;
     perform env (connect connection_string (Some 10%Z)) ;;
     perform env cursor ;;
     perform env (execute sql_version []) ;;
     version <- fetchone_0 env ;;
     perform env cursor_close ;;
     perform env connection_close ;;
     print (u "✓ SUCCESS with SSL mode: " ++ ssl_mode) ;;
     print (u "  PostgreSQL Version: " ++ str_of_cell version) ;;
     ret (Some (Success ssl_mode version)))
    [ (is_pyodbc_Error, attempt_failed database ssl_mode) ].

(** Lines 24-75: the loop over the modes and the value returned after it. *)
Fixpoint try_ssl_modes (server port database user password : str)
    (modes : list (str * str)) : M ssl_result :=
  match modes with
  | [] => ret Failure
  | (ssl_mode, description) :: rest =>
    print (nl ++ u "Trying SSL Mode: " ++ ssl_mode ++ u " (" ++ description ++ u ")") ;;
    returned <- attempt server port database user password ssl_mode ;;
    match returned with
    | Some result => ret result
    | None => try_ssl_modes server port database user password rest
    end
  end.

(** Lines 11-75. *)
Definition test_connection_with_ssl_modes (server port database user password : str)
    : M ssl_result :=
  print (nl ++ u "=== Testing connection to " ++ database ++ u "@" ++ server
         ++ u " as " ++ user ++ u " ===") ;;
  print (u "Your client IP appears to be: 100.89.18.15") ;;
  try_ssl_modes server port database user password ssl_modes.

(** Lines 117-126: the loop that fills [successful_connections]. *)
Fixpoint test_all (server port : str) (configs : list (str * str * str))
    : M (list (str * str * str)) :=
  match configs with
  | [] => ret []
  | (database, user, password) :: rest =>
    result <- test_connection_with_ssl_modes server port database user password ;;
    successful <- test_all server port rest ;;
    ret (if success result then (database, user, password) :: successful
         else successful)
  end.

(** Lines 138-163: what is printed when no connection worked. *)
Definition print_solutions : M unit :=
  print (u "✗ No successful connections") ;;
  print (nl ++ u "ROOT CAUSE:") ;;
  print (u "The PostgreSQL server's pg_hba.conf file does not allow") ;;
  print (u "connections from your IP address (100.89.18.15).") ;;
  print (nl ++ rule 60) ;;
  print (u "SOLUTION FOR DATABASE ADMINISTRATOR") ;;
  print (rule 60) ;;
  let databases := map (fun c => fst (fst c)) test_configs in
  let users := map (fun c => snd (fst c)) test_configs in
  let pg_hba_config := generate_pg_hba_entries databases users (u "100.89.18.15") in
  print pg_hba_config ;;
  print (nl ++ rule 60) ;;
  print (u "ALTERNATIVE SOLUTIONS") ;;
  print (rule 60) ;;
  print (u "1. VPN/Tunnel: Connect through a VPN that routes through an allowed IP") ;;
  print (u "2. SSH Tunnel: Create an SSH tunnel to the database server") ;;
  print (u "   Example: ssh -L 5432:localhost:5432 user@100.126.66.97") ;;
  print (u "   Then connect to localhost:5432 instead") ;;
  print (u "3. Proxy: Use a database proxy server located in an allowed network") ;;
  print (nl ++ u "4. Request firewall/network changes to allow your IP:") ;;
  print (u "   Your IP: 100.89.18.15") ;;
  print (u "   Target: 100.126.66.97:5432").

(** Lines 100-163. *)
Definition main : M unit :=
  print (u "PostgreSQL Connection Troubleshooting Tool") ;;
  print (rule 60) ;;
  successful_connections <- test_all (u "100.126.66.97") (u "5432") test_configs ;;
  print (nl ++ rule 60) ;;
  print (u "TROUBLESHOOTING SUMMARY") ;;
  print (rule 60) ;;
  match successful_connections with
  | _ :: _ =>
    print (u "✓ Successfully connected to "
           ++ str_of_nat (length successful_connections) ++ u " database(s)") ;;
    for_each successful_connections
      (fun conn => print (u "  - " ++ fst (fst conn) ++ u " as " ++ snd (fst conn)))
  | [] => print_solutions
  end.

(** Lines 165-173: the body run as a script; the value is the
    argument of [sys.exit], 0 when the end of the script is reached. *)
Definition main_block : M Z :=
  try_except
    (main ;; ret 0%Z)
    [ (is_KeyboardInterrupt,
       fun _ => print (nl ++ u "Troubleshooting interrupted by user.") ;; ret 0%Z);
      (is_Exception,
       fun e => print (u "Unexpected error: " ++ str_of_exn e) ;; ret 1%Z) ].

(** The whole script: the imports of lines 7-9, then the body.  The
    value is the exit status of the process. *)
Definition script (installed : bool) : M Z :=
  import_pyodbc installed ;;
  main_block.

End Routines.

End connection_troubleshoot.

(** ** Notions used to state the properties *)

Module Spec.

(** A call together with the answer of the environment to it. *)
Definition answer (c : call) (r : result (reply c)) : {c : call & result (reply c)} :=
  existT c r.

(** From the [n]-th call on, the environment answers the listed calls
    with the listed answers. *)
Fixpoint answers (env : environment) (n : nat)
    (l : list {c : call & result (reply c)}) : Prop :=
  match l with
  | [] => True
  | existT c r :: rest => env n c = r /\ answers env (S n) rest
  end.

(** The exceptions a routine can let out satisfy [P]. *)
Definition raises_only {A} (P : exn -> Prop) (m : M A) : Prop :=
  forall w, match fst (m w) with
            | Raise e => P e
            | Ret _ => True
            end.

(** Whatever goes wrong in the driver is reported as [pyodbc.Error],
    and a row that is fetched has a first column. *)
Definition driver_level_failures_only (env : environment) : Prop :=
  forall n c,
    match env n c with
    | Raise e => is_pyodbc_Error e = true
    | Ret v =>
      match c return reply c -> Prop with
      | fetchone => fun v => exists c r, v = Some (c :: r)
      | _ => fun _ => True
      end v
    end.

(** The connection strings of the [connect] calls of a list of calls. *)
Fixpoint connects (calls : list call) : list str :=
  match calls with
  | [] => []
  | connect connection_string _ :: rest => connection_string :: connects rest
  | _ :: rest => connects rest
  end.

(** The six answers that make a connection attempt of
    [connection_troubleshoot.py] succeed. *)
Definition successful_attempt (connection_string : str) (version : cell) (columns : row)
    : list {c : call & result (reply c)} :=
  [ answer (connect connection_string (Some 10%Z)) (Ret tt);
    answer cursor (Ret tt);
    answer (execute sql_version []) (Ret tt);
    answer fetchone (Ret (Some (version :: columns)));
    answer cursor_close (Ret tt);
    answer connection_close (Ret tt) ].

(** Every credential set of [configs], tested in turn from the world
    [w] on, ends without a connection; [w'] is the world after the
    last test. *)
Inductive all_fail (env : environment) (server port : str)
    : list (str * str * str) -> world -> world -> Prop :=
| all_fail_nil (w : world) : all_fail env server port [] w w
| all_fail_cons (database user password : str) (rest : list (str * str * str))
    (w w1 w2 : world) :
    connection_troubleshoot.test_connection_with_ssl_modes env server port database user
      password w = (Ret connection_troubleshoot.Failure, w1) ->
    all_fail env server port rest w1 w2 ->
    all_fail env server port ((database, user, password) :: rest) w w2.

(** The two rules of lines 88 and 90 for one database and one user. *)
Definition rules (client_ip : str) (pair : str * str) : list str :=
  [ u "hostssl    " ++ pad AlignLeft 12 (fst pair) ++ u " " ++ pad AlignLeft 12 (snd pair)
    ++ u " " ++ client_ip ++ u "/32        md5";
    u "host       " ++ pad AlignLeft 12 (fst pair) ++ u " " ++ pad AlignLeft 12 (snd pair)
    ++ u " " ++ client_ip ++ u "/32        md5" ].

(** What [connection_troubleshoot.main] prints after the summary
    heading when some connections worked (lines 133-135). *)
Definition success_lines (successful : list (str * str * str)) : list str :=
  (u "✓ Successfully connected to " ++ str_of_nat (length successful) ++ u " database(s)")
  :: map (fun conn => u "  - " ++ fst (fst conn) ++ u " as " ++ snd (fst conn)) successful.

(** The alternative solutions of lines 152-163. *)
Definition alternative_lines : list str :=
  [ nl ++ rule 60;
    u "ALTERNATIVE SOLUTIONS";
    rule 60;
    u "1. VPN/Tunnel: Connect through a VPN that routes through an allowed IP";
    u "2. SSH Tunnel: Create an SSH tunnel to the database server";
    u "   Example: ssh -L 5432:localhost:5432 user@100.126.66.97";
    u "   Then connect to localhost:5432 instead";
    u "3. Proxy: Use a database proxy server located in an allowed network";
    nl ++ u "4. Request firewall/network changes to allow your IP:";
    u "   Your IP: 100.89.18.15";
    u "   Target: 100.126.66.97:5432" ].

(** What it prints when none worked (lines 137-163). *)
Definition solution_lines : list str :=
  [ u "✗ No successful connections";
    nl ++ u "ROOT CAUSE:";
    u "The PostgreSQL server's pg_hba.conf file does not allow";
    u "connections from your IP address (100.89.18.15).";
    nl ++ rule 60;
    u "SOLUTION FOR DATABASE ADMINISTRATOR";
    rule 60;
    connection_troubleshoot.generate_pg_hba_entries
      (map (fun c => fst (fst c)) connection_troubleshoot.test_configs)
      (map (fun c => snd (fst c)) connection_troubleshoot.test_configs)
      (u "100.89.18.15") ]
  ++ alternative_lines.

(** The environment answered a call made between the worlds [w] and
    [w'] with the exception [e]. *)
Definition raised_in (env : environment) (w w' : world) (e : exn) : Prop :=
  exists n c, length (history w) <= n /\ trace w' !! n = Some c /\ env n c = Raise e.

(** Every exception of class [Q] with which the environment answers a
    call of the routine leaves the routine. *)
Definition propagates (env : environment) (Q : exn -> Prop) {A} (m : M A) : Prop :=
  forall w,
    (exists calls, history (snd (m w)) = calls ++ history w)
    /\ forall e, raised_in env w (snd (m w)) e -> Q e -> fst (m w) = Raise e.

(** Every line the routine prints satisfies [P]. *)
Definition prints_only (P : str -> Prop) {A} (m : M A) : Prop :=
  forall w, exists out, stdout (snd (m w)) = stdout w ++ out /\ Forall P out.

End Spec.

Import Spec.

(** ** Environments used in the examples *)

Module Scenario.

(** A database that is reachable and holds no patient and no visit;
    the day is 15 January 2024; the operator types the name Sato. *)
Definition empty_database : environment :=
  fun n c =>
    match c return result (reply c) with
    | connect _ _ | cursor | execute _ _ | cursor_close | connection_close => Ret tt
    | fetchone => Ret (Some [Str (u "20240115")])
    | fetchall => Ret []
    | drivers => Ret [u "PostgreSQL ANSI"; u "PostgreSQL Unicode"]
    | input _ => Ret (u "Sato")
    end.

(** A server that refuses every connection: the driver reports each
    failure as [pyodbc.Error]. *)
Definition refused : environment :=
  fun n c =>
    Raise (pyodbc_Error
             (u "FATAL: no pg_hba.conf entry for host 100.89.18.15, no encryption")).

(** A server that accepts every connection. *)
Definition reachable : environment :=
  fun n c =>
    match c return result (reply c) with
    | connect _ _ | cursor | execute _ _ | cursor_close | connection_close => Ret tt
    | fetchone => Ret (Some [Str (u "PostgreSQL 14.9")])
    | fetchall => Ret []
    | drivers => Ret [u "PostgreSQL ANSI"; u "PostgreSQL Unicode"]
    | input _ => Ret []
    end.

(** A database with one visit today, at 09:30:00, of patient 12,
    Tanaka, in the department [sryka]. *)
Definition one_visit (sryka : cell) : environment :=
  fun n c =>
    match c return result (reply c) with
    | connect _ _ | cursor | execute _ _ | cursor_close | connection_close => Ret tt
    | fetchone => Ret (Some [Str (u "20240115")])
    | fetchall =>
      if n <? 6 then
        Ret [ [ Str (u "20240115"); Str (u "093000"); Int 12; Str (u "Tanaka"); sryka;
                None_; None_; Str (u "1"); Str (u "19850423") ] ]
      else Ret [ [sryka; Int 1] ]
    | drivers => Ret []
    | input _ => Ret []
    end.

(** The operator interrupts the program while it connects. *)
Definition interrupted : environment :=
  fun n c => Raise KeyboardInterrupt.

(** The console is closed: [input] raises [EOFError]. *)
Definition closed_console : environment :=
  fun n c =>
    match c return result (reply c) with
    | connect _ _ | cursor | execute _ _ | cursor_close | connection_close => Ret tt
    | fetchone => Ret None
    | fetchall => Ret []
    | drivers => Ret []
    | input _ => Raise (EOFError (u "EOF when reading a line"))
    end.

(** A driver that fails inside [pyodbc.connect] with an error that is
    not a [pyodbc.Error]. *)
Definition generic_failure : environment :=
  fun n c =>
    match c return result (reply c) with
    | connect _ _ => Raise (OtherException (u "out of memory"))
    | cursor | execute _ _ | cursor_close | connection_close => Ret tt
    | fetchone => Ret (Some [Str (u "PostgreSQL 14.9")])
    | fetchall => Ret []
    | drivers => Ret []
    | input _ => Ret []
    end.

End Scenario.

(** ** check_today_visits.py: the lines of the two reports *)

Module check_today_visits_rows.

(** Line 71:
    [f"{ukeymd[:4]}/{ukeymd[4:6]}/{ukeymd[6:8]}" if ukeymd else "未設定"] *)
Definition date_str (ukeymd : cell) : result cell :=
  if truthy ukeymd then
    match slice_cell 0 4 ukeymd, slice_cell 4 6 ukeymd, slice_cell 6 8 ukeymd with
    | Ret yyyy, Ret mm, Ret dd => Ret (Str (yyyy ++ u "/" ++ mm ++ u "/" ++ dd))
    | Raise e, _, _ | _, Raise e, _ | _, _, Raise e => Raise e
    end
  else Ret (Str (u "未設定")).

(** Lines 40-42, one turn of the first loop. *)
Definition today_row (visit : row) : M unit :=
  match visit with
  | [ukeymd; uketime; ptid; name; sryka; full_name; kananame] =>
    time_str <- lift (check_today_visits.time_str uketime) ;;
    print (u "Patient ID: " ++ str_of_cell ptid ++ u ", Name: "
           ++ str_of_cell (test_orca_odbc.or_cell name full_name) ++ u ", Time: "
           ++ str_of_cell time_str ++ u ", Dept: " ++ str_of_cell sryka)
  | _ => raise (test_orca_odbc.unpack_error 7 visit)
  end.

(** Lines 70-73, one turn of the second loop. *)
Definition recent_row (visit : row) : M unit :=
  match visit with
  | [ukeymd; uketime; ptid; name; sryka; full_name; kananame] =>
    date_str <- lift (date_str ukeymd) ;;
    time_str <- lift (check_today_visits.time_str uketime) ;;
    print (u "Date: " ++ str_of_cell date_str ++ u ", Time: " ++ str_of_cell time_str
           ++ u ", Patient: " ++ str_of_cell (test_orca_odbc.or_cell name full_name))
  | _ => raise (test_orca_odbc.unpack_error 7 visit)
  end.

(** Lines 38-44. *)
Definition today_report (today_visits : list row) : M unit :=
  match today_visits with
  | [] => print (u "No visits found for today")
  | _ => for_each today_visits today_row
  end.

(** Lines 68-75. *)
Definition recent_report (recent_visits : list row) : M unit :=
  match recent_visits with
  | [] => print (u "No recent visits found")
  | _ => for_each recent_visits recent_row
  end.

End check_today_visits_rows.

(** ** Further notions used to state properties *)

Module Notions.

(** The twelve answers that make [test_orca_odbc.test_connection]
    succeed. *)
Definition successful_connection (connection_string : str)
    (version database user encoding : cell)
    : list {c : call & result (reply c)} :=
  [ answer (connect connection_string (Some 10%Z)) (Ret tt);
    answer cursor (Ret tt);
    answer (execute sql_version []) (Ret tt);
    answer fetchone (Ret (Some [version]));
    answer (execute sql_current_database []) (Ret tt);
    answer fetchone (Ret (Some [database]));
    answer (execute sql_current_user []) (Ret tt);
    answer fetchone (Ret (Some [user]));
    answer (execute sql_server_encoding []) (Ret tt);
    answer fetchone (Ret (Some [encoding]));
    answer cursor_close (Ret tt);
    answer connection_close (Ret tt) ].

(** The connection strings [test_orca_odbc.test_orca_database] can try,
    in the order of lines 124, 137 and 142-154. *)
Definition alternative_connection_string (params : str * str * str) : str :=
  let '(database, uid, pwd) := params in
  test_orca_odbc.driver_connection_string (u "PostgreSQL ANSI") database uid pwd.

Definition fallback_connection_strings : list str :=
  test_orca_odbc.driver_connection_string (u "PostgreSQL ANSI") (u "orca") (u "orca")
    (u "orca")
  :: test_orca_odbc.driver_connection_string (u "PostgreSQL Unicode") (u "orca") (u "orca")
       (u "orca")
  :: map alternative_connection_string test_orca_odbc.alternative_params.

(** Lines 158-164 of test_orca_odbc.py: the closing hints. *)
Definition summary_lines : list str :=
  [ nl ++ u "=== Connection Test Summary ===";
    u "If all connections failed, check:";
    u "1. PostgreSQL is running and accepting connections";
    u "2. Database name, username, and password are correct";
    u "3. User has proper permissions to access the database";
    u "4. ODBC drivers are properly installed";
    u "5. Firewall settings allow database connections" ].

(** A routine that makes exactly the connections [made], in that order,
    however it ends. *)
Definition connects_exactly {A} (made : list str) (m : M A) : Prop :=
  forall w, connects (history (snd (m w))) = rev made ++ connects (history w).

(** A routine that makes the connections of a prefix of [candidates], in
    that order, and no other. *)
Definition connects_prefix {A} (candidates : list str) (m : M A) : Prop :=
  forall w, exists k,
    k <= length candidates
    /\ connects (history (snd (m w))) = rev (take k candidates) ++ connects (history w).

(** The four connection strings of one credential set of
    connection_troubleshoot.py, in the order of [ssl_modes]. *)
Definition credential_connection_strings (server port : str) (config : str * str * str)
    : list str :=
  let '(database, user, password) := config in
  map (connection_troubleshoot.connection_string server port database user password)
    (map fst connection_troubleshoot.ssl_modes).

(** The text [s] without the character [c]. *)
Definition without (c : N) (s : str) : str :=
  List.filter (fun x => negb (x =? c)%N) s.

End Notions.

Import Notions.

(** ** Further environments used in the examples *)

Module Cases.

(** The operator answers every prompt with blanks: a space, an
    ideographic space and a tab. *)
Definition blank_console : environment :=
  fun n c =>
    match c return result (reply c) with
    | connect _ _ | cursor | execute _ _ | cursor_close | connection_close => Ret tt
    | fetchone => Ret None
    | fetchall => Ret []
    | drivers => Ret []
    | input _ => Ret [32%N; 12288%N; 9%N]
    end.

(** The drivers are installed and no server answers: every
    [pyodbc.connect] fails with a driver error. *)
Definition no_server : environment :=
  fun n c =>
    match c return result (reply c) with
    | connect _ _ => Raise (pyodbc_Error (u "could not connect to server"))
    | cursor | execute _ _ | cursor_close | connection_close => Ret tt
    | fetchone => Ret None
    | fetchall => Ret []
    | drivers => Ret [u "PostgreSQL ANSI"; u "PostgreSQL Unicode"]
    | input _ => Ret []
    end.

End Cases.

(** * Properties *)

Arguments u : simpl never.

(** ** Literals *)

Example literal_code_points : u "未設定" = [26410; 35373; 23450]%N.
Proof. reflexivity. Qed.

Example literal_ascii : u "01" = [48; 49]%N.
Proof. reflexivity. Qed.

(** ** Running a routine against given answers *)

Lemma run_print {A} (line : str) (k : unit -> M A) (w : world) :
  bind (print line) k w = k tt (World (history w) (stdout w ++ [line])).
Proof. reflexivity. Qed.

Lemma run_perform {A} (env : environment) (c : call) (v : reply c)
    (k : reply c -> M A) (w : world) :
  env (length (history w)) c = Ret v ->
  bind (perform env c) k w = k v (World (c :: history w) (stdout w)).
Proof. intros H. unfold bind, perform. rewrite H. reflexivity. Qed.

Lemma run_perform_raise {A} (env : environment) (c : call) (e : exn)
    (k : reply c -> M A) (w : world) :
  env (length (history w)) c = Raise e ->
  bind (perform env c) k w = (Raise e, World (c :: history w) (stdout w)).
Proof. intros H. unfold bind, perform. rewrite H. reflexivity. Qed.

Lemma run_fetchone_0 {A} (env : environment) (c : cell) (r : row)
    (k : cell -> M A) (w : world) :
  env (length (history w)) fetchone = Ret (Some (c :: r)) ->
  bind (fetchone_0 env) k w = k c (World (fetchone :: history w) (stdout w)).
Proof. intros H. unfold fetchone_0, bind, perform. rewrite H. reflexivity. Qed.

Lemma run_bind {A B} (m : M A) (k : A -> M B) (w : world) (r : result A) (w' : world) :
  m w = (r, w') ->
  bind m k w = match r with
               | Ret a => k a w'
               | Raise e => (Raise e, w')
               end.
Proof. intros H. unfold bind. rewrite H. destruct r; reflexivity. Qed.



Lemma run_lift_ret {A B} (a : A) (k : A -> M B) (w : world) :
  bind (lift (Ret a)) k w = k a w.
Proof. reflexivity. Qed.

Lemma run_print_last (line : str) (w : world) :
  print line w = (Ret tt, World (history w) (stdout w ++ [line])).
Proof. reflexivity. Qed.

Ltac run :=
  repeat (first
    [ rewrite run_print
    | rewrite run_lift_ret
    | erewrite run_perform by (cbn [history stdout length]; eassumption)
    | erewrite run_fetchone_0 by (cbn [history stdout length]; eassumption) ];
    cbn [history stdout length]).

Lemma first_character_differs (a b : str) :
  hd 0%N a <> hd 0%N b -> a <> b.
Proof. intros H ->. apply H. reflexivity. Qed.

(** ** Visit time *)

Lemma time_str_same (uketime : cell) :
  check_today_visits.time_str uketime = test_orca_odbc.time_str uketime.
Proof. reflexivity. Qed.

(** C4. A visit time of at least six characters is shown as its first two
    characters, a colon, the third and fourth, a colon, the fifth and
    sixth; a null or empty time is shown as 未設定; a shorter non-empty
    time is shown as it is.  Both scripts agree. *)
Theorem time_str_format (uketime : cell) :
  (forall s, uketime = Str s -> 6 <= length s ->
     test_orca_odbc.time_str uketime
     = Ret (Str (take 2 s ++ u ":" ++ take 2 (drop 2 s) ++ u ":" ++ take 2 (drop 4 s))))
  /\ (uketime = None_ \/ uketime = Str [] ->
      test_orca_odbc.time_str uketime = Ret (Str (u "未設定")))
  /\ (forall s, uketime = Str s -> s <> [] -> length s < 6 ->
      test_orca_odbc.time_str uketime = Ret (Str s))
  /\ check_today_visits.time_str uketime = test_orca_odbc.time_str uketime.
Proof.
  repeat split.
  - intros s -> Hlen. unfold test_orca_odbc.time_str.
    destruct s as [|c s]; [simpl in Hlen; lia|]. simpl truthy. cbv iota.
    simpl len. cbv iota.
    simpl in Hlen. rewrite (proj2 (Nat.leb_le 6 (S (length s))) Hlen). reflexivity.
  - intros [-> | ->]; reflexivity.
  - intros s -> Hne Hlen. unfold test_orca_odbc.time_str.
    destruct s as [|c s]; [congruence|]. simpl truthy. cbv iota.
    simpl len. cbv iota.
    simpl in Hlen. rewrite (proj2 (Nat.leb_gt 6 (S (length s))) Hlen). reflexivity.
Qed.

Lemma time_str_format_witness :
  test_orca_odbc.time_str (Str (u "093000")) = Ret (Str (u "09:30:00"))
  /\ test_orca_odbc.time_str None_ = Ret (Str (u "未設定"))
  /\ test_orca_odbc.time_str (Str (u "0930")) = Ret (Str (u "0930")).
Proof.
  split; [|split].
  - apply (proj1 (time_str_format (Str (u "093000"))) (u "093000") eq_refl).
    vm_compute. lia.
  - apply (proj1 (proj2 (time_str_format None_))). left. reflexivity.
  - apply (proj1 (proj2 (proj2 (time_str_format (Str (u "0930"))))) (u "0930") eq_refl).
    + discriminate.
    + vm_compute. lia.
Defined.

(** ** Birth date *)

(** C6. A birth date of eight characters (eight digits in particular) is
    shown as its first four characters, 年, the fifth and sixth, 月, the
    seventh and eighth, 日; a null or empty birth date is shown as
    生年月日不明. *)
Theorem birth_date_format (birthday : option str) :
  (forall b, birthday = Some b -> length b = 8 ->
     test_orca_odbc.birth_date birthday
     = take 4 b ++ u "年" ++ take 2 (drop 4 b) ++ u "月" ++ take 2 (drop 6 b) ++ u "日")
  /\ (birthday = None \/ birthday = Some [] ->
      test_orca_odbc.birth_date birthday = u "生年月日不明").
Proof.
  split.
  - intros b -> Hlen. unfold test_orca_odbc.birth_date, test_orca_odbc.SUBSTRING.
    destruct b as [|c b]; [discriminate|]. reflexivity.
  - intros [-> | ->]; reflexivity.
Qed.

Lemma birth_date_format_witness :
  test_orca_odbc.birth_date (Some (u "19850423")) = u "1985年04月23日"
  /\ test_orca_odbc.birth_date None = u "生年月日不明"
  /\ test_orca_odbc.birth_date (Some []) = u "生年月日不明".
Proof.
  split; [|split].
  - apply (proj1 (birth_date_format (Some (u "19850423"))) (u "19850423") eq_refl).
    reflexivity.
  - apply (proj2 (birth_date_format None)). left. reflexivity.
  - apply (proj2 (birth_date_format (Some []))). right. reflexivity.
Defined.

(** ** Department names *)

Lemma dept_map_get_unmapped (c : str) (default : str) :
  c <> [] -> test_orca_odbc.dept_map !! c = None ->
  test_orca_odbc.dept_map_get (Str c) default = Str c.
Proof.
  intros Hne Hnone. unfold test_orca_odbc.dept_map_get. rewrite Hnone.
  destruct c; [congruence | reflexivity].
Qed.

Lemma dept_map_get_missing (sryka : cell) (default : str) :
  sryka = None_ \/ sryka = Str [] ->
  test_orca_odbc.dept_map_get sryka default = Str default.
Proof. intros [-> | ->]; reflexivity. Qed.

(** C5. In the visit table code 01 is shown as 内科 and 02 as 外科; a
    non-empty code that is not in the table is shown as the code itself,
    and formatting it raises nothing; a null or empty code is shown as
    未設定, which no two-character code that is not in the table is shown
    as. *)
Theorem dept_name_lookup :
  test_orca_odbc.dept_name (Str (u "01")) = Str (u "内科")
  /\ test_orca_odbc.dept_name (Str (u "02")) = Str (u "外科")
  /\ (forall c, c <> [] -> test_orca_odbc.dept_map !! c = None ->
      test_orca_odbc.dept_name (Str c) = Str c
      /\ format AlignCenter 8 (test_orca_odbc.dept_name (Str c))
         = Ret (pad AlignCenter 8 c))
  /\ test_orca_odbc.dept_name None_ = Str (u "未設定")
  /\ test_orca_odbc.dept_name (Str []) = Str (u "未設定")
  /\ (forall c, length c = 2 -> test_orca_odbc.dept_map !! c = None ->
      test_orca_odbc.dept_name (Str c) <> test_orca_odbc.dept_name None_
      /\ test_orca_odbc.dept_name (Str c) <> test_orca_odbc.dept_name (Str [])).
Proof.
  split; [reflexivity|]. split; [reflexivity|].
  split.
  { intros c Hne Hnone. unfold test_orca_odbc.dept_name.
    rewrite (dept_map_get_unmapped c _ Hne Hnone). split; reflexivity. }
  split; [reflexivity|]. split; [reflexivity|].
  intros c Hlen Hnone.
  assert (Hne : c <> []) by (intros ->; discriminate).
  unfold test_orca_odbc.dept_name.
  rewrite (dept_map_get_unmapped c _ Hne Hnone).
  rewrite !dept_map_get_missing by auto.
  split; intros Heq; injection Heq as ->; discriminate.
Qed.

Lemma dept_name_lookup_witness :
  test_orca_odbc.dept_name (Str (u "99")) = Str (u "99")
  /\ test_orca_odbc.dept_name (Str (u "99")) <> test_orca_odbc.dept_name None_.
Proof.
  pose proof dept_name_lookup as (_ & _ & Hraw & _ & _ & Hdistinct).
  split.
  - apply (Hraw (u "99")); [discriminate | reflexivity].
  - apply (Hdistinct (u "99")); reflexivity.
Defined.

(** The sentinel of the visit table is itself the display of one
    unmapped code, the three-character text 未設定. *)
Lemma dept_name_sentinel_collision (c : str) :
  c <> [] -> test_orca_odbc.dept_map !! c = None ->
  (test_orca_odbc.dept_name (Str c) = test_orca_odbc.dept_name None_ <-> c = u "未設定").
Proof.
  intros Hne Hnone. unfold test_orca_odbc.dept_name.
  rewrite (dept_map_get_unmapped c _ Hne Hnone).
  rewrite dept_map_get_missing by auto.
  split; [intros [= ->] | intros ->]; reflexivity.
Qed.



(** One visit at 09:30:00 in department 02 by Tanaka: the row of the
    table and the line of the breakdown. *)
Example visit_in_department_02 :
  let out := stdout (snd (test_orca_odbc.show_todays_visits
                            (Scenario.one_visit (Str (u "02"))) start)) in
  In (pad AlignCenter 12 (u "09:30:00") ++ u " | " ++ pad AlignCenter 8 (u "12") ++ u " | "
      ++ pad AlignCenter 20 (u "Tanaka") ++ u " | " ++ pad AlignCenter 18 (u "フリガナなし")
      ++ u " | " ++ pad AlignCenter 8 (u "外科")) out
  /\ In (u "外科: 1名") out.
Proof.
  split; apply list_elem_of_In; apply (bool_decide_eq_true_1 _); vm_compute; reflexivity.
Qed.

(** The same visit without a department code: 未設定 in the table and
    不明 in the breakdown of the same report. *)
Example visit_without_department :
  let out := stdout (snd (test_orca_odbc.show_todays_visits
                            (Scenario.one_visit None_) start)) in
  In (pad AlignCenter 12 (u "09:30:00") ++ u " | " ++ pad AlignCenter 8 (u "12") ++ u " | "
      ++ pad AlignCenter 20 (u "Tanaka") ++ u " | " ++ pad AlignCenter 18 (u "フリガナなし")
      ++ u " | " ++ pad AlignCenter 8 (u "未設定")) out
  /\ In (u "不明: 1名") out.
Proof.
  split; apply list_elem_of_In; apply (bool_decide_eq_true_1 _); vm_compute; reflexivity.
Qed.

(** ** Truncation of long names *)

Lemma length_pad_center (width : nat) (s : str) :
  length s <= width -> length (pad AlignCenter width s) = width.
Proof.
  intros H. unfold pad. rewrite !length_app, !length_replicate.
  assert ((width - length s) / 2 <= width - length s) by (apply Nat.Div0.div_le_upper_bound; lia).
  lia.
Qed.

Lemma or_text (v : option str) (default : str) :
  or_ (text v) default = Str (text_or v default).
Proof. destruct v as [[|c s]|]; reflexivity. Qed.

(** The row printers apply exactly these thresholds and widths; the
    columns of the query that the loop does not read are [rest]. *)
Lemma list_patients_row_line (ptid : Z) (name kananame : option str)
    (gender birth_date status : str) (rest : row) (w : world) :
  test_orca_odbc.list_patients_row
    (Int ptid :: text name :: text kananame :: Str gender :: Str birth_date :: Str status
     :: rest) w
  = (Ret tt,
     World (history w)
       (stdout w ++
        [ pad AlignRight 4 (str_of_Z ptid) ++ u " | "
          ++ pad AlignCenter 20 (test_orca_odbc.truncate 18 15 (text_or name (u "名前なし")))
          ++ u " | "
          ++ pad AlignCenter 20
               (test_orca_odbc.truncate 18 15 (text_or kananame (u "フリガナなし")))
          ++ u " | " ++ pad AlignCenter 6 gender ++ u " | "
          ++ pad AlignCenter 12 birth_date ++ u " | " ++ pad AlignCenter 6 status ])).
Proof.
  destruct name as [[|? ?]|], kananame as [[|? ?]|]; reflexivity.
Qed.

Lemma search_patients_row_line (ptid : Z) (name kananame phone : option str)
    (gender birth_date : str) (rest : row) (w : world) :
  test_orca_odbc.search_patients_row
    (Int ptid :: text name :: text kananame :: Str gender :: Str birth_date :: text phone
     :: rest) w
  = (Ret tt,
     World (history w)
       (stdout w ++
        [ pad AlignRight 4 (str_of_Z ptid) ++ u " | "
          ++ pad AlignCenter 15 (test_orca_odbc.truncate 13 10 (text_or name (u "名前なし")))
          ++ u " | "
          ++ pad AlignCenter 15
               (test_orca_odbc.truncate 13 10 (text_or kananame (u "フリガナなし")))
          ++ u " | " ++ pad AlignCenter 6 gender ++ u " | "
          ++ pad AlignCenter 12 birth_date ++ u " | "
          ++ pad AlignCenter 15 (test_orca_odbc.truncate 13 10 (text_or phone (u "未登録"))) ])).
Proof.
  destruct name as [[|? ?]|], kananame as [[|? ?]|], phone as [[|? ?]|]; reflexivity.
Qed.

Lemma time_str_shown (uketime : option str) :
  exists t, test_orca_odbc.time_str (text uketime) = Ret (Str t).
Proof.
  destruct uketime as [[|c s]|]; [eexists; reflexivity| |eexists; reflexivity].
  unfold test_orca_odbc.time_str. cbn [text truthy len length].
  destruct (6 <=? S (length s)); eexists; reflexivity.
Qed.

Lemma patient_name_shown (name full_name : option str) :
  or_ (test_orca_odbc.or_cell (text name) (text full_name)) (u "名前なし")
  = Str (text_or name (text_or full_name (u "名前なし"))).
Proof. destruct name as [[|c s]|], full_name as [[|c' s']|]; reflexivity. Qed.

Lemma dept_name_shown (sryka : option str) :
  exists dept, test_orca_odbc.dept_name (text sryka) = Str dept.
Proof.
  unfold test_orca_odbc.dept_name, test_orca_odbc.dept_map_get.
  destruct sryka as [code|]; cbn [text]; [|eexists; reflexivity].
  destruct (test_orca_odbc.dept_map !! code); [eexists; reflexivity|].
  destruct code; eexists; reflexivity.
Qed.

Lemma show_todays_visits_row_line (ukeymd sex birthday : cell) (ptid : Z)
    (uketime name sryka full_name kananame : option str) (t dept : str) (w : world) :
  test_orca_odbc.time_str (text uketime) = Ret (Str t) ->
  test_orca_odbc.dept_name (text sryka) = Str dept ->
  test_orca_odbc.show_todays_visits_row
    [ ukeymd; text uketime; Int ptid; text name; text sryka; text full_name; text kananame;
      sex; birthday ] w
  = (Ret tt,
     World (history w)
       (stdout w ++
        [ pad AlignCenter 12 t ++ u " | " ++ pad AlignCenter 8 (str_of_Z ptid) ++ u " | "
          ++ pad AlignCenter 20
               (test_orca_odbc.truncate 18 15
                  (text_or name (text_or full_name (u "名前なし"))))
          ++ u " | "
          ++ pad AlignCenter 18
               (test_orca_odbc.truncate 16 13 (text_or kananame (u "フリガナなし")))
          ++ u " | " ++ pad AlignCenter 8 dept ])).
Proof.
  intros Ht Hdept.
  unfold test_orca_odbc.show_todays_visits_row, test_orca_odbc.fmt.
  rewrite Ht, patient_name_shown, Hdept, or_text. rewrite run_lift_ret.
  repeat (cbn [test_orca_odbc.truncate_cell format]; rewrite run_lift_ret).
  rewrite run_print_last. reflexivity.
Qed.

(** C7. A name longer than the threshold of its column is shown as a
    prefix followed by three dots, a name within the threshold is shown
    as it is, and in both cases the text shown is no longer than the
    column (in characters), so that the formatted field has exactly the
    width of the column.  The three tables print their rows, as the
    queries return them, with these thresholds and columns: the patient
    list cuts the name and the phonetic name after 18 characters in
    columns of 20, the search result cuts them and the telephone number
    after 13 in columns of 15, and the table of today's visits cuts the
    name after 18 in a column of 20 and the phonetic name after 16 in a
    column of 18. *)
Theorem truncate_within_column (threshold keep width : nat) (s : str) :
  In (threshold, keep, width) test_orca_odbc.name_columns ->
  (threshold < length s ->
     test_orca_odbc.truncate threshold keep s = take keep s ++ u "...")
  /\ (length s <= threshold -> test_orca_odbc.truncate threshold keep s = s)
  /\ length (test_orca_odbc.truncate threshold keep s) <= threshold
  /\ length (test_orca_odbc.truncate threshold keep s) <= width
  /\ length (pad AlignCenter width (test_orca_odbc.truncate threshold keep s)) = width
  /\ (forall ptid name kananame gender birth_date status creymd w,
        test_orca_odbc.list_patients_row
          [ Int ptid; text name; text kananame; Str gender; Str birth_date; Str status;
            creymd ] w
        = (Ret tt,
           World (history w)
             (stdout w ++
              [ pad AlignRight 4 (str_of_Z ptid) ++ u " | "
                ++ pad AlignCenter 20
                     (test_orca_odbc.truncate 18 15 (text_or name (u "名前なし")))
                ++ u " | "
                ++ pad AlignCenter 20
                     (test_orca_odbc.truncate 18 15 (text_or kananame (u "フリガナなし")))
                ++ u " | " ++ pad AlignCenter 6 gender ++ u " | "
                ++ pad AlignCenter 12 birth_date ++ u " | " ++ pad AlignCenter 6 status ])))
  /\ (forall ptid name kananame gender birth_date home_tel1 home_adrs w,
        test_orca_odbc.search_patients_row
          [ Int ptid; text name; text kananame; Str gender; Str birth_date; text home_tel1;
            home_adrs ] w
        = (Ret tt,
           World (history w)
             (stdout w ++
              [ pad AlignRight 4 (str_of_Z ptid) ++ u " | "
                ++ pad AlignCenter 15
                     (test_orca_odbc.truncate 13 10 (text_or name (u "名前なし")))
                ++ u " | "
                ++ pad AlignCenter 15
                     (test_orca_odbc.truncate 13 10 (text_or kananame (u "フリガナなし")))
                ++ u " | " ++ pad AlignCenter 6 gender ++ u " | "
                ++ pad AlignCenter 12 birth_date ++ u " | "
                ++ pad AlignCenter 15
                     (test_orca_odbc.truncate 13 10 (text_or home_tel1 (u "未登録"))) ])))
  /\ (forall ukeymd sex birthday ptid uketime name sryka full_name kananame w,
        exists t dept,
          test_orca_odbc.time_str (text uketime) = Ret (Str t)
          /\ test_orca_odbc.dept_name (text sryka) = Str dept
          /\ test_orca_odbc.show_todays_visits_row
               [ ukeymd; text uketime; Int ptid; text name; text sryka; text full_name;
                 text kananame; sex; birthday ] w
             = (Ret tt,
                World (history w)
                  (stdout w ++
                   [ pad AlignCenter 12 t ++ u " | " ++ pad AlignCenter 8 (str_of_Z ptid)
                     ++ u " | "
                     ++ pad AlignCenter 20
                          (test_orca_odbc.truncate 18 15
                             (text_or name (text_or full_name (u "名前なし"))))
                     ++ u " | "
                     ++ pad AlignCenter 18
                          (test_orca_odbc.truncate 16 13
                             (text_or kananame (u "フリガナなし")))
                     ++ u " | " ++ pad AlignCenter 8 dept ]))).
Proof.
  intros Hin.
  assert (Hcfg : keep + 3 = threshold /\ threshold <= width).
  { simpl in Hin. destruct Hin as [[= <- <- <-] | [[= <- <- <-] | [[= <- <- <-] | []]]]; lia. }
  destruct Hcfg as [Hkeep Hwidth].
  assert (Hlen : length (test_orca_odbc.truncate threshold keep s) <= threshold).
  { unfold test_orca_odbc.truncate, slice.
    destruct (Nat.ltb_spec threshold (length s)).
    - rewrite length_app, length_take. change (length (u "...")) with 3. lia.
    - assumption. }
  split; [|split; [|split; [|split; [|split; [|split; [|split]]]]]].
  - intros H. unfold test_orca_odbc.truncate, slice.
    rewrite (proj2 (Nat.ltb_lt _ _) H). rewrite Nat.sub_0_r. reflexivity.
  - intros H. unfold test_orca_odbc.truncate.
    rewrite (proj2 (Nat.ltb_ge _ _) H). reflexivity.
  - exact Hlen.
  - lia.
  - apply length_pad_center. lia.
  - intros. apply list_patients_row_line.
  - intros. apply search_patients_row_line.
  - intros ukeymd sex birthday ptid uketime name sryka full_name kananame w.
    destruct (time_str_shown uketime) as [t Ht].
    destruct (dept_name_shown sryka) as [dept Hdept].
    exists t, dept. split; [exact Ht|]. split; [exact Hdept|].
    apply show_todays_visits_row_line; assumption.
Qed.

Lemma truncate_within_column_witness :
  test_orca_odbc.truncate 18 15 (u "Bartholomew Fitzgerald") = u "Bartholomew Fit..."
  /\ test_orca_odbc.truncate 13 10 (u "Sato") = u "Sato"
  /\ length (test_orca_odbc.truncate 16 13 (u "バーソロミュー・フィッツジェラルド")) <= 18
  /\ exists line,
       test_orca_odbc.list_patients_row
         [ Int 12; text (Some (u "Bartholomew Fitzgerald of Kilkenny")); text None;
           Str (u "男性"); Str (u "1985年04月23日"); Str (u "生存");
           Str (u "20200101") ] start
       = (Ret tt, World (history start) (stdout start ++ [line]))
       /\ length line = 83.
Proof.
  split; [|split; [|split]].
  - apply (proj1 (truncate_within_column 18 15 20 (u "Bartholomew Fitzgerald")
                    ltac:(simpl; tauto))).
    vm_compute. lia.
  - apply (proj1 (proj2 (truncate_within_column 13 10 15 (u "Sato")
                           ltac:(simpl; tauto)))).
    vm_compute. lia.
  - apply (proj1 (proj2 (proj2 (proj2
        (truncate_within_column 16 13 18 (u "バーソロミュー・フィッツジェラルド")
           ltac:(simpl; tauto)))))).
  - eexists. split.
    + apply (proj1 (proj2 (proj2 (proj2 (proj2 (proj2
        (truncate_within_column 18 15 20 [] ltac:(simpl; tauto)))))))).
    + vm_compute. reflexivity.
Defined.

(** ** Empty result sets *)

Lemma database_handlers_handle (e : exn) (w : world) :
  handle test_orca_odbc.database_handlers e w
  = if is_Exception e then
      (Ret tt,
       World (history w)
         (stdout w ++
          [ (if is_pyodbc_Error e then u "✗ データベース接続エラー: "
             else u "✗ 予期しないエラー: ") ++ str_of_exn e ]))
    else (Raise e, w).
Proof.
  destruct e;
    cbv [handle test_orca_odbc.database_handlers find fst snd is_pyodbc_Error
         is_Exception bind print str_of_exn];
    reflexivity.
Qed.

Lemma handled_line_is_no_header (e : exn) (header : str) (w : world)
    (r : result unit) (w' : world) :
  hd 0%N header = space ->
  handle test_orca_odbc.database_handlers e w = (r, w') ->
  exists rest, stdout w' = stdout w ++ rest /\ ~ In header rest
               /\ (forall n, ~ In (rule n) rest).
Proof.
  intros Hhd. rewrite database_handlers_handle.
  destruct (is_Exception e).
  - intros [= <- <-]. eexists [_]. split; [reflexivity|].
    assert (Hx : hd 0%N ((if is_pyodbc_Error e then u "✗ データベース接続エラー: "
                          else u "✗ 予期しないエラー: ") ++ str_of_exn e) = 10007%N)
      by (destruct (is_pyodbc_Error e); reflexivity).
    split.
    + intros [Heq|[]]. revert Heq. apply first_character_differs.
      rewrite Hhd, Hx. discriminate.
    + intros n [Heq|[]]. revert Heq. apply first_character_differs.
      rewrite Hx. destruct n; discriminate.
  - intros [= <- <-]. exists []. rewrite app_nil_r.
    split; [reflexivity|]. split; [intros []|intros n []].
Qed.

Lemma closing_after_message (env : environment) (header : str) (w : world) :
  hd 0%N header = space ->
  exists rest,
    stdout (snd (try_except
                   (bind (perform env cursor_close)
                      (fun _ => perform env connection_close))
                   test_orca_odbc.database_handlers w))
    = stdout w ++ rest
    /\ ~ In header rest
    /\ (forall k, ~ In (rule k) rest)
    /\ (answers env (length (history w))
          [ answer cursor_close (Ret tt); answer connection_close (Ret tt) ] ->
        rest = []
        /\ fst (try_except
                  (bind (perform env cursor_close)
                     (fun _ => perform env connection_close))
                  test_orca_odbc.database_handlers w) = Ret tt).
Proof.
  intros Hhd. unfold try_except, bind, perform.
  destruct (env (length (history w)) cursor_close) as [[]|e1] eqn:Hc1.
  - cbn [history stdout length].
    destruct (env (S (length (history w))) connection_close) as [[]|e2] eqn:Hc2.
    + exists []. cbn [fst snd stdout]. rewrite app_nil_r.
      split; [reflexivity|]. split; [intros []|]. split; [intros k []|].
      intros _. split; reflexivity.
    + cbn [fst snd].
      destruct (handle _ _ _) as [r w'] eqn:Hh.
      destruct (handled_line_is_no_header _ _ _ _ _ Hhd Hh) as (rest & Hrest & Hno & Hrule).
      exists rest. cbn [fst snd]. rewrite Hrest. cbn [stdout].
      split; [reflexivity|]. split; [assumption|]. split; [assumption|].
      intros (_ & Hc2' & _). cbn [length] in Hc2'. congruence.
  - cbn [fst snd].
    destruct (handle _ _ _) as [r w'] eqn:Hh.
    destruct (handled_line_is_no_header _ _ _ _ _ Hhd Hh) as (rest & Hrest & Hno & Hrule).
    exists rest. cbn [fst snd]. rewrite Hrest. cbn [stdout].
    split; [reflexivity|]. split; [assumption|]. split; [assumption|].
    intros (Hc1' & _). congruence.
Qed.

Lemma search_patients_no_match (env : environment) (w : world) (typed : str)
    (c : char) (term : str) :
  strip typed = c :: term ->
  answers env (length (history w))
    [ answer (input (u "患者名またはフリガナを入力してください: ")) (Ret typed);
      answer (connect test_orca_odbc.connection_string (Some 10%Z)) (Ret tt);
      answer cursor (Ret tt);
      answer (execute sql_search
                [Str (u "%" ++ c :: term ++ u "%"); Str (u "%" ++ c :: term ++ u "%")])
             (Ret tt);
      answer fetchall (Ret []) ] ->
  test_orca_odbc.search_patients env w
  = try_except
      (bind (perform env cursor_close) (fun _ => perform env connection_close))
      test_orca_odbc.database_handlers
      (World
         ([ fetchall;
            execute sql_search
              [Str (u "%" ++ c :: term ++ u "%"); Str (u "%" ++ c :: term ++ u "%")];
            cursor; connect test_orca_odbc.connection_string (Some 10%Z);
            input (u "患者名またはフリガナを入力してください: ") ] ++ history w)
         (stdout w
          ++ [ nl ++ u "=== 患者検索 ===";
               u "「" ++ (c :: term) ++ u "」に一致する患者が見つかりませんでした。" ])).
Proof.
  intros Hstrip (H0 & H1 & H2 & H3 & H4 & _).
  unfold test_orca_odbc.search_patients. run. rewrite Hstrip.
  unfold try_except. run. unfold test_orca_odbc.no_match_message.
  rewrite <- app_assoc. reflexivity.
Qed.

(** C8. On an empty result set each of the three routines prints its
    no-data message and neither a table header nor a rule: the patient
    list and the visit list print the title and the message and return;
    the search prints the title and the message that quotes the search
    term, and whatever closing the connection does, no header follows. *)
Theorem empty_result_messages (env : environment) (w : world) :
  let n := length (history w) in
  let connect := connect test_orca_odbc.connection_string (Some 10%Z) in
  (answers env n
     [ answer connect (Ret tt); answer cursor (Ret tt);
       answer (execute sql_patients []) (Ret tt); answer fetchall (Ret []) ] ->
   fst (test_orca_odbc.list_patients env w) = Ret tt
   /\ stdout (snd (test_orca_odbc.list_patients env w))
      = stdout w ++ [nl ++ u "=== Patient List ==="; u "患者データが見つかりませんでした。"])
  /\ (forall typed c term,
       strip typed = c :: term ->
       let pattern := Str (u "%" ++ c :: term ++ u "%") in
       answers env n
         [ answer (input (u "患者名またはフリガナを入力してください: ")) (Ret typed);
           answer connect (Ret tt); answer cursor (Ret tt);
           answer (execute sql_search [pattern; pattern]) (Ret tt);
           answer fetchall (Ret []) ] ->
       exists rest,
         stdout (snd (test_orca_odbc.search_patients env w))
         = stdout w
           ++ [ nl ++ u "=== 患者検索 ===";
                u "「" ++ (c :: term) ++ u "」に一致する患者が見つかりませんでした。" ]
           ++ rest
         /\ ~ In test_orca_odbc.search_header rest
         /\ (forall k, ~ In (rule k) rest)
         /\ (answers env (5 + n)
               [ answer cursor_close (Ret tt); answer connection_close (Ret tt) ] ->
             rest = [] /\ fst (test_orca_odbc.search_patients env w) = Ret tt))
  /\ (forall today,
       answers env n
         [ answer connect (Ret tt); answer cursor (Ret tt);
           answer (execute sql_today []) (Ret tt);
           answer fetchone (Ret (Some [Str today]));
           answer (execute sql_visits [Str today]) (Ret tt);
           answer fetchall (Ret []) ] ->
       fst (test_orca_odbc.show_todays_visits env w) = Ret tt
       /\ stdout (snd (test_orca_odbc.show_todays_visits env w))
          = stdout w
            ++ [ nl ++ u "=== 本日の来院患者 ===";
                 u "本日（" ++ (take 4 today ++ u "年" ++ take 2 (drop 4 today) ++ u "月"
                              ++ take 2 (drop 6 today) ++ u "日")
                 ++ u "）の来院患者はいません。" ]).
Proof.
  intros n cn. subst n cn. split; [|split].
  - intros (H1 & H2 & H3 & H4 & _).
    unfold test_orca_odbc.list_patients. rewrite run_print. unfold try_except.
    run. unfold print. cbn [fst snd stdout]. split; [reflexivity|].
    rewrite <- app_assoc. reflexivity.
  - intros typed c term Hstrip pattern Hanswers. subst pattern.
    rewrite (search_patients_no_match env w typed c term Hstrip Hanswers).
    match goal with |- context [try_except _ _ ?w0] => set (w4 := w0) end.
    destruct (closing_after_message env test_orca_odbc.search_header w4 eq_refl)
      as (rest & Hout & Hno & Hrule & Hclosed).
    exists rest.
    split; [|split; [assumption|split; [assumption|exact Hclosed]]].
    etransitivity; [exact Hout|]. subst w4. cbn [stdout].
    rewrite <- app_assoc. reflexivity.
  - intros today (H1 & H2 & H3 & H4 & H5 & H6 & _).
    unfold test_orca_odbc.show_todays_visits. rewrite run_print. unfold try_except.
    run. change (test_orca_odbc.today_text (Str today))
      with (Ret (slice 0 4 today ++ u "年" ++ slice 4 6 today ++ u "月"
                 ++ slice 6 8 today ++ u "日")).
    run. unfold print, test_orca_odbc.no_visits_message. cbn [fst snd stdout].
    split; [reflexivity|]. rewrite <- app_assoc. reflexivity.
Qed.

Lemma empty_result_messages_witness :
  stdout (snd (test_orca_odbc.list_patients Scenario.empty_database start))
  = [nl ++ u "=== Patient List ==="; u "患者データが見つかりませんでした。"]
  /\ stdout (snd (test_orca_odbc.search_patients Scenario.empty_database start))
     = [nl ++ u "=== 患者検索 ==="; u "「Sato」に一致する患者が見つかりませんでした。"]
  /\ stdout (snd (test_orca_odbc.show_todays_visits Scenario.empty_database start))
     = [nl ++ u "=== 本日の来院患者 ==="; u "本日（2024年01月15日）の来院患者はいません。"].
Proof.
  pose proof (empty_result_messages Scenario.empty_database start) as (Hl & Hs & Hv).
  split; [|split].
  - destruct Hl as [_ Hl]; [repeat split|].
    rewrite Hl. reflexivity.
  - assert (Hstrip : strip (u "Sato") = 83%N :: u "ato") by (vm_compute; reflexivity).
    destruct (Hs (u "Sato") 83%N (u "ato") Hstrip) as (rest & Hout & _ & _ & Hclosed);
      [repeat split|].
    destruct Hclosed as [-> _]; [repeat split|].
    rewrite Hout. vm_compute. reflexivity.
  - destruct (Hv (u "20240115")) as [_ Hv']; [repeat split|].
    rewrite Hv'. vm_compute. reflexivity.
Defined.

(** ** Exit status *)

(** C9. The exit status is 0 when the chosen mode runs to its end, 0 when
    the user interrupts it, and 1 when any other error reaches the top
    level; it is 1 as well when the driver module is missing. *)
Theorem exit_status_taxonomy (env : environment) (argv0 : str) (args : list str)
    (w : world) :
  exit_status (fst (test_orca_odbc.script env false argv0 args w)) = 1%Z
  /\ exit_status (fst (connection_troubleshoot.script env false w)) = 1%Z
  /\ exit_status (fst (test_orca_odbc.script env true argv0 args w))
     = match fst (test_orca_odbc.dispatch env argv0 args w) with
       | Ret _ => 0%Z
       | Raise KeyboardInterrupt => 0%Z
       | Raise _ => 1%Z
       end
  /\ exit_status (fst (connection_troubleshoot.script env true w))
     = match fst (connection_troubleshoot.main env w) with
       | Ret _ => 0%Z
       | Raise KeyboardInterrupt => 0%Z
       | Raise _ => 1%Z
       end.
Proof.
  split; [reflexivity|]. split; [reflexivity|]. split.
  - unfold test_orca_odbc.script, test_orca_odbc.main_block, import_pyodbc,
      try_except, bind, ret.
    destruct (test_orca_odbc.dispatch env argv0 args w) as [[[]|e] w'];
      [reflexivity|].
    destruct e; reflexivity.
  - unfold connection_troubleshoot.script, connection_troubleshoot.main_block,
      import_pyodbc, try_except, bind, ret.
    destruct (connection_troubleshoot.main env w) as [[[]|e] w'];
      [reflexivity|].
    destruct e; reflexivity.
Qed.

Example exit_status_after_interrupt :
  exit_status (fst (test_orca_odbc.script Scenario.interrupted true (u "test_orca_odbc.py")
                      [u "--patients"] start)) = 0%Z
  /\ exit_status (fst (connection_troubleshoot.script Scenario.interrupted true start)) = 0%Z.
Proof. split; vm_compute; reflexivity. Qed.

Example exit_status_after_unhandled_error :
  exit_status (fst (test_orca_odbc.script Scenario.closed_console true
                      (u "test_orca_odbc.py") [u "--search"] start)) = 1%Z
  /\ exit_status (fst (connection_troubleshoot.script Scenario.generic_failure true start))
     = 1%Z.
Proof. split; vm_compute; reflexivity. Qed.

Example exit_status_at_the_end :
  exit_status (fst (test_orca_odbc.script Scenario.empty_database true
                      (u "test_orca_odbc.py") [u "--patients"] start)) = 0%Z
  /\ exit_status (fst (test_orca_odbc.script Scenario.reachable true
                         (u "test_orca_odbc.py") [] start)) = 0%Z
  /\ exit_status (fst (connection_troubleshoot.script Scenario.refused true start)) = 0%Z.
Proof. repeat split; vm_compute; reflexivity. Qed.

(** ** Errors at the boundary of a routine *)

Section RaisesOnly.

Context {A : Type} (P : exn -> Prop).

Lemma raises_only_ret (a : A) : raises_only P (ret a).
Proof. intros w. exact I. Qed.

Lemma raises_only_lift_ret (a : A) : raises_only P (lift (Ret a)).
Proof. intros w. exact I. Qed.

Lemma raises_only_raise (e : exn) : P e -> raises_only P (@raise A e).
Proof. intros H w. exact H. Qed.

Lemma raises_only_bind {B} (m : M B) (k : B -> M A) :
  raises_only P m -> (forall b, raises_only P (k b)) -> raises_only P (bind m k).
Proof.
  intros Hm Hk w. unfold bind. specialize (Hm w).
  destruct (m w) as [[b|e] w']; cbn [fst] in *.
  - apply Hk.
  - exact Hm.
Qed.

Lemma raises_only_weaken (Q : exn -> Prop) (m : M A) :
  (forall e, Q e -> P e) -> raises_only Q m -> raises_only P m.
Proof.
  intros HQ Hm w. specialize (Hm w). destruct (fst (m w)); auto.
Qed.

(** A [try] lets out what its handlers let out and what no clause
    matches. *)
Lemma raises_only_try_except (Q : exn -> Prop) (body : M A)
    (handlers : list ((exn -> bool) * (exn -> M A))) :
  raises_only Q body ->
  (forall e, Q e ->
     match find (fun h => fst h e) handlers with
     | Some h => raises_only P (snd h e)
     | None => P e
     end) ->
  raises_only P (try_except body handlers).
Proof.
  intros Hbody Hh w. unfold try_except, handle. specialize (Hbody w).
  destruct (body w) as [[a|e] w']; cbn [fst] in *; [exact I|].
  specialize (Hh e Hbody).
  destruct (find _ handlers) as [h|]; [apply Hh|exact Hh].
Qed.

End RaisesOnly.

Lemma raises_only_print (P : exn -> Prop) (line : str) : raises_only P (print line).
Proof. intros w. exact I. Qed.

Lemma raises_only_for_each {A} (P : exn -> Prop) (xs : list A) (body : A -> M unit) :
  (forall x, raises_only P (body x)) -> raises_only P (for_each xs body).
Proof.
  intros H. induction xs as [|x xs IH]; cbn [for_each].
  - apply raises_only_ret.
  - apply raises_only_bind; [apply H|intros _; exact IH].
Qed.

Lemma raises_only_anything {A} (m : M A) : raises_only (fun _ => True) m.
Proof. intros w. destruct (fst (m w)); exact I. Qed.

Lemma database_handlers_catch (body : M unit) :
  raises_only (fun e => e = KeyboardInterrupt)
    (try_except body test_orca_odbc.database_handlers).
Proof.
  apply raises_only_try_except with (Q := fun _ => True);
    [apply raises_only_anything|].
  intros e _.
  destruct e;
    cbv [test_orca_odbc.database_handlers find fst snd is_pyodbc_Error is_Exception];
    first [apply raises_only_print | reflexivity].
Qed.

Lemma database_handlers_report (body : M unit) (w : world) (e : exn) (w1 : world) :
  body w = (Raise e, w1) -> is_Exception e = true ->
  try_except body test_orca_odbc.database_handlers w
  = (Ret tt,
     World (history w1)
       (stdout w1 ++
        [ (if is_pyodbc_Error e then u "✗ データベース接続エラー: "
           else u "✗ 予期しないエラー: ") ++ str_of_exn e ])).
Proof.
  intros Hbody He. unfold try_except. rewrite Hbody.
  rewrite database_handlers_handle, He. reflexivity.
Qed.

Lemma test_connection_catches (env : environment) (connection_string driver_name : str) :
  raises_only (fun e => e = KeyboardInterrupt)
    (test_orca_odbc.test_connection env connection_string driver_name).
Proof.
  unfold test_orca_odbc.test_connection.
  apply raises_only_try_except with (Q := fun _ => True);
    [apply raises_only_anything|].
  intros e _.
  destruct e; cbv [find fst snd is_pyodbc_Error is_Exception];
    first [ apply raises_only_bind; [apply raises_only_print|intros _; apply raises_only_ret]
          | reflexivity ].
Qed.

Lemma list_patients_catches (env : environment) :
  raises_only (fun e => e = KeyboardInterrupt) (test_orca_odbc.list_patients env).
Proof.
  unfold test_orca_odbc.list_patients.
  apply raises_only_bind; [apply raises_only_print|intros _].
  apply database_handlers_catch.
Qed.

Lemma show_todays_visits_catches (env : environment) :
  raises_only (fun e => e = KeyboardInterrupt) (test_orca_odbc.show_todays_visits env).
Proof.
  unfold test_orca_odbc.show_todays_visits.
  apply raises_only_bind; [apply raises_only_print|intros _].
  apply database_handlers_catch.
Qed.

Lemma patient_summary_catches (env : environment) (argv0 : str) :
  raises_only (fun e => e = KeyboardInterrupt) (test_orca_odbc.patient_summary env argv0).
Proof.
  unfold test_orca_odbc.patient_summary.
  apply raises_only_try_except with (Q := fun _ => True);
    [apply raises_only_anything|].
  intros e _.
  destruct e; cbv [find fst snd is_Exception];
    first [apply raises_only_print | reflexivity].
Qed.

Lemma search_patients_catches (env : environment) (w : world) (typed : str) :
  env (length (history w)) (input (u "患者名またはフリガナを入力してください: ")) = Ret typed ->
  match fst (test_orca_odbc.search_patients env w) with
  | Raise e => e = KeyboardInterrupt
  | Ret _ => True
  end.
Proof.
  intros Hin. unfold test_orca_odbc.search_patients. run.
  destruct (strip typed) as [|c term].
  - exact I.
  - apply database_handlers_catch.
Qed.

(** ** The troubleshooting tool *)

Lemma for_each_print {A} (f : A -> str) (xs : list A) (w : world) :
  for_each xs (fun x => print (f x)) w
  = (Ret tt, World (history w) (stdout w ++ map f xs)).
Proof.
  revert w. induction xs as [|x xs IH]; intros w; cbn [for_each map].
  - unfold ret. rewrite app_nil_r. destruct w; reflexivity.
  - rewrite run_print, IH. cbn [history stdout].
    rewrite <- app_assoc. reflexivity.
Qed.

Lemma main_output (env : environment) (w : world) :
  connection_troubleshoot.main env w
  = match connection_troubleshoot.test_all env (u "100.126.66.97") (u "5432")
            connection_troubleshoot.test_configs
            (World (history w)
               (stdout w ++ [u "PostgreSQL Connection Troubleshooting Tool"; rule 60])) with
    | (Raise e, w1) => (Raise e, w1)
    | (Ret successful, w1) =>
      (Ret tt,
       World (history w1)
         (stdout w1 ++ [nl ++ rule 60; u "TROUBLESHOOTING SUMMARY"; rule 60]
          ++ match successful with
             | [] => solution_lines
             | _ :: _ => success_lines successful
             end))
    end.
Proof.
  unfold connection_troubleshoot.main. run.
  rewrite <- app_assoc. cbn [app].
  unfold bind at 1.
  destruct (connection_troubleshoot.test_all _ _ _ _ _) as [[successful|e] w1];
    [|reflexivity].
  run. destruct successful as [|conn successful].
  - unfold connection_troubleshoot.print_solutions. run.
    rewrite run_print_last. cbn [history stdout].
    unfold solution_lines, alternative_lines.
    repeat rewrite <- app_assoc. reflexivity.
  - cbv iota. run. rewrite (for_each_print
               (fun conn : str * str * str =>
                  u "  - " ++ fst (fst conn) ++ u " as " ++ snd (fst conn))).
    cbn [history stdout].
    unfold success_lines.
    repeat rewrite <- app_assoc. reflexivity.
Qed.

(** *** One connection attempt *)

Lemma try_body_print {A} (line : str) (k : unit -> M A)
    (hs : list ((exn -> bool) * (exn -> M A))) (w : world) :
  try_except (bind (print line) k) hs w
  = try_except (k tt) hs (World (history w) (stdout w ++ [line])).
Proof. reflexivity. Qed.

Lemma try_body_perform {A} (env : environment) (c : call) (k : reply c -> M A)
    (hs : list ((exn -> bool) * (exn -> M A))) (w : world) :
  try_except (bind (perform env c) k) hs w
  = match env (length (history w)) c with
    | Ret v => try_except (k v) hs (World (c :: history w) (stdout w))
    | Raise e => handle hs e (World (c :: history w) (stdout w))
    end.
Proof.
  unfold try_except, bind, perform.
  destruct (env (length (history w)) c); reflexivity.
Qed.

Lemma try_body_fetchone_0 {A} (env : environment) (k : cell -> M A)
    (hs : list ((exn -> bool) * (exn -> M A))) (w : world) :
  try_except (bind (fetchone_0 env) k) hs w
  = let w' := World (fetchone :: history w) (stdout w) in
    match env (length (history w)) fetchone with
    | Ret (Some (c :: r)) => try_except (k c) hs w'
    | Ret (Some []) => handle hs (IndexError (u "tuple index out of range")) w'
    | Ret None => handle hs (TypeError (u "'NoneType' object is not subscriptable")) w'
    | Raise e => handle hs e w'
    end.
Proof.
  unfold try_except, fetchone_0, bind, perform.
  destruct (env (length (history w)) fetchone) as [[[|c r]|]|e]; reflexivity.
Qed.

Lemma try_body_ret {A} (a : A) (hs : list ((exn -> bool) * (exn -> M A))) (w : world) :
  try_except (ret a) hs w = (Ret a, w).
Proof. reflexivity. Qed.

Lemma analyze_run (database error_msg : str) (w : world) :
  exists lines,
    connection_troubleshoot.analyze database error_msg w
    = (Ret tt, World (history w) (stdout w ++ lines)).
Proof.
  unfold connection_troubleshoot.analyze.
  repeat match goal with
         | |- context [if ?b then _ else _] => destruct b
         end;
    repeat rewrite run_print; cbn [history stdout];
    try rewrite run_print_last; cbn [history stdout];
    unfold ret;
    try (rewrite <- app_assoc);
    first [ eexists; reflexivity
          | exists []; rewrite app_nil_r; destruct w; reflexivity ].
Qed.

(** What the [except pyodbc.Error] clause of an attempt does. *)
Lemma attempt_failed_run (database ssl_mode : str) (e : exn) (w : world) :
  exists lines,
    connection_troubleshoot.attempt_failed database ssl_mode e w
    = (Ret None, World (history w) (stdout w ++ lines)).
Proof.
  unfold connection_troubleshoot.attempt_failed.
  cbv zeta. rewrite !run_print. cbn [history stdout].
  unfold bind at 1.
  destruct (analyze_run database (str_of_exn e)
              (World (history w)
                 ((stdout w ++ [u "✗ FAILED with SSL mode: " ++ ssl_mode])
                  ++ [u "  Error: " ++ str_of_exn e]))) as (lines & ->).
  unfold ret. cbn [history stdout]. rewrite <- !app_assoc.
  eexists. reflexivity.
Qed.

Lemma handle_attempt (database ssl_mode : str) (e : exn) (w : world) :
  exists r w',
    handle [ (is_pyodbc_Error, connection_troubleshoot.attempt_failed database ssl_mode) ] e w
    = (r, w')
    /\ history w' = history w
    /\ match r with
       | Ret (Some _) => False
       | Ret None => is_pyodbc_Error e = true
       | Raise e' => e' = e /\ is_pyodbc_Error e = false
       end.
Proof.
  unfold handle. cbn [find fst snd].
  destruct (is_pyodbc_Error e) eqn:He; cbn [find fst snd].
  - destruct (attempt_failed_run database ssl_mode e w) as (lines & ->).
    eexists _, _. split; [reflexivity|]. split; reflexivity.
  - eexists _, _. split; [reflexivity|]. split; [reflexivity|]. split; reflexivity.
Qed.

Lemma attempt_cases (env : environment)
    (server port database user password ssl_mode : str) (w : world) :
  let cs :=
    connection_troubleshoot.connection_string server port database user password ssl_mode in
  let run :=
    connection_troubleshoot.attempt env server port database user password ssl_mode w in
  connects (history (snd run)) = cs :: connects (history w)
  /\ match fst run with
     | Ret (Some result) =>
       exists version columns,
         result = connection_troubleshoot.Success ssl_mode version
         /\ history (snd run)
            = [ connection_close; cursor_close; fetchone; execute sql_version []; cursor;
                connect cs (Some 10%Z) ] ++ history w
         /\ answers env (length (history w)) (successful_attempt cs version columns)
     | Ret None => True
     | Raise e => is_pyodbc_Error e = false
     end.
Proof.
  intros cs run. subst run. unfold connection_troubleshoot.attempt. cbv zeta.
  fold cs.
  assert (Hfail : forall e calls out,
            connects calls = cs :: connects (history w) ->
            let run :=
              handle [ (is_pyodbc_Error,
                        connection_troubleshoot.attempt_failed database ssl_mode) ] e
                (World calls out) in
            connects (history (snd run)) = cs :: connects (history w)
            /\ match fst run with
               | Ret (Some result) =>
                 exists version columns,
                   result = connection_troubleshoot.Success ssl_mode version
                   /\ history (snd run)
                      = [ connection_close; cursor_close; fetchone; execute sql_version [];
                          cursor; connect cs (Some 10%Z) ] ++ history w
                   /\ answers env (length (history w)) (successful_attempt cs version columns)
               | Ret None => True
               | Raise e => is_pyodbc_Error e = false
               end).
  { intros e calls out Hcalls run.
    destruct (handle_attempt database ssl_mode e (World calls out))
      as (r & w' & Hrun & Hhist & Hr).
    subst run. rewrite Hrun. cbn [fst snd]. rewrite Hhist. cbn [history].
    split; [exact Hcalls|].
    destruct r as [[res|]|e']; [contradiction|exact I|].
    destruct Hr as [-> Hr]. exact Hr. }
  rewrite try_body_print. cbn [history stdout].
  rewrite try_body_perform. cbn [history stdout].
  destruct (env (length (history w)) (connect cs (Some 10%Z))) as [[]|e] eqn:H1;
    [|apply Hfail; reflexivity].
  rewrite try_body_perform. cbn [history stdout length].
  destruct (env (S (length (history w))) cursor) as [[]|e] eqn:H2;
    [|apply Hfail; reflexivity].
  rewrite try_body_perform. cbn [history stdout length].
  destruct (env (S (S (length (history w)))) (execute sql_version [])) as [[]|e] eqn:H3;
    [|apply Hfail; reflexivity].
  rewrite try_body_fetchone_0. cbv zeta. cbn [history stdout length].
  destruct (env (S (S (S (length (history w))))) fetchone) as [[[|version columns]|]|e] eqn:H4;
    [apply Hfail; reflexivity| |apply Hfail; reflexivity|apply Hfail; reflexivity].
  rewrite try_body_perform. cbn [history stdout length].
  destruct (env (S (S (S (S (length (history w)))))) cursor_close) as [[]|e] eqn:H5;
    [|apply Hfail; reflexivity].
  rewrite try_body_perform. cbn [history stdout length].
  destruct (env (S (S (S (S (S (length (history w))))))) connection_close) as [[]|e] eqn:H6;
    [|apply Hfail; reflexivity].
  rewrite !try_body_print. rewrite try_body_ret. cbn [fst snd history stdout].
  split; [reflexivity|].
  exists version, columns. split; [reflexivity|]. split; [reflexivity|].
  cbn [answers successful_attempt answer]. tauto.
Qed.


(** *** The loop over the SSL modes *)

Lemma connects_app (a b : list call) : connects (a ++ b) = connects a ++ connects b.
Proof.
  induction a as [|c a IH]; [reflexivity|].
  destruct c; cbn [app connects]; rewrite IH; reflexivity.
Qed.

Lemma connects_rev (l : list call) : connects (rev l) = rev (connects l).
Proof.
  induction l as [|c l IH]; [reflexivity|].
  cbn [rev]. rewrite connects_app, IH.
  destruct c; cbn [connects rev]; rewrite ?app_nil_r; reflexivity.
Qed.

Lemma try_ssl_modes_cases (env : environment) (server port database user password : str)
    (modes : list (str * str)) (w : world) :
  let cs := connection_troubleshoot.connection_string server port database user password in
  let run :=
    connection_troubleshoot.try_ssl_modes env server port database user password modes w in
  exists k,
    k <= length modes
    /\ connects (history (snd run))
       = rev (map cs (take k (map fst modes))) ++ connects (history w)
    /\ match fst run with
       | Ret (connection_troubleshoot.Success ssl_mode version) =>
         1 <= k
         /\ map fst modes !! (k - 1) = Some ssl_mode
         /\ exists columns before,
              history (snd run)
              = [ connection_close; cursor_close; fetchone; execute sql_version []; cursor;
                  connect (cs ssl_mode) (Some 10%Z) ] ++ before
              /\ answers env (length before) (successful_attempt (cs ssl_mode) version columns)
       | Ret connection_troubleshoot.Failure => k = length modes
       | Raise e => 1 <= k /\ is_pyodbc_Error e = false
       end.
Proof.
  intros cs run. subst run. revert w.
  induction modes as [|[ssl_mode description] rest IH]; intros w.
  - exists 0. cbn. auto.
  - cbn [connection_troubleshoot.try_ssl_modes]. rewrite run_print.
    set (w1 := World _ _).
    assert (Hw1 : connects (history w1) = connects (history w)) by reflexivity.
    clearbody w1.
    pose proof (attempt_cases env server port database user password ssl_mode w1)
      as [Hc Hr]. fold cs in Hc, Hr.
    destruct (connection_troubleshoot.attempt env server port database user password
                ssl_mode w1) as [[[result|]|e] w2] eqn:Hatt;
      rewrite !(run_bind _ _ _ _ _ Hatt); cbn [fst snd] in *.
    + destruct Hr as (version & columns & -> & Hhist & Hans).
      exists 1. unfold ret. cbn [fst snd length take map rev app].
      split; [lia|]. split; [rewrite Hc, Hw1; reflexivity|].
      split; [lia|]. split; [reflexivity|].
      exists columns, (history w1). split; assumption.
    + destruct (IH w2) as (k & Hk & Hconn & Hres).
      exists (S k). cbn [length take map rev].
      split; [lia|]. split.
      * rewrite Hconn, Hc, Hw1. rewrite <- app_assoc. reflexivity.
      * destruct (fst (connection_troubleshoot.try_ssl_modes env server port database
                         user password rest w2)) as [[m v|]|e].
        -- destruct Hres as (Hk1 & Hlook & Hsucc).
           split; [lia|]. split; [|exact Hsucc].
           destruct k as [|k']; [lia|]. cbn in Hlook |- *.
           rewrite Nat.sub_0_r in Hlook. exact Hlook.
        -- lia.
        -- destruct Hres as [Hk1 He]. split; [lia|exact He].
    + exists 1. cbn [fst snd length take map rev app].
      split; [lia|]. split; [rewrite Hc, Hw1; reflexivity|].
      split; [lia|exact Hr].
Qed.






(** *** The suggested access-control rules *)

Lemma test_all_nil_iff (env : environment) (server port : str)
    (configs : list (str * str * str)) (w w' : world) :
  connection_troubleshoot.test_all env server port configs w = (Ret [], w')
  <-> all_fail env server port configs w w'.
Proof.
  revert w. induction configs as [|[[database user] password] rest IH]; intros w.
  - cbn [connection_troubleshoot.test_all]. unfold ret. split.
    + intros [= ->]. constructor.
    + intros H. inversion H. reflexivity.
  - cbn [connection_troubleshoot.test_all].
    destruct (connection_troubleshoot.test_connection_with_ssl_modes env server port
                database user password w) as [[result|e] w1] eqn:Htest;
      rewrite (run_bind _ _ _ _ _ Htest).
    + destruct (connection_troubleshoot.test_all env server port rest w1)
        as [[successful|e] w2] eqn:Hrest;
        rewrite (run_bind _ _ _ _ _ Hrest); unfold ret.
      * split.
        -- intros Heq. injection Heq as Hnil Hw. subst w2.
           destruct result as [ssl_mode version|]; cbn in Hnil; [discriminate Hnil|].
           subst successful.
           econstructor; [exact Htest|]. apply IH. exact Hrest.
        -- intros H. inversion H as [|? ? ? ? ? w1' ? Htest' Hrest']; subst.
           rewrite Htest in Htest'. injection Htest' as Hres Hw. subst result w1'.
           apply IH in Hrest'. rewrite Hrest in Hrest'.
           injection Hrest' as Hsucc Hw. subst successful w2.
           reflexivity.
      * split; [discriminate|].
        intros H. inversion H as [|? ? ? ? ? w1' ? Htest' Hrest']; subst.
        rewrite Htest in Htest'. injection Htest' as Hres Hw. subst result w1'.
        apply IH in Hrest'. rewrite Hrest in Hrest'. discriminate Hrest'.
    + split; [discriminate|].
      intros H. inversion H as [|? ? ? ? ? w1' ? Htest' Hrest']; subst.
      rewrite Htest in Htest'. discriminate Htest'.
Qed.

Lemma flat_map_pairs {A B C} (f : A * B -> list C) (xs : list A) (ys : list B) :
  flat_map (fun x => flat_map (fun y => f (x, y)) ys) xs = flat_map f (list_prod xs ys).
Proof.
  induction xs as [|x xs IH]; [reflexivity|].
  cbn [flat_map list_prod]. rewrite flat_map_app, IH. f_equal.
  clear IH. induction ys as [|y ys IHy]; [reflexivity|].
  cbn [flat_map map]. rewrite IHy. reflexivity.
Qed.

Lemma pg_hba_entries_rules (databases users : list str) (client_ip : str) :
  connection_troubleshoot.pg_hba_entries databases users client_ip
  = [ u "# Add these lines to pg_hba.conf on the PostgreSQL server";
      u "# (Replace /32 with appropriate subnet if needed)";
      [] ]
    ++ flat_map (rules client_ip) (list_prod databases users)
    ++ [ [];
         u "# After adding these lines:";
         u "# 1. Save the pg_hba.conf file";
         u "# 2. Restart PostgreSQL or run: SELECT pg_reload_conf();";
         u "# 3. Test the connection again" ].
Proof.
  unfold connection_troubleshoot.pg_hba_entries.
  rewrite <- (flat_map_pairs (rules client_ip)). reflexivity.
Qed.

Lemma suggestion_first_character :
  hd 0%N
    (connection_troubleshoot.generate_pg_hba_entries
       (map (fun c => fst (fst c)) connection_troubleshoot.test_configs)
       (map (fun c => snd (fst c)) connection_troubleshoot.test_configs)
       (u "100.89.18.15"))
  = 35%N.
Proof. vm_compute. reflexivity. Qed.

Lemma success_lines_first_character (successful : list (str * str * str)) (l : str) :
  In l ([nl ++ rule 60; u "TROUBLESHOOTING SUMMARY"; rule 60] ++ success_lines successful) ->
  hd 0%N l <> 35%N.
Proof.
  unfold success_lines. cbn [app In].
  intros [<-|[<-|[<-|[<-|Hin]]]]; try (vm_compute; discriminate).
  apply in_map_iff in Hin as (conn & <- & _). vm_compute. discriminate.
Qed.

(** C3, as the code has it.  After the connection tests the tool prints
    the summary heading; the generated pg_hba.conf text is among the lines
    that follow exactly when no credential set obtained a connection, that
    is when the test of every credential set ended without one, and then
    the alternative solutions are the lines right after it.  Nothing of
    this is printed when a test lets an exception out.  The generated text
    holds, between its heading and closing comments, a hostssl and a host
    rule against the client address for every combination of a tried
    database with a tried user, sixteen combinations in all. *)
Theorem pg_hba_suggestion (env : environment) (w : world) :
  let databases := map (fun c => fst (fst c)) connection_troubleshoot.test_configs in
  let users := map (fun c => snd (fst c)) connection_troubleshoot.test_configs in
  let suggestion :=
    connection_troubleshoot.generate_pg_hba_entries databases users (u "100.89.18.15") in
  let w0 :=
    World (history w)
      (stdout w ++ [u "PostgreSQL Connection Troubleshooting Tool"; rule 60]) in
  match connection_troubleshoot.test_all env (u "100.126.66.97") (u "5432")
          connection_troubleshoot.test_configs w0 with
  | (Ret successful, w1) =>
    fst (connection_troubleshoot.main env w) = Ret tt
    /\ exists printed,
         stdout (snd (connection_troubleshoot.main env w))
         = stdout w1 ++ [nl ++ rule 60; u "TROUBLESHOOTING SUMMARY"; rule 60] ++ printed
         /\ (In suggestion printed <-> successful = [])
         /\ (In suggestion printed
             <-> all_fail env (u "100.126.66.97") (u "5432")
                   connection_troubleshoot.test_configs w0 w1)
         /\ (successful = [] ->
             exists before, printed = before ++ [suggestion] ++ alternative_lines)
  | (Raise e, w1) => connection_troubleshoot.main env w = (Raise e, w1)
  end
  /\ suggestion
     = join_lines
         ([ u "# Add these lines to pg_hba.conf on the PostgreSQL server";
            u "# (Replace /32 with appropriate subnet if needed)";
            [] ]
          ++ flat_map (rules (u "100.89.18.15")) (list_prod databases users)
          ++ [ [];
               u "# After adding these lines:";
               u "# 1. Save the pg_hba.conf file";
               u "# 2. Restart PostgreSQL or run: SELECT pg_reload_conf();";
               u "# 3. Test the connection again" ])
  /\ (forall database user,
        In (database, user) (list_prod databases users)
        <-> In database databases /\ In user users)
  /\ length (list_prod databases users) = 16.
Proof.
  intros databases users suggestion w0.
  split; [|split; [|split]].
  - rewrite main_output. fold w0.
    destruct (connection_troubleshoot.test_all env (u "100.126.66.97") (u "5432")
                connection_troubleshoot.test_configs w0) as [[successful|e] w1] eqn:Htest;
      [|reflexivity].
    split; [reflexivity|]. cbn [snd stdout].
    exists (match successful with
            | [] => solution_lines
            | _ :: _ => success_lines successful
            end).
    split; [reflexivity|].
    assert (Hiff : In suggestion
                     match successful with
                     | [] => solution_lines
                     | _ :: _ => success_lines successful
                     end <-> successful = []).
    { destruct successful as [|conn successful].
      - split; [reflexivity|]. intros _.
        unfold solution_lines. apply in_or_app. left.
        cbn [In]. do 7 right. left. reflexivity.
      - split; [|discriminate]. intros Hin. exfalso.
        apply (success_lines_first_character (conn :: successful) suggestion).
        + apply in_or_app. right. exact Hin.
        + apply suggestion_first_character. }
    split; [exact Hiff|]. split.
    + rewrite Hiff. rewrite <- test_all_nil_iff. rewrite Htest.
      split; [intros ->; reflexivity|intros [= ->]; reflexivity].
    + intros ->. unfold solution_lines.
      eexists [_; _; _; _; _; _; _]. reflexivity.
  - subst suggestion. unfold connection_troubleshoot.generate_pg_hba_entries.
    rewrite pg_hba_entries_rules. reflexivity.
  - intros database user. apply in_prod_iff.
  - vm_compute. reflexivity.
Qed.

(** The generated text holds a rule for the database orca and the user
    receipt, a pair that was never tried. *)
Lemma pg_hba_rule_for_untried_pair :
  In (u "hostssl    orca         receipt      100.89.18.15/32        md5")
     (connection_troubleshoot.pg_hba_entries
        (map (fun c => fst (fst c)) connection_troubleshoot.test_configs)
        (map (fun c => snd (fst c)) connection_troubleshoot.test_configs)
        (u "100.89.18.15"))
  /\ ~ In (u "orca", u "receipt")
          (map (fun c => (fst (fst c), snd (fst c))) connection_troubleshoot.test_configs)
  /\ ~ (forall database user,
          In (database, user)
             (list_prod (map (fun c => fst (fst c)) connection_troubleshoot.test_configs)
                        (map (fun c => snd (fst c)) connection_troubleshoot.test_configs))
          <-> In (database, user)
                 (map (fun c => (fst (fst c), snd (fst c)))
                    connection_troubleshoot.test_configs)).
Proof.
  assert (Hnot : ~ In (u "orca", u "receipt")
                     (map (fun c => (fst (fst c), snd (fst c)))
                        connection_troubleshoot.test_configs)).
  { intros Hin. apply list_elem_of_In in Hin. revert Hin.
    apply (bool_decide_eq_false_1 _). vm_compute. reflexivity. }
  split; [|split].
  - apply list_elem_of_In. apply (bool_decide_eq_true_1 _). vm_compute. reflexivity.
  - exact Hnot.
  - intros H. apply Hnot. apply H. apply in_prod_iff. split.
    + apply list_elem_of_In. apply (bool_decide_eq_true_1 _). vm_compute. reflexivity.
    + apply list_elem_of_In. apply (bool_decide_eq_true_1 _). vm_compute. reflexivity.
Qed.

Lemma pg_hba_suggestion_witness :
  exists before,
    stdout (snd (connection_troubleshoot.main Scenario.refused start))
    = before
      ++ [ connection_troubleshoot.generate_pg_hba_entries
             (map (fun c => fst (fst c)) connection_troubleshoot.test_configs)
             (map (fun c => snd (fst c)) connection_troubleshoot.test_configs)
             (u "100.89.18.15") ]
      ++ alternative_lines.
Proof.
  pose proof (pg_hba_suggestion Scenario.refused start) as [H _]. cbv zeta in H.
  destruct (connection_troubleshoot.test_all Scenario.refused (u "100.126.66.97")
              (u "5432") connection_troubleshoot.test_configs _)
    as [[successful|e] w1] eqn:Htest.
  - destruct H as (_ & printed & Hout & _ & _ & Hnil).
    assert (Hs : successful = []).
    { vm_compute in Htest. injection Htest as Hs _. symmetry. exact Hs. }
    destruct (Hnil Hs) as (before & ->).
    exists (stdout w1 ++ [nl ++ rule 60; u "TROUBLESHOOTING SUMMARY"; rule 60] ++ before).
    rewrite Hout. rewrite <- !app_assoc. reflexivity.
  - vm_compute in Htest. discriminate Htest.
Defined.

(** *** Failures during the connection attempts *)

Section DriverLevelFailures.

Variable env : environment.
Hypothesis driver_level : driver_level_failures_only env.

Lemma perform_driver_level (c : call) : raises_only (fun e => is_pyodbc_Error e = true) (perform env c).
Proof.
  intros w. unfold perform. cbn [fst].
  specialize (driver_level (length (history w)) c).
  destruct (env (length (history w)) c); [exact I|exact driver_level].
Qed.

Lemma fetchone_0_driver_level : raises_only (fun e => is_pyodbc_Error e = true) (fetchone_0 env).
Proof.
  intros w. unfold fetchone_0, bind, perform.
  specialize (driver_level (length (history w)) fetchone).
  destruct (env (length (history w)) fetchone) as [v|e]; [|exact driver_level].
  destruct driver_level as (c & r & ->). exact I.
Qed.

Lemma attempt_no_raise (server port database user password ssl_mode : str) :
  raises_only (fun _ => False)
    (connection_troubleshoot.attempt env server port database user password ssl_mode).
Proof.
  unfold connection_troubleshoot.attempt. cbv zeta.
  apply raises_only_try_except with (Q := fun e => is_pyodbc_Error e = true).
  - repeat first
      [ apply raises_only_ret
      | apply raises_only_print
      | apply perform_driver_level
      | apply fetchone_0_driver_level
      | apply raises_only_bind; [|intros ?] ].
  - intros e He. cbn [find fst snd]. rewrite He.
    cbn [find fst snd]. intros w. destruct (attempt_failed_run database ssl_mode e w) as (lines & ->).
    exact I.
Qed.

Lemma try_ssl_modes_no_raise (server port database user password : str)
    (modes : list (str * str)) :
  raises_only (fun _ => False)
    (connection_troubleshoot.try_ssl_modes env server port database user password modes).
Proof.
  induction modes as [|[ssl_mode description] rest IH];
    cbn [connection_troubleshoot.try_ssl_modes].
  - apply raises_only_ret.
  - apply raises_only_bind; [apply raises_only_print|intros _].
    apply raises_only_bind; [apply attempt_no_raise|intros [result|]].
    + apply raises_only_ret.
    + exact IH.
Qed.

Lemma test_connection_with_ssl_modes_no_raise (server port database user password : str) :
  raises_only (fun _ => False)
    (connection_troubleshoot.test_connection_with_ssl_modes env server port database
       user password).
Proof.
  unfold connection_troubleshoot.test_connection_with_ssl_modes.
  apply raises_only_bind; [apply raises_only_print|intros _].
  apply raises_only_bind; [apply raises_only_print|intros _].
  apply try_ssl_modes_no_raise.
Qed.

Lemma test_all_no_raise (server port : str) (configs : list (str * str * str)) :
  raises_only (fun _ => False) (connection_troubleshoot.test_all env server port configs).
Proof.
  induction configs as [|[[database user] password] rest IH];
    cbn [connection_troubleshoot.test_all].
  - apply raises_only_ret.
  - apply raises_only_bind;
      [apply test_connection_with_ssl_modes_no_raise|intros result].
    apply raises_only_bind; [exact IH|intros successful].
    apply raises_only_ret.
Qed.

End DriverLevelFailures.

Lemma script_completes (env : environment) (w w' : world) :
  connection_troubleshoot.main env w = (Ret tt, w') ->
  connection_troubleshoot.script env true w = (Ret 0%Z, w').
Proof.
  intros H.
  unfold connection_troubleshoot.script, connection_troubleshoot.main_block,
    import_pyodbc, try_except, bind, ret.
  rewrite H. reflexivity.
Qed.

Lemma script_unexpected (env : environment) (w w1 : world) (e : exn) :
  connection_troubleshoot.main env w = (Raise e, w1) ->
  is_Exception e = true ->
  connection_troubleshoot.script env true w
  = (Ret 1%Z, World (history w1) (stdout w1 ++ [u "Unexpected error: " ++ str_of_exn e])).
Proof.
  intros H He.
  unfold connection_troubleshoot.script, connection_troubleshoot.main_block,
    import_pyodbc, try_except, bind, ret.
  rewrite H.
  destruct e; try discriminate He;
    cbv [handle find fst snd is_KeyboardInterrupt is_Exception print str_of_exn];
    reflexivity.
Qed.

(** ** Errors raised by the driver *)

Lemma raised_in_history (env : environment) (w w1 w2 : world) (e : exn) :
  history w1 = history w2 -> raised_in env w w1 e -> raised_in env w w2 e.
Proof.
  intros H (n & c & Hn & Hl & He). exists n, c. unfold trace in *. rewrite <- H.
  auto.
Qed.

Lemma raised_in_from (env : environment) (w w0 w' : world) (e : exn) :
  length (history w) = length (history w0) -> raised_in env w w' e -> raised_in env w0 w' e.
Proof. intros H (n & c & Hn & Hl & He). exists n, c. rewrite <- H. auto. Qed.

Lemma raised_in_no_call (env : environment) (w w' : world) (e : exn) :
  history w' = history w -> ~ raised_in env w w' e.
Proof.
  intros H (n & c & Hn & Hl & _). unfold trace in Hl. rewrite H in Hl.
  apply lookup_lt_Some in Hl. rewrite length_rev in Hl. lia.
Qed.

Lemma raised_in_split (env : environment) (w w1 w2 : world) (e : exn) (calls : list call) :
  history w2 = calls ++ history w1 ->
  raised_in env w w2 e -> raised_in env w w1 e \/ raised_in env w1 w2 e.
Proof.
  intros H2 (n & c & Hn & Hl & He).
  destruct (Nat.lt_ge_cases n (length (history w1))) as [Hlt|Hge].
  - left. exists n, c. split; [exact Hn|]. split; [|exact He].
    unfold trace in *. rewrite H2, rev_app_distr in Hl.
    rewrite lookup_app_l in Hl by (rewrite length_rev; exact Hlt). exact Hl.
  - right. exists n, c. auto.
Qed.

Lemma raised_in_after (env : environment) (w w' : world) (e : exn) (c : call)
    (v : reply c) (calls : list call) (out : list str) :
  env (length (history w)) c = Ret v ->
  history w' = calls ++ c :: history w ->
  raised_in env w w' e -> raised_in env (World (c :: history w) out) w' e.
Proof.
  intros Hv Hw' (n & c' & Hn & Hl & He).
  exists n, c'. split; [|split; assumption]. cbn [history length].
  destruct (Nat.eq_dec n (length (history w))) as [->|Hne]; [|lia].
  exfalso. unfold trace in Hl. rewrite Hw' in Hl.
  rewrite rev_app_distr in Hl. cbn [rev] in Hl. rewrite <- app_assoc in Hl.
  rewrite lookup_app_r in Hl by (rewrite length_rev; lia).
  rewrite length_rev, Nat.sub_diag in Hl. cbn in Hl.
  injection Hl as <-. congruence.
Qed.

Section Propagates.

Variable env : environment.
Variable Q : exn -> Prop.

Lemma propagates_no_call {A} (m : M A) :
  (forall w, history (snd (m w)) = history w) -> propagates env Q m.
Proof.
  intros H w. split; [exists []; apply H|].
  intros e Hr _. exfalso. exact (raised_in_no_call env w _ e (H w) Hr).
Qed.

Lemma propagates_perform (c : call) : propagates env Q (perform env c).
Proof.
  intros w. unfold perform. cbn [fst snd history]. split; [exists [c]; reflexivity|].
  intros e (n & c' & Hn & Hl & He) _.
  unfold trace in Hl. cbn [history rev] in Hl.
  pose proof (lookup_lt_Some _ _ _ Hl) as Hlt.
  rewrite length_app, length_rev in Hlt. cbn [length] in Hlt.
  assert (n = length (history w)) as -> by lia.
  rewrite lookup_app_r in Hl by (rewrite length_rev; lia).
  rewrite length_rev, Nat.sub_diag in Hl. cbn in Hl.
  injection Hl as <-. exact He.
Qed.

Lemma propagates_bind {A B} (m : M A) (k : A -> M B) :
  propagates env Q m -> (forall a, propagates env Q (k a)) -> propagates env Q (bind m k).
Proof.
  intros Hm Hk w. unfold bind. destruct (Hm w) as [[calls1 H1] Hp1].
  destruct (m w) as [[a|e1] w1]; cbn [fst snd] in *.
  - destruct (Hk a w1) as [[calls2 H2] Hp2]. split.
    + exists (calls2 ++ calls1). rewrite H2, H1, app_assoc. reflexivity.
    + intros e Hr HQ.
      destruct (raised_in_split env w w1 _ e calls2 H2 Hr) as [Hin|Hin].
      * specialize (Hp1 e Hin HQ). discriminate Hp1.
      * exact (Hp2 e Hin HQ).
  - split; [exists calls1; exact H1|].
    intros e Hr HQ. specialize (Hp1 e Hr HQ). injection Hp1 as ->. reflexivity.
Qed.

Lemma propagates_for_each {A} (xs : list A) (body : A -> M unit) :
  (forall x, propagates env Q (body x)) -> propagates env Q (for_each xs body).
Proof.
  intros H. induction xs as [|x xs IH]; cbn [for_each].
  - apply propagates_no_call. intros w. reflexivity.
  - apply propagates_bind; [apply H|intros _; exact IH].
Qed.

Lemma propagates_index (r : row) (i : nat) : propagates env Q (index r i).
Proof.
  apply propagates_no_call. intros w. unfold index.
  destruct (r !! i); reflexivity.
Qed.

Lemma propagates_fetchone_0 : propagates env Q (fetchone_0 env).
Proof.
  unfold fetchone_0. apply propagates_bind; [apply propagates_perform|].
  intros [r|]; [apply propagates_index|].
  apply propagates_no_call. intros w. reflexivity.
Qed.

(** A [try] whose clauses catch nothing of class [Q] and make no call. *)
Lemma propagates_try_except {A} (body : M A)
    (handlers : list ((exn -> bool) * (exn -> M A))) :
  propagates env Q body ->
  (forall h e, In h handlers -> fst h e = true -> ~ Q e) ->
  (forall h e w, In h handlers -> history (snd (snd h e w)) = history w) ->
  propagates env Q (try_except body handlers).
Proof.
  intros Hbody Hcatch Hkeep w. unfold try_except, handle.
  destruct (Hbody w) as [[calls H1] Hp].
  destruct (body w) as [[a|e1] w1]; cbn [fst snd] in *.
  - split; [exists calls; exact H1|exact Hp].
  - destruct (find (fun h => fst h e1) handlers) as [h|] eqn:Hfind.
    + apply find_some in Hfind as [Hin Hcaught].
      split; [exists calls; rewrite (Hkeep h e1 w1 Hin); exact H1|].
      intros e Hr HQ. exfalso.
      apply (raised_in_history env w _ w1 e (Hkeep h e1 w1 Hin)) in Hr.
      specialize (Hp e Hr HQ). injection Hp as ->.
      exact (Hcatch h e Hin Hcaught HQ).
    + split; [exists calls; exact H1|exact Hp].
Qed.

End Propagates.

(** A [try] around a body that lets every exception out, with clauses
    that print one line for an exception and return [x]. *)
Lemma try_except_reports {A} (env : environment) (body : M A)
    (handlers : list ((exn -> bool) * (exn -> M A))) (x : A) (message : exn -> str) :
  propagates env (fun _ => True) body ->
  (forall e w,
      handle handlers e w
      = if is_Exception e then (Ret x, World (history w) (stdout w ++ [message e]))
        else (Raise e, w)) ->
  forall w e,
    raised_in env w (snd (try_except body handlers w)) e -> is_Exception e = true ->
    fst (try_except body handlers w) = Ret x
    /\ last (stdout (snd (try_except body handlers w))) = Some (message e).
Proof.
  intros Hbody Hh w e Hr He. unfold try_except in *.
  destruct (Hbody w) as [_ Hp].
  destruct (body w) as [[a|e1] w1]; cbn [fst snd] in *.
  - specialize (Hp e Hr I). discriminate Hp.
  - rewrite Hh in Hr |- *.
    destruct (is_Exception e1) eqn:He1; cbn [fst snd stdout] in *.
    + apply (raised_in_history env w _ w1 e eq_refl) in Hr.
      specialize (Hp e Hr I). injection Hp as ->.
      split; [reflexivity|apply last_snoc].
    + specialize (Hp e Hr I). injection Hp as ->. congruence.
Qed.

Ltac propagating :=
  repeat lazymatch goal with
  | |- propagates _ _ (bind _ _) => apply propagates_bind; [|intros ?]
  | |- propagates _ _ (ret _) => apply propagates_no_call; intros ?; reflexivity
  | |- propagates _ _ (raise _) => apply propagates_no_call; intros ?; reflexivity
  | |- propagates _ _ (lift _) => apply propagates_no_call; intros ?; reflexivity
  | |- propagates _ _ (print _) => apply propagates_no_call; intros ?; reflexivity
  | |- propagates ?env ?Q (perform _ ?c) => exact (propagates_perform env Q c)
  | |- propagates _ _ (fetchone_0 _) => apply propagates_fetchone_0
  | |- propagates _ _ (index _ _) => apply propagates_index
  | |- propagates _ _ (test_orca_odbc.fmt _ _ _) => unfold test_orca_odbc.fmt
  | |- propagates _ _ (for_each _ _) => apply propagates_for_each; intros ?
  | |- propagates _ _ (test_orca_odbc.list_patients_row _) =>
    unfold test_orca_odbc.list_patients_row
  | |- propagates _ _ (test_orca_odbc.show_todays_visits_row _) =>
    unfold test_orca_odbc.show_todays_visits_row
  | |- propagates _ _ (test_orca_odbc.search_patients_row _) =>
    unfold test_orca_odbc.search_patients_row
  | |- propagates _ _ (test_orca_odbc.department_count_row _) =>
    unfold test_orca_odbc.department_count_row
  | |- propagates _ _ (let _ := _ in _) => cbv zeta
  | |- propagates _ _ (match ?x with _ => _ end) => destruct x
  end.

Lemma test_connection_handle (e : exn) (w : world) :
  handle
    [ (is_pyodbc_Error,
       fun e => print (u "✗ Connection failed: " ++ str_of_exn e) ;;
                ret (@None test_orca_odbc.connection_info));
      (is_Exception,
       fun e => print (u "✗ Unexpected error: " ++ str_of_exn e) ;; ret None) ] e w
  = if is_Exception e then
      (Ret None,
       World (history w)
         (stdout w ++
          [ (if is_pyodbc_Error e then u "✗ Connection failed: "
             else u "✗ Unexpected error: ") ++ str_of_exn e ]))
    else (Raise e, w).
Proof.
  destruct e;
    cbv [handle find fst snd is_pyodbc_Error is_Exception bind print ret str_of_exn];
    reflexivity.
Qed.

Lemma patient_summary_handle (e : exn) (w : world) :
  handle
    [ (is_Exception,
       fun e => print (u "患者データの取得に失敗しました: " ++ str_of_exn e)) ] e w
  = if is_Exception e then
      (Ret tt,
       World (history w) (stdout w ++ [u "患者データの取得に失敗しました: " ++ str_of_exn e]))
    else (Raise e, w).
Proof.
  destruct e; cbv [handle find fst snd is_Exception print str_of_exn]; reflexivity.
Qed.

Lemma test_connection_reports (env : environment) (connection_string driver_name : str)
    (w : world) (e : exn) :
  let run := test_orca_odbc.test_connection env connection_string driver_name w in
  raised_in env w (snd run) e -> is_Exception e = true ->
  fst run = Ret None
  /\ last (stdout (snd run))
     = Some ((if is_pyodbc_Error e then u "✗ Connection failed: "
              else u "✗ Unexpected error: ") ++ str_of_exn e).
Proof.
  intros run. subst run. unfold test_orca_odbc.test_connection.
  apply (try_except_reports env _ _ None
           (fun e => (if is_pyodbc_Error e then u "✗ Connection failed: "
                      else u "✗ Unexpected error: ") ++ str_of_exn e)).
  - propagating.
  - apply test_connection_handle.
Qed.

Lemma bind_returns {A B} (P : B -> Prop) (m : M A) (k : A -> M B) :
  (forall a w, match fst (k a w) with Ret b => P b | Raise _ => True end) ->
  forall w, match fst (bind m k w) with Ret b => P b | Raise _ => True end.
Proof.
  intros Hk w. unfold bind. destruct (m w) as [[a|e] w1]; [apply Hk|exact I].
Qed.

(** [test_connection] returns [None] only from its [except] clauses,
    after the message for the error. *)
Lemma test_connection_none (env : environment) (connection_string driver_name : str)
    (w : world) :
  let run := test_orca_odbc.test_connection env connection_string driver_name w in
  fst run = Ret None ->
  exists e,
    is_Exception e = true
    /\ last (stdout (snd run))
       = Some ((if is_pyodbc_Error e then u "✗ Connection failed: "
                else u "✗ Unexpected error: ") ++ str_of_exn e).
Proof.
  intros run. subst run. unfold test_orca_odbc.test_connection, try_except.
  match goal with |- context [match ?b w with _ => _ end] => set (body := b) end.
  assert (Hbody : match fst (body w) with
                  | Ret info => info <> None
                  | Raise _ => True
                  end).
  { subst body. revert w.
    repeat (apply (bind_returns (fun info => info <> None)); intros ?).
    intros w. cbn [ret fst]. discriminate. }
  destruct (body w) as [[info|e] w1]; cbn [fst snd] in *.
  - intros [= ->]. congruence.
  - rewrite test_connection_handle.
    destruct (is_Exception e) eqn:He; cbn [fst snd stdout]; [|discriminate].
    intros _. exists e. split; [exact He|apply last_snoc].
Qed.

Lemma patient_summary_reports (env : environment) (argv0 : str) (w : world) (e : exn) :
  let run := test_orca_odbc.patient_summary env argv0 w in
  raised_in env w (snd run) e -> is_Exception e = true ->
  fst run = Ret tt
  /\ last (stdout (snd run)) = Some (u "患者データの取得に失敗しました: " ++ str_of_exn e).
Proof.
  intros run. subst run. unfold test_orca_odbc.patient_summary.
  apply (try_except_reports env _ _ tt
           (fun e => u "患者データの取得に失敗しました: " ++ str_of_exn e)).
  - propagating.
  - apply patient_summary_handle.
Qed.

Lemma list_patients_reports (env : environment) (w : world) (e : exn) :
  let run := test_orca_odbc.list_patients env w in
  raised_in env w (snd run) e -> is_Exception e = true ->
  fst run = Ret tt
  /\ last (stdout (snd run))
     = Some ((if is_pyodbc_Error e then u "✗ データベース接続エラー: "
              else u "✗ 予期しないエラー: ") ++ str_of_exn e).
Proof.
  intros run. subst run. unfold test_orca_odbc.list_patients. rewrite run_print.
  intros Hr. apply (raised_in_from env w (World (history w)
                      (stdout w ++ [nl ++ u "=== Patient List ==="]))) in Hr;
    [|reflexivity].
  revert Hr.
  apply (try_except_reports env _ _ tt
           (fun e => (if is_pyodbc_Error e then u "✗ データベース接続エラー: "
                      else u "✗ 予期しないエラー: ") ++ str_of_exn e)).
  - propagating.
  - apply database_handlers_handle.
Qed.

Lemma show_todays_visits_reports (env : environment) (w : world) (e : exn) :
  let run := test_orca_odbc.show_todays_visits env w in
  raised_in env w (snd run) e -> is_Exception e = true ->
  fst run = Ret tt
  /\ last (stdout (snd run))
     = Some ((if is_pyodbc_Error e then u "✗ データベース接続エラー: "
              else u "✗ 予期しないエラー: ") ++ str_of_exn e).
Proof.
  intros run. subst run. unfold test_orca_odbc.show_todays_visits. rewrite run_print.
  intros Hr. apply (raised_in_from env w (World (history w)
                      (stdout w ++ [nl ++ u "=== 本日の来院患者 ==="]))) in Hr;
    [|reflexivity].
  revert Hr.
  apply (try_except_reports env _ _ tt
           (fun e => (if is_pyodbc_Error e then u "✗ データベース接続エラー: "
                      else u "✗ 予期しないエラー: ") ++ str_of_exn e)).
  - propagating.
  - apply database_handlers_handle.
Qed.

Lemma search_patients_reports (env : environment) (w : world) (typed : str) (e : exn) :
  let run := test_orca_odbc.search_patients env w in
  env (length (history w)) (input (u "患者名またはフリガナを入力してください: ")) = Ret typed ->
  raised_in env w (snd run) e -> is_Exception e = true ->
  fst run = Ret tt
  /\ last (stdout (snd run))
     = Some ((if is_pyodbc_Error e then u "✗ データベース接続エラー: "
              else u "✗ 予期しないエラー: ") ++ str_of_exn e).
Proof.
  intros run Hin. subst run. unfold test_orca_odbc.search_patients.
  run. cbv zeta.
  destruct (strip typed) as [|c term].
  - intros Hr. exfalso. revert Hr. rewrite run_print_last. cbn [snd].
    intros (n & c & Hn & Hl & He).
    unfold trace in Hl. cbn [history rev] in Hl.
    pose proof (lookup_lt_Some _ _ _ Hl) as Hlt.
    rewrite length_app, length_rev in Hlt. cbn [length] in Hlt.
    assert (n = length (history w)) as -> by lia.
    rewrite lookup_app_r in Hl by (rewrite length_rev; lia).
    rewrite length_rev, Nat.sub_diag in Hl. cbn in Hl.
    injection Hl as <-. congruence.
  - match goal with |- context [try_except ?b ?h ?w0] =>
      set (body := b); set (w1 := w0) end.
    assert (Hbody : propagates env (fun _ => True) body) by (subst body; propagating).
    intros Hr.
    assert (Hr1 : raised_in env w1 (snd (try_except body test_orca_odbc.database_handlers w1)) e).
    { destruct (Hbody w1) as [[calls Hcalls] _].
      subst w1.
      eapply (raised_in_after env w _ e (input (u "患者名またはフリガナを入力してください: "))
                typed calls); [exact Hin| |exact Hr].
      unfold try_except. destruct (body _) as [[a|e1] w2]; cbn [fst snd] in *.
      - exact Hcalls.
      - rewrite database_handlers_handle. destruct (is_Exception e1); exact Hcalls. }
    revert Hr1.
    apply (try_except_reports env _ _ tt
             (fun e => (if is_pyodbc_Error e then u "✗ データベース接続エラー: "
                        else u "✗ 予期しないエラー: ") ++ str_of_exn e)).
    + exact Hbody.
    + apply database_handlers_handle.
Qed.

(** *** The troubleshooting tool lets other errors out *)

Section LetsOut.

Variable env : environment.

Lemma attempt_lets_out (server port database user password ssl_mode : str) :
  propagates env (fun e => is_pyodbc_Error e = false)
    (connection_troubleshoot.attempt env server port database user password ssl_mode).
Proof.
  unfold connection_troubleshoot.attempt. cbv zeta.
  apply propagates_try_except.
  - propagating.
  - intros h e [<-|[]] Hcaught HQ. cbn [fst] in Hcaught. congruence.
  - intros h e w [<-|[]]. cbn [snd].
    destruct (attempt_failed_run database ssl_mode e w) as (lines & ->). reflexivity.
Qed.

Lemma try_ssl_modes_lets_out (server port database user password : str)
    (modes : list (str * str)) :
  propagates env (fun e => is_pyodbc_Error e = false)
    (connection_troubleshoot.try_ssl_modes env server port database user password modes).
Proof.
  induction modes as [|[ssl_mode description] rest IH];
    cbn [connection_troubleshoot.try_ssl_modes].
  - propagating.
  - apply propagates_bind; [propagating|intros _].
    apply propagates_bind; [apply attempt_lets_out|intros [result|]];
      [propagating|exact IH].
Qed.

Lemma test_connection_with_ssl_modes_lets_out (server port database user password : str) :
  propagates env (fun e => is_pyodbc_Error e = false)
    (connection_troubleshoot.test_connection_with_ssl_modes env server port database user
       password).
Proof.
  unfold connection_troubleshoot.test_connection_with_ssl_modes.
  apply propagates_bind; [propagating|intros _].
  apply propagates_bind; [propagating|intros _].
  apply try_ssl_modes_lets_out.
Qed.

Lemma test_all_lets_out (server port : str) (configs : list (str * str * str)) :
  propagates env (fun e => is_pyodbc_Error e = false)
    (connection_troubleshoot.test_all env server port configs).
Proof.
  induction configs as [|[[database user] password] rest IH];
    cbn [connection_troubleshoot.test_all].
  - propagating.
  - apply propagates_bind; [apply test_connection_with_ssl_modes_lets_out|intros result].
    apply propagates_bind; [exact IH|intros successful]. propagating.
Qed.

Lemma main_lets_out :
  propagates env (fun e => is_pyodbc_Error e = false) (connection_troubleshoot.main env).
Proof.
  unfold connection_troubleshoot.main.
  apply propagates_bind; [propagating|intros _].
  apply propagates_bind; [propagating|intros _].
  apply propagates_bind; [apply test_all_lets_out|intros successful].
  unfold connection_troubleshoot.print_solutions. propagating.
Qed.

End LetsOut.

(** *** What is printed before the summary *)

Section PrintsOnly.

Variable P : str -> Prop.

Lemma prints_only_silent {A} (m : M A) :
  (forall w, stdout (snd (m w)) = stdout w) -> prints_only P m.
Proof.
  intros H w. exists []. rewrite app_nil_r. split; [apply H|apply Forall_nil_2].
Qed.

Lemma prints_only_print (line : str) : P line -> prints_only P (print line).
Proof.
  intros H w. exists [line]. split; [reflexivity|].
  apply Forall_cons_2; [exact H|apply Forall_nil_2].
Qed.

Lemma prints_only_bind {A B} (m : M A) (k : A -> M B) :
  prints_only P m -> (forall a, prints_only P (k a)) -> prints_only P (bind m k).
Proof.
  intros Hm Hk w. unfold bind. destruct (Hm w) as (out1 & H1 & HP1).
  destruct (m w) as [[a|e] w1]; cbn [fst snd] in *.
  - destruct (Hk a w1) as (out2 & H2 & HP2).
    exists (out1 ++ out2). rewrite H2, H1, app_assoc. split; [reflexivity|].
    apply Forall_app_2; assumption.
  - exists out1. split; assumption.
Qed.

Lemma prints_only_try_except {A} (body : M A)
    (handlers : list ((exn -> bool) * (exn -> M A))) :
  prints_only P body ->
  (forall h e, In h handlers -> prints_only P (snd h e)) ->
  prints_only P (try_except body handlers).
Proof.
  intros Hbody Hh w. unfold try_except, handle.
  destruct (Hbody w) as (out1 & H1 & HP1).
  destruct (body w) as [[a|e] w1]; cbn [fst snd] in *.
  - exists out1. split; assumption.
  - destruct (find (fun h => fst h e) handlers) as [h|] eqn:Hfind.
    + apply find_some in Hfind as [Hin _].
      destruct (Hh h e Hin w1) as (out2 & H2 & HP2).
      exists (out1 ++ out2). rewrite H2, H1, app_assoc. split; [reflexivity|].
      apply Forall_app_2; assumption.
    + exists out1. split; assumption.
Qed.

End PrintsOnly.

Ltac printing :=
  repeat lazymatch goal with
  | |- prints_only _ (bind _ _) => apply prints_only_bind; [|intros ?]
  | |- prints_only _ (ret _) => apply prints_only_silent; intros ?; reflexivity
  | |- prints_only _ (raise _) => apply prints_only_silent; intros ?; reflexivity
  | |- prints_only _ (perform _ _) => apply prints_only_silent; intros ?; reflexivity
  | |- prints_only _ (print _) => apply prints_only_print; vm_compute; discriminate
  | |- prints_only _ (if ?b then _ else _) => destruct b
  end.

Lemma fetchone_0_silent (env : environment) (P : str -> Prop) :
  prints_only P (fetchone_0 env).
Proof.
  apply prints_only_silent. intros w. unfold fetchone_0, bind, perform, index.
  destruct (env (length (history w)) fetchone) as [[r|]|e]; cbn [fst snd]; try reflexivity.
  destruct (r !! 0); reflexivity.
Qed.

Lemma test_all_prints (env : environment) (server port : str)
    (configs : list (str * str * str)) :
  prints_only (fun line => hd 0%N line <> 84%N)
    (connection_troubleshoot.test_all env server port configs).
Proof.
  induction configs as [|[[database user] password] rest IH];
    cbn [connection_troubleshoot.test_all].
  - printing.
  - apply prints_only_bind; [|intros result; apply prints_only_bind; [exact IH|intros ?; printing]].
    unfold connection_troubleshoot.test_connection_with_ssl_modes.
    apply prints_only_bind; [printing|intros _].
    apply prints_only_bind; [printing|intros _].
    induction connection_troubleshoot.ssl_modes as [|[ssl_mode description] modes IHm];
      cbn [connection_troubleshoot.try_ssl_modes].
    + printing.
    + apply prints_only_bind; [printing|intros _].
      apply prints_only_bind; [|intros [result|]; [printing|exact IHm]].
      unfold connection_troubleshoot.attempt. cbv zeta.
      apply prints_only_try_except.
      * apply prints_only_bind; [printing|intros _].
        apply prints_only_bind; [printing|intros _].
        apply prints_only_bind; [printing|intros _].
        apply prints_only_bind; [printing|intros _].
        apply prints_only_bind; [apply fetchone_0_silent|intros version].
        printing.
      * intros h e [<-|[]]. cbn [snd].
        unfold connection_troubleshoot.attempt_failed, connection_troubleshoot.analyze.
        cbv zeta. printing.
Qed.

(** An error that is not a [pyodbc.Error], raised by the driver during
    the connection tests, ends the tool with status 1 and without the
    summary. *)
Lemma other_error_ends_the_tool (env : environment) (w : world) (e : exn) :
  raised_in env w (snd (connection_troubleshoot.main env w)) e ->
  is_pyodbc_Error e = false ->
  fst (connection_troubleshoot.main env w) = Raise e
  /\ (is_Exception e = true ->
      fst (connection_troubleshoot.script env true w) = Ret 1%Z
      /\ exists out,
           stdout (snd (connection_troubleshoot.script env true w)) = stdout w ++ out
           /\ last out = Some (u "Unexpected error: " ++ str_of_exn e)
           /\ ~ In (u "TROUBLESHOOTING SUMMARY") out).
Proof.
  intros Hr Hother.
  destruct (main_lets_out env w) as [_ Hp]. specialize (Hp e Hr Hother).
  split; [exact Hp|]. intros He.
  pose proof (main_output env w) as Hmain.
  destruct (test_all_prints env (u "100.126.66.97") (u "5432")
              connection_troubleshoot.test_configs
              (World (history w)
                 (stdout w ++ [u "PostgreSQL Connection Troubleshooting Tool"; rule 60])))
    as (out & Hout & HP).
  destruct (connection_troubleshoot.test_all env (u "100.126.66.97") (u "5432")
              connection_troubleshoot.test_configs _) as [[successful|e1] w1].
  - rewrite Hmain in Hp. discriminate Hp.
  - rewrite Hmain in Hp. cbn [fst snd stdout] in *. injection Hp as ->.
    rewrite (script_unexpected env w w1 e Hmain He). cbn [fst snd stdout].
    split; [reflexivity|].
    exists ([u "PostgreSQL Connection Troubleshooting Tool"; rule 60] ++ out
            ++ [u "Unexpected error: " ++ str_of_exn e]).
    split; [rewrite Hout, <- !app_assoc; reflexivity|].
    split; [rewrite !app_assoc; apply last_snoc|].
    assert (Hfirst : forall l : str,
               hd 0%N l <> 84%N -> l <> u "TROUBLESHOOTING SUMMARY").
    { intros l Hl ->. apply Hl. reflexivity. }
    intros Hin. apply in_app_or in Hin as [Hin|Hin].
    + cbn [In] in Hin. destruct Hin as [Hin|[Hin|[]]];
        revert Hin; apply Hfirst; vm_compute; discriminate.
    + apply in_app_or in Hin as [Hin|[Hin|[]]].
      * rewrite List.Forall_forall in HP. apply (HP _ Hin). reflexivity.
      * revert Hin. apply Hfirst. vm_compute. discriminate.
Qed.

(** C1, as the code has it.  In test_orca_odbc.py nothing but an
    interrupt leaves [test_connection], [list_patients],
    [show_todays_visits] or the patient summary of the default mode, nor
    [search_patients] once the search term has been read; what their
    [except] clauses catch is printed with the text of the error and the
    routine returns: whenever the driver answers one of their calls with
    an exception of class [Exception], the routine returns normally and
    the last line it prints is its message for that error, with the text
    of the error; and whenever [test_connection] returns [None], whatever
    the error came from, its last line is such a message.  The SSL-mode
    routine of connection_troubleshoot.py
    catches driver-level errors only: when every failure during the
    connection attempts is a [pyodbc.Error], nothing leaves it, and the
    tool runs to its end, prints its summary and exits with status 0;
    whenever the driver answers a call of a connection attempt with any
    other error, that error leaves the attempt, the routine and [main],
    and the top-level clause prints it as the last line and exits with
    status 1, and no summary heading is printed. *)
Theorem errors_at_routine_boundary (env : environment) :
  (forall connection_string driver_name,
      raises_only (fun e => e = KeyboardInterrupt)
        (test_orca_odbc.test_connection env connection_string driver_name))
  /\ raises_only (fun e => e = KeyboardInterrupt) (test_orca_odbc.list_patients env)
  /\ raises_only (fun e => e = KeyboardInterrupt) (test_orca_odbc.show_todays_visits env)
  /\ (forall argv0,
        raises_only (fun e => e = KeyboardInterrupt)
          (test_orca_odbc.patient_summary env argv0))
  /\ (forall w typed,
        env (length (history w)) (input (u "患者名またはフリガナを入力してください: ")) = Ret typed ->
        match fst (test_orca_odbc.search_patients env w) with
        | Raise e => e = KeyboardInterrupt
        | Ret _ => True
        end)
  /\ (forall (body : M unit) w e w1,
        body w = (Raise e, w1) -> is_Exception e = true ->
        try_except body test_orca_odbc.database_handlers w
        = (Ret tt,
           World (history w1)
             (stdout w1 ++
              [ (if is_pyodbc_Error e then u "✗ データベース接続エラー: "
                 else u "✗ 予期しないエラー: ") ++ str_of_exn e ])))
  /\ (driver_level_failures_only env ->
      (forall server port database user password,
          raises_only (fun _ => False)
            (connection_troubleshoot.test_connection_with_ssl_modes env server port
               database user password))
      /\ fst (connection_troubleshoot.script env true start) = Ret 0%Z
      /\ In (u "TROUBLESHOOTING SUMMARY")
            (stdout (snd (connection_troubleshoot.script env true start))))
  /\ (forall w e w1,
        connection_troubleshoot.main env w = (Raise e, w1) -> is_Exception e = true ->
        connection_troubleshoot.script env true w
        = (Ret 1%Z,
           World (history w1) (stdout w1 ++ [u "Unexpected error: " ++ str_of_exn e])))
  /\ (forall connection_string driver_name w e,
        raised_in env w
          (snd (test_orca_odbc.test_connection env connection_string driver_name w)) e ->
        is_Exception e = true ->
        fst (test_orca_odbc.test_connection env connection_string driver_name w) = Ret None
        /\ last (stdout
                   (snd (test_orca_odbc.test_connection env connection_string driver_name w)))
           = Some ((if is_pyodbc_Error e then u "✗ Connection failed: "
                    else u "✗ Unexpected error: ") ++ str_of_exn e))
  /\ (forall connection_string driver_name w,
        fst (test_orca_odbc.test_connection env connection_string driver_name w) = Ret None ->
        exists e,
          is_Exception e = true
          /\ last (stdout
                     (snd (test_orca_odbc.test_connection env connection_string
                             driver_name w)))
             = Some ((if is_pyodbc_Error e then u "✗ Connection failed: "
                      else u "✗ Unexpected error: ") ++ str_of_exn e))
  /\ (forall argv0 w e,
        raised_in env w (snd (test_orca_odbc.patient_summary env argv0 w)) e ->
        is_Exception e = true ->
        fst (test_orca_odbc.patient_summary env argv0 w) = Ret tt
        /\ last (stdout (snd (test_orca_odbc.patient_summary env argv0 w)))
           = Some (u "患者データの取得に失敗しました: " ++ str_of_exn e))
  /\ (forall w e,
        raised_in env w (snd (test_orca_odbc.list_patients env w)) e ->
        is_Exception e = true ->
        fst (test_orca_odbc.list_patients env w) = Ret tt
        /\ last (stdout (snd (test_orca_odbc.list_patients env w)))
           = Some ((if is_pyodbc_Error e then u "✗ データベース接続エラー: "
                    else u "✗ 予期しないエラー: ") ++ str_of_exn e))
  /\ (forall w e,
        raised_in env w (snd (test_orca_odbc.show_todays_visits env w)) e ->
        is_Exception e = true ->
        fst (test_orca_odbc.show_todays_visits env w) = Ret tt
        /\ last (stdout (snd (test_orca_odbc.show_todays_visits env w)))
           = Some ((if is_pyodbc_Error e then u "✗ データベース接続エラー: "
                    else u "✗ 予期しないエラー: ") ++ str_of_exn e))
  /\ (forall w typed e,
        env (length (history w)) (input (u "患者名またはフリガナを入力してください: ")) = Ret typed ->
        raised_in env w (snd (test_orca_odbc.search_patients env w)) e ->
        is_Exception e = true ->
        fst (test_orca_odbc.search_patients env w) = Ret tt
        /\ last (stdout (snd (test_orca_odbc.search_patients env w)))
           = Some ((if is_pyodbc_Error e then u "✗ データベース接続エラー: "
                    else u "✗ 予期しないエラー: ") ++ str_of_exn e))
  /\ (forall server port database user password w e,
        raised_in env w
          (snd (connection_troubleshoot.test_connection_with_ssl_modes env server port
                  database user password w)) e ->
        is_pyodbc_Error e = false ->
        fst (connection_troubleshoot.test_connection_with_ssl_modes env server port
               database user password w) = Raise e)
  /\ (forall w e,
        raised_in env w (snd (connection_troubleshoot.main env w)) e ->
        is_pyodbc_Error e = false ->
        fst (connection_troubleshoot.main env w) = Raise e
        /\ (is_Exception e = true ->
            fst (connection_troubleshoot.script env true w) = Ret 1%Z
            /\ exists out,
                 stdout (snd (connection_troubleshoot.script env true w)) = stdout w ++ out
                 /\ last out = Some (u "Unexpected error: " ++ str_of_exn e)
                 /\ ~ In (u "TROUBLESHOOTING SUMMARY") out)).
Proof.
  split; [intros; apply test_connection_catches|].
  split; [apply list_patients_catches|].
  split; [apply show_todays_visits_catches|].
  split; [intros; apply patient_summary_catches|].
  split; [intros w typed; apply search_patients_catches|].
  split; [intros body w e w1; apply database_handlers_report|].
  split;
    [|split; [intros w e w1; apply script_unexpected|];
      split; [intros cs name w e; apply (test_connection_reports env cs name w e)|];
      split; [intros cs name w; apply (test_connection_none env cs name w)|];
      split; [intros argv0 w e; apply (patient_summary_reports env argv0 w e)|];
      split; [intros w e; apply (list_patients_reports env w e)|];
      split; [intros w e; apply (show_todays_visits_reports env w e)|];
      split; [intros w typed e; apply (search_patients_reports env w typed e)|];
      split; [|intros w e; apply other_error_ends_the_tool];
      intros server port database user password w e Hr Hother;
      exact (proj2 (test_connection_with_ssl_modes_lets_out env server port database user
                      password w) e Hr Hother)].
  intros Hdriver.
  split; [intros; apply test_connection_with_ssl_modes_no_raise; exact Hdriver|].
  pose proof (main_output env start) as Hmain.
  pose proof (test_all_no_raise env Hdriver (u "100.126.66.97") (u "5432")
                connection_troubleshoot.test_configs
                (World (history start)
                   (stdout start
                    ++ [u "PostgreSQL Connection Troubleshooting Tool"; rule 60])))
    as Hno.
  destruct (connection_troubleshoot.test_all env (u "100.126.66.97") (u "5432")
              connection_troubleshoot.test_configs _) as [[successful|e] w1];
    [|contradiction].
  rewrite (script_completes env start _ Hmain). cbn [fst snd stdout].
  split; [reflexivity|].
  apply in_or_app. right. right. left. reflexivity.
Qed.

Lemma errors_at_routine_boundary_witness :
  match fst (test_orca_odbc.search_patients Scenario.empty_database start) with
  | Raise e => e = KeyboardInterrupt
  | Ret _ => True
  end
  /\ fst (connection_troubleshoot.script Scenario.refused true start) = Ret 0%Z
  /\ In (u "TROUBLESHOOTING SUMMARY")
        (stdout (snd (connection_troubleshoot.script Scenario.refused true start)))
  /\ fst (test_orca_odbc.list_patients Scenario.refused start) = Ret tt
  /\ fst (connection_troubleshoot.main Scenario.generic_failure start)
     = Raise (OtherException (u "out of memory"))
  /\ fst (connection_troubleshoot.script Scenario.generic_failure true start) = Ret 1%Z.
Proof.
  pose proof (errors_at_routine_boundary Scenario.empty_database)
    as (_ & _ & _ & _ & Hsearch & _).
  pose proof (errors_at_routine_boundary Scenario.refused)
    as (_ & _ & _ & _ & _ & _ & Hdriver & _ & _ & _ & _ & Hlist & _).
  pose proof (errors_at_routine_boundary Scenario.generic_failure)
    as (_ & _ & _ & _ & _ & _ & _ & _ & _ & _ & _ & _ & _ & _ & _ & Hother).
  destruct (Hdriver (fun n c => eq_refl)) as (_ & Hstatus & Hsummary).
  assert (Hrefused :
            raised_in Scenario.refused start
              (snd (test_orca_odbc.list_patients Scenario.refused start))
              (pyodbc_Error
                 (u "FATAL: no pg_hba.conf entry for host 100.89.18.15, no encryption"))).
  { exists 0, (connect test_orca_odbc.connection_string (Some 10%Z)).
    split; [apply Nat.le_refl|]. split; vm_compute; reflexivity. }
  assert (Hgeneric :
            raised_in Scenario.generic_failure start
              (snd (connection_troubleshoot.main Scenario.generic_failure start))
              (OtherException (u "out of memory"))).
  { exists 0,
      (connect
         (connection_troubleshoot.connection_string (u "100.126.66.97") (u "5432")
            (u "orca") (u "orca") (u "orca") (u "disable"))
         (Some 10%Z)).
    split; [apply Nat.le_refl|]. split; vm_compute; reflexivity. }
  destruct (Hlist start _ Hrefused eq_refl) as [Hreturns _].
  destruct (Hother start _ Hgeneric eq_refl) as [Hleaves Hends].
  destruct (Hends eq_refl) as [Hone _].
  split; [apply (Hsearch start (u "Sato")); reflexivity|].
  split; [exact Hstatus|]. split; [exact Hsummary|].
  split; [exact Hreturns|]. split; [exact Hleaves|exact Hone].
Defined.

(** With a failure inside [pyodbc.connect] that is not a [pyodbc.Error]
    the SSL-mode routine lets the exception out, the tool prints no
    summary, and the process ends with status 1. *)
Lemma generic_failure_ends_the_tool :
  fst (connection_troubleshoot.test_connection_with_ssl_modes Scenario.generic_failure
         (u "100.126.66.97") (u "5432") (u "orca") (u "orca") (u "orca") start)
  = Raise (OtherException (u "out of memory"))
  /\ exit_status (fst (connection_troubleshoot.script Scenario.generic_failure true start))
     = 1%Z
  /\ ~ In (u "TROUBLESHOOTING SUMMARY")
          (stdout (snd (connection_troubleshoot.script Scenario.generic_failure true start))).
Proof.
  split; [vm_compute; reflexivity|]. split; [vm_compute; reflexivity|].
  intros Hin. apply list_elem_of_In in Hin. revert Hin.
  apply (bool_decide_eq_false_1 _). vm_compute. reflexivity.
Qed.

(** * Further properties *)

(** ** Times and dates *)

Lemma without_app (c : N) (a b : str) : without c (a ++ b) = without c a ++ without c b.
Proof. apply List.filter_app. Qed.

Lemma without_absent (c : N) (s : str) : ~ In c s -> without c s = s.
Proof.
  induction s as [|x s IH]; [reflexivity|].
  intros Hn. cbn [without List.filter].
  destruct (N.eqb_spec x c) as [->|Hne].
  - exfalso. apply Hn. left. reflexivity.
  - cbn [negb]. f_equal. apply IH. intros Hin. apply Hn. right. exact Hin.
Qed.

Lemma not_in_take (c : N) (n : nat) (s : str) : ~ In c s -> ~ In c (take n s).
Proof.
  intros Hn Hin. apply Hn. apply list_elem_of_In.
  apply list_elem_of_In in Hin. exact (subseteq_take n s c Hin).
Qed.

Lemma not_in_drop (c : N) (n : nat) (s : str) : ~ In c s -> ~ In c (drop n s).
Proof.
  intros Hn Hin. apply Hn. apply list_elem_of_In.
  apply list_elem_of_In in Hin. exact (subseteq_drop n s c Hin).
Qed.

Lemma time_str_of_text (c : char) (s : str) :
  test_orca_odbc.time_str (Str (c :: s))
  = Ret (Str (if 6 <=? length (c :: s)
              then take 2 (c :: s) ++ u ":" ++ take 2 (drop 2 (c :: s)) ++ u ":"
                   ++ take 2 (drop 4 (c :: s))
              else c :: s)).
Proof.
  unfold test_orca_odbc.time_str. cbn [truthy len length].
  destruct (6 <=? S (length s)); reflexivity.
Qed.

(** X1. Whatever text or NULL the visit time holds, the formatted time
    is a text of one to eight characters and nothing is raised; a time
    that arrives as a non-zero integer raises [TypeError]. *)
Theorem time_str_bounded (uketime : option str) :
  (exists t, test_orca_odbc.time_str (text uketime) = Ret (Str t)
             /\ 1 <= length t <= 8)
  /\ (forall z, z <> 0%Z ->
        exists msg, test_orca_odbc.time_str (Int z) = Raise (TypeError msg)).
Proof.
  split.
  - destruct uketime as [[|c s]|].
    + exists (u "未設定"). split; [reflexivity|]. vm_compute. lia.
    + cbn [text]. rewrite time_str_of_text. eexists. split; [reflexivity|].
      destruct (Nat.leb_spec 6 (length (c :: s))) as [Hge|Hlt].
      * rewrite !length_app, !length_take, !length_drop.
        change (length (u ":")) with 1. lia.
      * cbn [length] in *. lia.
    + exists (u "未設定"). split; [reflexivity|]. vm_compute. lia.
  - intros z Hz. unfold test_orca_odbc.time_str. cbn [truthy].
    destruct (Z.eqb_spec z 0) as [->|_]; [congruence|].
    cbn [negb len]. eexists. reflexivity.
Qed.

(** X2. The formatted time keeps the digits of the stored time: for a
    non-empty time without a colon, taking the colons out of what is
    displayed gives back its first six characters, in order. *)
Theorem time_str_keeps_digits (s : str) :
  s <> [] -> ~ In 58%N s ->
  exists t, test_orca_odbc.time_str (Str s) = Ret (Str t)
            /\ without 58%N t = take 6 s.
Proof.
  intros Hne Hcolon. destruct s as [|c s]; [congruence|].
  rewrite time_str_of_text. eexists. split; [reflexivity|].
  destruct (Nat.leb_spec 6 (length (c :: s))) as [Hge|Hlt].
  - change (u ":") with [58%N].
    rewrite !without_app.
    change (without 58%N [58%N]) with (@nil N). cbn [app].
    rewrite !without_absent
      by (first [apply not_in_take; try apply not_in_drop; exact Hcolon]).
    rewrite app_assoc, (take_take_drop (c :: s) 2 2).
    cbn [Nat.add]. rewrite (take_take_drop (c :: s) 4 2). reflexivity.
  - rewrite without_absent by exact Hcolon.
    symmetry. apply take_ge. lia.
Qed.

Lemma time_str_keeps_digits_witness :
  exists t, test_orca_odbc.time_str (Str (u "0930001")) = Ret (Str t)
            /\ without 58%N t = u "093000".
Proof.
  apply (time_str_keeps_digits (u "0930001")).
  - discriminate.
  - intros Hin. apply list_elem_of_In in Hin. revert Hin.
    apply (bool_decide_eq_false_1 _). vm_compute. reflexivity.
Defined.

(** X3. The date of the recent-visits listing: a null or empty date is
    shown as 未設定; a non-empty date is shown with two slashes whatever its
    length, in at most ten characters, and, when it holds no slash itself,
    taking the slashes out gives back its first eight characters. *)
Theorem date_str_format (ukeymd : option str) :
  (ukeymd = None \/ ukeymd = Some [] ->
   check_today_visits_rows.date_str (text ukeymd) = Ret (Str (u "未設定")))
  /\ (forall s, ukeymd = Some s -> s <> [] ->
        check_today_visits_rows.date_str (text ukeymd)
        = Ret (Str (take 4 s ++ u "/" ++ take 2 (drop 4 s) ++ u "/" ++ take 2 (drop 6 s)))
        /\ length (take 4 s ++ u "/" ++ take 2 (drop 4 s) ++ u "/" ++ take 2 (drop 6 s))
           <= 10
        /\ (~ In 47%N s ->
            without 47%N
              (take 4 s ++ u "/" ++ take 2 (drop 4 s) ++ u "/" ++ take 2 (drop 6 s))
            = take 8 s)).
Proof.
  split.
  - intros [-> | ->]; reflexivity.
  - intros s -> Hne. destruct s as [|c s]; [congruence|].
    split; [reflexivity|]. split.
    + rewrite !length_app, !length_take, !length_drop.
      change (length (u "/")) with 1. lia.
    + intros Hslash. change (u "/") with [47%N].
      rewrite !without_app.
      change (without 47%N [47%N]) with (@nil N). cbn [app].
      rewrite !without_absent
        by (first [apply not_in_take; try apply not_in_drop; exact Hslash]).
      rewrite app_assoc, (take_take_drop (c :: s) 4 2).
      cbn [Nat.add]. rewrite (take_take_drop (c :: s) 6 2). reflexivity.
Qed.

Lemma date_str_format_witness :
  check_today_visits_rows.date_str (text None) = Ret (Str (u "未設定"))
  /\ check_today_visits_rows.date_str (text (Some (u "20240115")))
     = Ret (Str (u "2024/01/15"))
  /\ check_today_visits_rows.date_str (text (Some (u "2024")))
     = Ret (Str (u "2024//")).
Proof.
  split; [|split].
  - apply (proj1 (date_str_format None)). left. reflexivity.
  - apply (proj1 (proj2 (date_str_format (Some (u "20240115"))) (u "20240115")
                    eq_refl ltac:(discriminate))).
  - apply (proj1 (proj2 (date_str_format (Some (u "2024"))) (u "2024")
                    eq_refl ltac:(discriminate))).
Defined.

Lemma time_str_bounded_witness :
  exists msg, test_orca_odbc.time_str (Int 93000) = Raise (TypeError msg).
Proof. apply (proj2 (time_str_bounded None) 93000%Z). discriminate. Defined.

Lemma birth_date_of_text (c : char) (b : str) :
  test_orca_odbc.birth_date (Some (c :: b))
  = take 4 (c :: b) ++ u "年" ++ take 2 (drop 4 (c :: b)) ++ u "月"
    ++ take 2 (drop 6 (c :: b)) ++ u "日".
Proof. reflexivity. Qed.

Lemma length_birth_date (birthday : option str) :
  length (test_orca_odbc.birth_date birthday) <= 11.
Proof.
  destruct birthday as [[|c b]|].
  - vm_compute. lia.
  - rewrite birth_date_of_text. rewrite !length_app, !length_take, !length_drop.
    change (length (u "年")) with 1. change (length (u "月")) with 1.
    change (length (u "日")) with 1. lia.
  - vm_compute. lia.
Qed.

(** X4. A birth date that is not empty and does not end in a blank is
    reformatted whatever its length: the year, month and day markers are
    always written, around whatever characters are there; and the
    formatted birth date never has more than eleven characters, so that
    it always fits its column of twelve.  (Values that end in a blank are
    left out: for them a [text] column and a [character(n)] column, which
    drops the padding, give different results.) *)
Theorem birth_date_any_length (birthday : option str) :
  length (test_orca_odbc.birth_date birthday) <= 11
  /\ (forall b, birthday = Some b -> b <> [] -> last b <> Some space ->
        test_orca_odbc.birth_date birthday
        = take 4 b ++ u "年" ++ take 2 (drop 4 b) ++ u "月" ++ take 2 (drop 6 b) ++ u "日").
Proof.
  split; [apply length_birth_date|].
  intros b -> Hne _. destruct b as [|c b]; [congruence|]. apply birth_date_of_text.
Qed.

Lemma birth_date_any_length_witness :
  test_orca_odbc.birth_date (Some (u "1985")) = u "1985年月日".
Proof.
  apply (proj2 (birth_date_any_length (Some (u "1985"))) (u "1985") eq_refl).
  - discriminate.
  - vm_compute. discriminate.
Defined.

(** ** Department names *)

(** X5. The visit table and the department breakdown look a code up the
    same way: for every code that is present (not null, not empty, not
    zero) both show the same text, the name of the table or else the code
    itself; they differ only for a missing code. *)
Theorem dept_lookups_agree (code : cell) :
  (truthy code = true ->
   test_orca_odbc.dept_name code = test_orca_odbc.dept_name_statistics code)
  /\ (truthy code = false ->
      test_orca_odbc.dept_name code = Str (u "未設定")
      /\ test_orca_odbc.dept_name_statistics code = Str (u "不明")).
Proof.
  unfold test_orca_odbc.dept_name, test_orca_odbc.dept_name_statistics,
    test_orca_odbc.dept_map_get.
  destruct code as [|s|z]; cbn [truthy].
  - split; [discriminate|]. intros _. split; reflexivity.
  - destruct s as [|c s].
    + split; [discriminate|]. intros _. split; reflexivity.
    + split; [|discriminate]. intros _.
      destruct (test_orca_odbc.dept_map !! (c :: s)); reflexivity.
  - unfold or_. cbn [truthy].
    destruct (negb (z =? 0)%Z); split; try discriminate; intros _;
      try split; reflexivity.
Qed.

Lemma dept_lookups_agree_witness :
  test_orca_odbc.dept_name (Str (u "07")) = test_orca_odbc.dept_name_statistics (Str (u "07"))
  /\ test_orca_odbc.dept_name (Int 0) = Str (u "未設定").
Proof.
  split.
  - apply (proj1 (dept_lookups_agree (Str (u "07")))). reflexivity.
  - apply (proj2 (dept_lookups_agree (Int 0))). reflexivity.
Defined.

Lemma dept_map_entries (code name : str) :
  test_orca_odbc.dept_map !! code = Some name ->
  length code = 2 /\ 1 <= length name <= 5.
Proof.
  unfold test_orca_odbc.dept_map. intros H.
  apply elem_of_list_to_map_2 in H.
  repeat (apply elem_of_cons in H as [H|H];
          [injection H as -> ->; vm_compute; lia|]).
  apply elem_of_nil in H. contradiction.
Qed.

(** ** The rows of the three tables *)

Lemma length_pad (a : align) (width : nat) (s : str) :
  length (pad a width s) = Nat.max width (length s).
Proof.
  unfold pad. destruct a; rewrite !length_app, !length_replicate.
  - lia.
  - lia.
  - assert ((width - length s) / 2 <= width - length s)
      by (apply Nat.Div0.div_le_upper_bound; lia).
    lia.
Qed.

Lemma length_truncate (threshold keep : nat) (s : str) :
  keep + 3 <= threshold ->
  length (test_orca_odbc.truncate threshold keep s) <= threshold.
Proof.
  intros H. unfold test_orca_odbc.truncate, slice.
  destruct (Nat.ltb_spec threshold (length s)).
  - rewrite length_app, length_take. change (length (u "...")) with 3. lia.
  - assumption.
Qed.

Lemma length_gender (sex : option str) : length (test_orca_odbc.gender sex) = 2.
Proof.
  unfold test_orca_odbc.gender.
  repeat destruct (bool_decide _); reflexivity.
Qed.

Lemma length_status (deathkbn : option str) : length (test_orca_odbc.status deathkbn) = 2.
Proof.
  unfold test_orca_odbc.status.
  destruct (test_orca_odbc.sql_and _ _) as [[|]|]; reflexivity.
Qed.

Lemma length_separator : length (u " | ") = 3.
Proof. reflexivity. Qed.

(** X6. In the patient list every row of the seven columns the query
    returns (the registration date, which the loop does not read, being
    the seventh) has the width of the header line, 83 characters, as long
    as the patient number prints in at most four characters: long names
    are cut, and the gender, birth date and status the query computes
    always fit their columns. *)
Theorem list_patients_rows_align (ptid : Z) (name kananame sex birthday deathkbn : option str)
    (creymd : cell) (w : world) :
  length (str_of_Z ptid) <= 4 ->
  exists line,
    test_orca_odbc.list_patients_row
      [ Int ptid; text name; text kananame; Str (test_orca_odbc.gender sex);
        Str (test_orca_odbc.birth_date birthday); Str (test_orca_odbc.status deathkbn);
        creymd ] w
    = (Ret tt, World (history w) (stdout w ++ [line]))
    /\ length line = 83
    /\ length line = length test_orca_odbc.patients_header.
Proof.
  intros Hid. rewrite list_patients_row_line. eexists. split; [reflexivity|].
  assert (Hlen : forall l : str, length l = 83 ->
                 length l = 83 /\ length l = length test_orca_odbc.patients_header).
  { intros l ->. split; reflexivity. }
  apply Hlen.
  rewrite !length_app, !length_pad, !length_separator, length_gender, length_status.
  pose proof (length_truncate 18 15 (text_or name (u "名前なし")) ltac:(lia)).
  pose proof (length_truncate 18 15 (text_or kananame (u "フリガナなし")) ltac:(lia)).
  pose proof (length_birth_date birthday).
  lia.
Qed.

Lemma list_patients_rows_align_witness :
  exists line,
    test_orca_odbc.list_patients_row
      [ Int 12; text (Some (u "Bartholomew Fitzgerald")); text None;
        Str (test_orca_odbc.gender (Some (u "1")));
        Str (test_orca_odbc.birth_date (Some (u "19850423")));
        Str (test_orca_odbc.status None); text (Some (u "20200101")) ] start
    = (Ret tt, World (history start) (stdout start ++ [line]))
    /\ length line = 83
    /\ length line = length test_orca_odbc.patients_header.
Proof.
  apply (list_patients_rows_align 12 (Some (u "Bartholomew Fitzgerald")) None
           (Some (u "1")) (Some (u "19850423")) None (text (Some (u "20200101"))) start).
  vm_compute. lia.
Defined.

(** X7. In the search result every row of the seven columns the query
    returns (the address, which the loop does not read, being the
    seventh) has the width of the header line, 82 characters, as long as
    the patient number prints in at most four characters; the telephone
    number is cut like the names. *)
Theorem search_patients_rows_align (ptid : Z) (name kananame sex birthday phone : option str)
    (home_adrs : cell) (w : world) :
  length (str_of_Z ptid) <= 4 ->
  exists line,
    test_orca_odbc.search_patients_row
      [ Int ptid; text name; text kananame; Str (test_orca_odbc.gender sex);
        Str (test_orca_odbc.birth_date birthday); text phone; home_adrs ] w
    = (Ret tt, World (history w) (stdout w ++ [line]))
    /\ length line = 82
    /\ length line = length test_orca_odbc.search_header.
Proof.
  intros Hid. rewrite search_patients_row_line. eexists. split; [reflexivity|].
  assert (Hlen : forall l : str, length l = 82 ->
                 length l = 82 /\ length l = length test_orca_odbc.search_header).
  { intros l ->. split; reflexivity. }
  apply Hlen.
  rewrite !length_app, !length_pad, !length_separator, length_gender.
  pose proof (length_truncate 13 10 (text_or name (u "名前なし")) ltac:(lia)).
  pose proof (length_truncate 13 10 (text_or kananame (u "フリガナなし")) ltac:(lia)).
  pose proof (length_truncate 13 10 (text_or phone (u "未登録")) ltac:(lia)).
  pose proof (length_birth_date birthday).
  lia.
Qed.

Lemma search_patients_rows_align_witness :
  exists line,
    test_orca_odbc.search_patients_row
      [ Int 12; text (Some (u "Sato")); text None;
        Str (test_orca_odbc.gender None);
        Str (test_orca_odbc.birth_date None); text (Some (u "03-1234-5678-9999"));
        text None ] start
    = (Ret tt, World (history start) (stdout start ++ [line]))
    /\ length line = 82
    /\ length line = length test_orca_odbc.search_header.
Proof.
  apply (search_patients_rows_align 12 (Some (u "Sato")) None None None
           (Some (u "03-1234-5678-9999")) (text None) start).
  vm_compute. lia.
Defined.

Lemma patient_name_text (name full_name : option str) :
  exists shown,
    or_ (test_orca_odbc.or_cell (text name) (text full_name)) (u "名前なし") = Str shown.
Proof.
  destruct name as [[|c s]|], full_name as [[|c' s']|]; eexists; reflexivity.
Qed.

Lemma dept_name_text (sryka : option str) :
  match sryka with
  | Some code => length code <= 8
  | None => True
  end ->
  exists shown, test_orca_odbc.dept_name (text sryka) = Str shown /\ length shown <= 8.
Proof.
  intros Hcode. unfold test_orca_odbc.dept_name, test_orca_odbc.dept_map_get.
  destruct sryka as [code|]; cbn [text].
  - destruct (test_orca_odbc.dept_map !! code) as [name|] eqn:Hlook.
    + exists name. split; [reflexivity|].
      pose proof (dept_map_entries code name Hlook). lia.
    + destruct code as [|c code].
      * eexists. split; [reflexivity|]. vm_compute. lia.
      * eexists. split; [reflexivity|]. exact Hcode.
  - eexists. split; [reflexivity|]. vm_compute. lia.
Qed.

Lemma time_str_text (uketime : option str) :
  exists t, test_orca_odbc.time_str (text uketime) = Ret (Str t) /\ length t <= 8.
Proof.
  destruct uketime as [[|c s]|].
  - exists (u "未設定"). split; [reflexivity|]. vm_compute. lia.
  - cbn [text]. rewrite time_str_of_text. eexists. split; [reflexivity|].
    destruct (Nat.leb_spec 6 (length (c :: s))) as [Hge|Hlt].
    + rewrite !length_app, !length_take, !length_drop.
      change (length (u ":")) with 1. lia.
    + lia.
  - exists (u "未設定"). split; [reflexivity|]. vm_compute. lia.
Qed.

(** X8. In the table of today's visits every row has the width of the
    header line, 78 characters, whatever the stored time and names are,
    as long as the patient number prints in at most eight characters and
    the department code has at most eight: the time shown never has more
    than eight characters, the names are cut, and the department names of
    the table have at most five. *)
Theorem show_todays_visits_rows_align (ukeymd sex birthday : cell) (ptid : Z)
    (uketime name sryka full_name kananame : option str) (w : world) :
  length (str_of_Z ptid) <= 8 ->
  match sryka with
  | Some code => length code <= 8
  | None => True
  end ->
  exists line,
    test_orca_odbc.show_todays_visits_row
      [ ukeymd; text uketime; Int ptid; text name; text sryka; text full_name;
        text kananame; sex; birthday ] w
    = (Ret tt, World (history w) (stdout w ++ [line]))
    /\ length line = 78
    /\ length line = length test_orca_odbc.visits_header.
Proof.
  intros Hid Hcode.
  destruct (time_str_text uketime) as (t & Ht & Htlen).
  destruct (patient_name_text name full_name) as (shown_name & Hname).
  destruct (dept_name_text sryka Hcode) as (dept & Hdept & Hdlen).
  unfold test_orca_odbc.show_todays_visits_row, test_orca_odbc.fmt.
  rewrite Ht, Hname, Hdept, or_text. rewrite run_lift_ret.
  repeat (cbn [test_orca_odbc.truncate_cell format]; rewrite run_lift_ret).
  rewrite run_print_last. eexists. split; [reflexivity|].
  assert (Hlen : forall l : str, length l = 78 ->
                 length l = 78 /\ length l = length test_orca_odbc.visits_header).
  { intros l ->. split; reflexivity. }
  apply Hlen.
  rewrite !length_app, !length_pad, !length_separator.
  pose proof (length_truncate 18 15 shown_name ltac:(lia)).
  pose proof (length_truncate 16 13 (text_or kananame (u "フリガナなし")) ltac:(lia)).
  lia.
Qed.

Lemma show_todays_visits_rows_align_witness :
  exists line,
    test_orca_odbc.show_todays_visits_row
      [ Str (u "20240115"); text (Some (u "093000")); Int 12; text (Some (u "Tanaka"));
        text (Some (u "02")); text None; text None; Str (u "1"); Str (u "19850423") ] start
    = (Ret tt, World (history start) (stdout start ++ [line]))
    /\ length line = 78
    /\ length line = length test_orca_odbc.visits_header.
Proof.
  apply (show_todays_visits_rows_align (Str (u "20240115")) (Str (u "1"))
           (Str (u "19850423")) 12 (Some (u "093000")) (Some (u "Tanaka"))
           (Some (u "02")) None None start).
  - vm_compute. lia.
  - vm_compute. lia.
Defined.

(** ** The reports of check_today_visits.py *)

Lemma today_row_text (ukeymd : cell) (ptid : Z)
    (uketime name sryka full_name kananame : option str) (w : world) :
  exists t,
    check_today_visits.time_str (text uketime) = Ret (Str t)
    /\ check_today_visits_rows.today_row
         [ ukeymd; text uketime; Int ptid; text name; text sryka; text full_name;
           text kananame ] w
       = (Ret tt,
          World (history w)
            (stdout w ++
             [ u "Patient ID: " ++ str_of_Z ptid ++ u ", Name: "
               ++ str_of_cell (test_orca_odbc.or_cell (text name) (text full_name))
               ++ u ", Time: " ++ t ++ u ", Dept: " ++ str_of_cell (text sryka) ])).
Proof.
  destruct (time_str_text uketime) as (t & Ht & _).
  exists t. split; [exact Ht|].
  unfold check_today_visits_rows.today_row.
  change (check_today_visits.time_str (text uketime))
    with (test_orca_odbc.time_str (text uketime)).
  rewrite Ht, run_lift_ret, run_print_last. reflexivity.
Qed.

Lemma for_each_lines {A} (R : A -> str -> Prop) (body : A -> M unit) (xs : list A) :
  Forall (fun x => forall w, exists line,
            body x w = (Ret tt, World (history w) (stdout w ++ [line])) /\ R x line) xs ->
  forall w, exists lines,
    for_each xs body w = (Ret tt, World (history w) (stdout w ++ lines))
    /\ Forall2 R xs lines.
Proof.
  intros Hxs. induction Hxs as [|x xs Hx Hxs IH]; intros w.
  - exists []. cbn [for_each]. unfold ret. rewrite app_nil_r.
    destruct w. split; [reflexivity|apply Forall2_nil_2].
  - destruct (Hx w) as (line & Hline & HR).
    cbn [for_each]. rewrite (run_bind _ _ _ _ _ Hline).
    match goal with
    | |- context [for_each xs body ?w1] => destruct (IH w1) as (lines & Hrest & HRs)
    end.
    rewrite Hrest. cbn [history stdout]. rewrite <- app_assoc.
    exists (line :: lines). split; [reflexivity|].
    apply Forall2_cons_2; assumption.
Qed.

Lemma str_of_text (v : option str) :
  str_of_cell (text v) = match v with Some s => s | None => u "None" end.
Proof. destruct v; reflexivity. Qed.

Lemma str_of_name (name full_name : option str) :
  str_of_cell (test_orca_odbc.or_cell (text name) (text full_name))
  = match name with
    | Some (c :: s) => c :: s
    | _ => match full_name with Some f => f | None => u "None" end
    end.
Proof. destruct name as [[|c s]|], full_name; reflexivity. Qed.

(** X9. The first report of check_today_visits.py prints the line "No
    visits found for today" when there is no visit, and otherwise one
    line per visit, in the order of the rows: the patient number, the
    name of the visit (that of the patient record when the visit has
    none), the formatted time and the department.  The department is
    the stored code as it is, and the word None when the code is NULL:
    this script has no label for a missing department.  A row that does
    not have seven columns raises [ValueError] before anything of it is
    printed. *)
Theorem today_report_lines (w : world) :
  check_today_visits_rows.today_report [] w
  = (Ret tt, World (history w) (stdout w ++ [u "No visits found for today"]))
  /\ (forall visits,
        Forall (fun visit =>
                  exists ukeymd ptid uketime name sryka full_name kananame,
                    visit = [ ukeymd; text uketime; Int ptid; text name; text sryka;
                              text full_name; text kananame ]) visits ->
        visits <> [] ->
        exists lines,
          check_today_visits_rows.today_report visits w
          = (Ret tt, World (history w) (stdout w ++ lines))
          /\ length lines = length visits
          /\ Forall2
               (fun visit line =>
                  exists ukeymd ptid uketime name sryka full_name kananame t,
                    visit = [ ukeymd; text uketime; Int ptid; text name; text sryka;
                              text full_name; text kananame ]
                    /\ check_today_visits.time_str (text uketime) = Ret (Str t)
                    /\ line
                       = u "Patient ID: " ++ str_of_Z ptid ++ u ", Name: "
                         ++ match name with
                            | Some (c :: s) => c :: s
                            | _ => match full_name with Some f => f | None => u "None" end
                            end
                         ++ u ", Time: " ++ t ++ u ", Dept: "
                         ++ match sryka with Some code => code | None => u "None" end)
               visits lines)
  /\ (forall ukeymd ptid uketime name full_name kananame,
        exists fields,
          check_today_visits_rows.today_row
            [ ukeymd; text uketime; Int ptid; text name; None_; text full_name;
              text kananame ] w
          = (Ret tt, World (history w) (stdout w ++ [fields ++ u ", Dept: None"])))
  /\ (forall visit, length visit <> 7 ->
        exists msg,
          check_today_visits_rows.today_row visit w = (Raise (ValueError msg), w)).
Proof.
  split; [reflexivity|]. split; [|split].
  - intros visits Hrows Hne.
    unfold check_today_visits_rows.today_report.
    destruct visits as [|visit visits]; [congruence|].
    match goal with |- context [for_each ?xs _ _] => set (rows := xs) in * end.
    clear Hne.
    destruct (for_each_lines
                (fun visit line =>
                   exists ukeymd ptid uketime name sryka full_name kananame t,
                     visit = [ ukeymd; text uketime; Int ptid; text name; text sryka;
                               text full_name; text kananame ]
                     /\ check_today_visits.time_str (text uketime) = Ret (Str t)
                     /\ line
                        = u "Patient ID: " ++ str_of_Z ptid ++ u ", Name: "
                          ++ match name with
                             | Some (c :: s) => c :: s
                             | _ => match full_name with Some f => f | None => u "None" end
                             end
                          ++ u ", Time: " ++ t ++ u ", Dept: "
                          ++ match sryka with Some code => code | None => u "None" end)
                check_today_visits_rows.today_row rows) with (w := w)
      as (lines & Hrun & Hlines).
    + eapply Forall_impl; [exact Hrows|]. cbv beta.
      intros row (ukeymd & ptid & uketime & name & sryka & full_name & kananame & ->) w0.
      destruct (today_row_text ukeymd ptid uketime name sryka full_name kananame w0)
        as (t & Ht & Hrow).
      rewrite str_of_name, str_of_text in Hrow.
      eexists. split; [exact Hrow|].
      exists ukeymd, ptid, uketime, name, sryka, full_name, kananame, t.
      split; [reflexivity|]. split; [exact Ht|reflexivity].
    + exists lines. split; [exact Hrun|]. split; [|exact Hlines].
      symmetry. exact (Forall2_length _ _ _ Hlines).
  - intros ukeymd ptid uketime name full_name kananame.
    destruct (today_row_text ukeymd ptid uketime name None full_name kananame w)
      as (t & _ & Hrow).
    change (text None) with None_ in Hrow. rewrite Hrow.
    replace (u ", Dept: " ++ str_of_cell None_) with (u ", Dept: None")
      by (vm_compute; reflexivity).
    exists (u "Patient ID: " ++ str_of_Z ptid ++ u ", Name: "
            ++ str_of_cell (test_orca_odbc.or_cell (text name) (text full_name))
            ++ u ", Time: " ++ t).
    rewrite <- !app_assoc. reflexivity.
  - intros visit Hlen. unfold check_today_visits_rows.today_row.
    destruct visit as [|c1 [|c2 [|c3 [|c4 [|c5 [|c6 [|c7 [|c8 visit]]]]]]]];
      cbn [length] in Hlen; try congruence;
      unfold raise, test_orca_odbc.unpack_error;
      match goal with
      | |- context [if ?b then _ else _] => destruct b
      end; eexists; reflexivity.
Qed.

Lemma today_report_lines_witness :
  exists lines,
    check_today_visits_rows.today_report
      [ [ Str (u "20240115"); text (Some (u "093000")); Int 12; text (Some (u "Tanaka"));
          text (Some (u "02")); text None; text None ] ] start
    = (Ret tt, World (history start) (stdout start ++ lines))
    /\ lines = [u "Patient ID: 12, Name: Tanaka, Time: 09:30:00, Dept: 02"].
Proof.
  destruct (proj1 (proj2 (today_report_lines start))
              [ [ Str (u "20240115"); text (Some (u "093000")); Int 12;
                  text (Some (u "Tanaka")); text (Some (u "02")); text None; text None ] ])
    as (lines & Hrun & _ & _).
  - apply Forall_cons. split; [|apply Forall_nil; exact I].
    exists (Str (u "20240115")), 12%Z, (Some (u "093000")), (Some (u "Tanaka")),
      (Some (u "02")), None, None. reflexivity.
  - discriminate.
  - exists lines. split; [exact Hrun|].
    vm_compute in Hrun. injection Hrun as <-. vm_compute. reflexivity.
Defined.

(** ** Connections on the empty-result paths *)

Lemma database_handlers_history (e : exn) (w : world) :
  history (snd (handle test_orca_odbc.database_handlers e w)) = history w.
Proof.
  rewrite database_handlers_handle. destruct (is_Exception e); reflexivity.
Qed.

Lemma trace_app (calls : list call) (w : world) (out : list str) :
  trace (World (calls ++ history w) out) = trace w ++ rev calls.
Proof. unfold trace. cbn [history]. apply rev_app_distr. Qed.

(** X10. On an empty result the patient list and the list of today's
    visits return from inside their [try] block: the calls they have made
    are the connection, the cursor, the queries and the fetches, and
    neither the cursor nor the connection is closed.  The search routine
    does go on after its no-match message: it closes the cursor and, when
    that call goes through, the connection; when closing the cursor
    fails, the connection is not closed. *)
Theorem empty_result_leaves_connection_open (env : environment) (w : world) :
  let n := length (history w) in
  let connect := connect test_orca_odbc.connection_string (Some 10%Z) in
  (answers env n
     [ answer connect (Ret tt); answer cursor (Ret tt);
       answer (execute sql_patients []) (Ret tt); answer fetchall (Ret []) ] ->
   trace (snd (test_orca_odbc.list_patients env w))
   = trace w ++ [connect; cursor; execute sql_patients []; fetchall])
  /\ (forall today,
        answers env n
          [ answer connect (Ret tt); answer cursor (Ret tt);
            answer (execute sql_today []) (Ret tt);
            answer fetchone (Ret (Some [Str today]));
            answer (execute sql_visits [Str today]) (Ret tt);
            answer fetchall (Ret []) ] ->
        trace (snd (test_orca_odbc.show_todays_visits env w))
        = trace w ++ [ connect; cursor; execute sql_today []; fetchone;
                       execute sql_visits [Str today]; fetchall ])
  /\ (forall typed c term,
        strip typed = c :: term ->
        let pattern := Str (u "%" ++ c :: term ++ u "%") in
        answers env n
          [ answer (input (u "患者名またはフリガナを入力してください: ")) (Ret typed);
            answer connect (Ret tt); answer cursor (Ret tt);
            answer (execute sql_search [pattern; pattern]) (Ret tt);
            answer fetchall (Ret []) ] ->
        exists rest,
          trace (snd (test_orca_odbc.search_patients env w))
          = trace w
            ++ [ input (u "患者名またはフリガナを入力してください: "); connect; cursor;
                 execute sql_search [pattern; pattern]; fetchall; cursor_close ]
            ++ rest
          /\ (env (n + 5) cursor_close = Ret tt -> rest = [connection_close])
          /\ (forall e, env (n + 5) cursor_close = Raise e -> rest = [])).
Proof.
  intros n cn. subst n cn. split; [|split].
  - intros (H1 & H2 & H3 & H4 & _).
    unfold test_orca_odbc.list_patients. rewrite run_print. unfold try_except.
    run. unfold print. cbn [fst snd].
    apply (trace_app [fetchall; execute sql_patients []; cursor; _] w).
  - intros today (H1 & H2 & H3 & H4 & H5 & H6 & _).
    unfold test_orca_odbc.show_todays_visits. rewrite run_print. unfold try_except.
    run. change (test_orca_odbc.today_text (Str today))
      with (Ret (slice 0 4 today ++ u "年" ++ slice 4 6 today ++ u "月"
                 ++ slice 6 8 today ++ u "日")).
    run. unfold print. cbn [fst snd].
    apply (trace_app [fetchall; execute sql_visits [Str today]; fetchone;
                      execute sql_today []; cursor; _] w).
  - intros typed c term Hstrip pattern Hanswers. subst pattern.
    rewrite (search_patients_no_match env w typed c term Hstrip Hanswers).
    match goal with |- context [try_except _ _ ?w0] => set (w4 := w0) end.
    assert (Hw4 : forall calls,
               rev (calls ++ history w4)
               = trace w
                 ++ [ input (u "患者名またはフリガナを入力してください: ");
                      connect test_orca_odbc.connection_string (Some 10%Z); cursor;
                      execute sql_search
                        [Str (u "%" ++ c :: term ++ u "%");
                         Str (u "%" ++ c :: term ++ u "%")];
                      fetchall ] ++ rev calls).
    { intros calls. unfold trace. subst w4. cbn [history].
      rewrite !rev_app_distr. cbn [rev app]. rewrite <- !app_assoc. cbn [app].
      reflexivity. }
    assert (Hn4 : length (history w4) = length (history w) + 5)
      by (subst w4; cbn [history]; rewrite ?length_app; cbn [length]; lia).
    clearbody w4.
    unfold try_except, bind, perform. rewrite Hn4.
    destruct (env (length (history w) + 5) cursor_close) as [[]|e1].
    + cbn [history stdout length].
      destruct (env (S (length (history w4))) connection_close) as [[]|e2].
      * exists [connection_close].
        split; [|split; [reflexivity|discriminate]].
        unfold trace. cbn [fst snd history].
        apply (Hw4 [connection_close; cursor_close]).
      * exists [connection_close].
        split; [|split; [reflexivity|discriminate]].
        unfold trace. rewrite database_handlers_history. cbn [history].
        apply (Hw4 [connection_close; cursor_close]).
    + exists []. split; [|split; [discriminate|reflexivity]].
      unfold trace. rewrite database_handlers_history. cbn [history].
      apply (Hw4 [cursor_close]).
Qed.

Lemma empty_result_leaves_connection_open_witness :
  trace (snd (test_orca_odbc.list_patients Scenario.empty_database start))
  = trace start
    ++ [ connect test_orca_odbc.connection_string (Some 10%Z); cursor;
         execute sql_patients []; fetchall ].
Proof.
  apply (proj1 (empty_result_leaves_connection_open Scenario.empty_database start)).
  repeat split.
Defined.

(** ** Paths that never reach the database *)

(** X11. A search term that is empty or made of blanks only stops the
    search routine after its prompt: it prints that a term is needed and
    returns, and the only call it has made is the prompt; no connection
    is opened. *)
Theorem blank_search_term (env : environment) (w : world) (typed : str) :
  env (length (history w)) (input (u "患者名またはフリガナを入力してください: ")) = Ret typed ->
  strip typed = [] ->
  test_orca_odbc.search_patients env w
  = (Ret tt,
     World (input (u "患者名またはフリガナを入力してください: ") :: history w)
       (stdout w ++ [nl ++ u "=== 患者検索 ==="; u "検索語を入力してください。"])).
Proof.
  intros Hin Hblank. unfold test_orca_odbc.search_patients. run. rewrite Hblank.
  rewrite run_print_last. cbn [history stdout]. rewrite <- app_assoc. reflexivity.
Qed.

Lemma blank_search_term_witness :
  test_orca_odbc.search_patients Cases.blank_console start
  = (Ret tt,
     World (input (u "患者名またはフリガナを入力してください: ") :: history start)
       (stdout start ++ [nl ++ u "=== 患者検索 ==="; u "検索語を入力してください。"])).
Proof.
  apply (blank_search_term Cases.blank_console start [32%N; 12288%N; 9%N]).
  - reflexivity.
  - vm_compute. reflexivity.
Defined.

Lemma run_input_or {A} (env : environment) (prompt default typed : str)
    (k : str -> M A) (w : world) :
  env (length (history w)) (input prompt) = Ret typed ->
  bind (test_orca_odbc.input_or env prompt default) k w
  = k (match typed with [] => default | _ => typed end)
      (World (input prompt :: history w) (stdout w)).
Proof.
  intros H. unfold test_orca_odbc.input_or, bind, perform, ret. rewrite H. reflexivity.
Qed.

(** X12. The custom connection test asks its five questions first; when
    the database name or the user name is left empty it prints that both
    are required and returns without asking for a driver and without
    opening a connection. *)
Theorem custom_test_needs_database_and_user (env : environment) (w : world)
    (server port database username password : str) :
  let n := length (history w) in
  answers env n
    [ answer (input (u "Enter server (default: localhost): ")) (Ret server);
      answer (input (u "Enter port (default: 5432): ")) (Ret port);
      answer (input (u "Enter database name: ")) (Ret database);
      answer (input (u "Enter username: ")) (Ret username);
      answer (input (u "Enter password: ")) (Ret password) ] ->
  database = [] \/ username = [] ->
  test_orca_odbc.test_specific_connection env w
  = (Ret tt,
     World
       ([ input (u "Enter password: "); input (u "Enter username: ");
          input (u "Enter database name: "); input (u "Enter port (default: 5432): ");
          input (u "Enter server (default: localhost): ") ] ++ history w)
       (stdout w
        ++ [ nl ++ u "=== Custom Connection Test ===";
             u "Database name and username are required!" ])).
Proof.
  intros n (H1 & H2 & H3 & H4 & H5 & _) Hmissing. subst n.
  unfold test_orca_odbc.test_specific_connection.
  rewrite run_print. cbn [history stdout].
  rewrite (run_input_or env _ _ server) by exact H1. cbn [history stdout length].
  rewrite (run_input_or env _ _ port) by exact H2. cbn [history stdout length].
  run.
  assert (Hmatch : forall (A : Type) (x y : A),
             match database, username with
             | _ :: _, _ :: _ => x
             | _, _ => y
             end = y).
  { intros A x y. destruct Hmissing as [-> | ->]; [reflexivity|].
    destruct database; reflexivity. }
  rewrite Hmatch. rewrite run_print_last. cbn [history stdout app].
  rewrite <- app_assoc. reflexivity.
Qed.

Lemma custom_test_needs_database_and_user_witness :
  test_orca_odbc.test_specific_connection Scenario.reachable start
  = (Ret tt,
     World
       ([ input (u "Enter password: "); input (u "Enter username: ");
          input (u "Enter database name: "); input (u "Enter port (default: 5432): ");
          input (u "Enter server (default: localhost): ") ] ++ history start)
       (stdout start
        ++ [ nl ++ u "=== Custom Connection Test ===";
             u "Database name and username are required!" ])).
Proof.
  apply (custom_test_needs_database_and_user Scenario.reachable start [] [] [] [] []).
  - repeat split.
  - left. reflexivity.
Defined.

(** X13. An option that is none of the five known ones makes the script
    print the option and a hint at --help, and nothing else happens: no
    driver or console call is made, whatever arguments follow.  The help
    option makes no call either. *)
Theorem unknown_option (env : environment) (argv0 option : str) (rest : list str)
    (w : world) :
  ~ In option [u "--interactive"; u "--patients"; u "--search"; u "--today"; u "--help"] ->
  test_orca_odbc.dispatch env argv0 (option :: rest) w
  = (Ret tt,
     World (history w)
       (stdout w ++ [u "Unknown option: " ++ option; u "Use --help to see available options."]))
  /\ history (snd (test_orca_odbc.dispatch env argv0 (u "--help" :: rest) w)) = history w.
Proof.
  intros Hnot. split.
  - unfold test_orca_odbc.dispatch.
    rewrite !bool_decide_eq_false_2
      by (intros ->; apply Hnot; cbn [In]; tauto).
    rewrite run_print, run_print_last. cbn [history stdout].
    rewrite <- app_assoc. reflexivity.
  - unfold test_orca_odbc.dispatch.
    rewrite !bool_decide_eq_false_2 by discriminate.
    rewrite bool_decide_eq_true_2 by reflexivity.
    rewrite !run_print, run_print_last. reflexivity.
Qed.

Lemma unknown_option_witness :
  test_orca_odbc.dispatch Scenario.reachable (u "test_orca_odbc.py")
    [u "--all"; u "--patients"] start
  = (Ret tt,
     World (history start)
       (stdout start
        ++ [u "Unknown option: " ++ u "--all"; u "Use --help to see available options."])).
Proof.
  apply (proj1 (unknown_option Scenario.reachable (u "test_orca_odbc.py") (u "--all")
                  [u "--patients"] start
                  ltac:(intros Hin; apply list_elem_of_In in Hin; revert Hin;
                        apply (bool_decide_eq_false_1 _); vm_compute; reflexivity))).
Defined.

(** ** The order of the connection tests of test_orca_odbc.py *)

Section ConnectsExactly.

Context {A : Type}.

Lemma keeps_ret (a : A) : connects_exactly [] (ret a).
Proof. intros w. reflexivity. Qed.

Lemma keeps_raise (e : exn) : connects_exactly [] (@raise A e).
Proof. intros w. reflexivity. Qed.

Lemma keeps_lift (r : result A) : connects_exactly [] (lift r).
Proof. intros w. reflexivity. Qed.

Lemma keeps_bind {B} (m : M B) (k : B -> M A) :
  connects_exactly [] m -> (forall b, connects_exactly [] (k b)) ->
  connects_exactly [] (bind m k).
Proof.
  intros Hm Hk w. unfold bind. specialize (Hm w).
  destruct (m w) as [[b|e] w']; cbn [fst snd] in *.
  - rewrite (Hk b w'). exact Hm.
  - exact Hm.
Qed.

(** What follows the connections does not add any. *)
Lemma adds_bind {B} (made : list str) (m : M B) (k : B -> M A) :
  connects_exactly made m -> (forall b, connects_exactly [] (k b)) ->
  connects_exactly made (bind m k).
Proof.
  intros Hm Hk w. unfold bind. specialize (Hm w).
  destruct (m w) as [[b|e] w']; cbn [fst snd] in *.
  - rewrite (Hk b w'). exact Hm.
  - exact Hm.
Qed.

Lemma adds_after_print (made : list str) (line : str) (k : unit -> M A) :
  connects_exactly made (k tt) -> connects_exactly made (bind (print line) k).
Proof.
  intros Hk w. rewrite run_print.
  exact (Hk (World (history w) (stdout w ++ [line]))).
Qed.

Lemma adds_try_except (made : list str) (body : M A)
    (handlers : list ((exn -> bool) * (exn -> M A))) :
  connects_exactly made body ->
  (forall h e, In h handlers -> connects_exactly [] (snd h e)) ->
  connects_exactly made (try_except body handlers).
Proof.
  intros Hbody Hh w. unfold try_except, handle. specialize (Hbody w).
  destruct (body w) as [[a|e] w']; cbn [fst snd] in *; [exact Hbody|].
  destruct (find (fun h => fst h e) handlers) as [h|] eqn:Hfind; [|exact Hbody].
  apply find_some in Hfind as [Hin _].
  rewrite (Hh h e Hin w'). exact Hbody.
Qed.

End ConnectsExactly.

Lemma keeps_print (line : str) : connects_exactly [] (print line).
Proof. intros w. reflexivity. Qed.

Lemma keeps_perform (env : environment) (c : call) :
  match c with connect _ _ => False | _ => True end ->
  connects_exactly [] (perform env c).
Proof. intros Hc w. destruct c; try contradiction; reflexivity. Qed.

Lemma adds_connect (env : environment) (connection_string : str) (timeout : option Z) :
  connects_exactly [connection_string] (perform env (connect connection_string timeout)).
Proof. intros w. reflexivity. Qed.

Lemma keeps_fetchone_0 (env : environment) : connects_exactly [] (fetchone_0 env).
Proof.
  unfold fetchone_0. apply keeps_bind; [apply keeps_perform; exact I|].
  intros [r|]; [|apply keeps_raise].
  unfold index. destruct (r !! 0); [apply keeps_ret|apply keeps_raise].
Qed.

Lemma keeps_for_each {A} (xs : list A) (body : A -> M unit) :
  (forall x, connects_exactly [] (body x)) -> connects_exactly [] (for_each xs body).
Proof.
  intros H. induction xs as [|x xs IH]; cbn [for_each].
  - apply keeps_ret.
  - apply keeps_bind; [apply H|intros _; exact IH].
Qed.

Ltac keeps :=
  repeat lazymatch goal with
  | |- connects_exactly [] (bind _ _) => apply keeps_bind; [|intros ?]
  | |- connects_exactly [] (ret _) => apply keeps_ret
  | |- connects_exactly [] (raise _) => apply keeps_raise
  | |- connects_exactly [] (lift _) => apply keeps_lift
  | |- connects_exactly [] (print _) => apply keeps_print
  | |- connects_exactly [] (fetchone_0 _) => apply keeps_fetchone_0
  | |- connects_exactly [] (perform _ _) => apply keeps_perform; exact I
  end.

(** Whatever happens, one call of [test_connection] makes exactly one
    connection, the one it was asked for. *)
Lemma test_connection_connects (env : environment) (connection_string driver_name : str) :
  connects_exactly [connection_string]
    (test_orca_odbc.test_connection env connection_string driver_name).
Proof.
  unfold test_orca_odbc.test_connection.
  apply adds_try_except.
  - apply adds_after_print. apply adds_after_print.
    apply adds_bind; [apply adds_connect|intros _]. keeps.
  - intros h e [<-|[<-|[]]]; cbn [snd]; keeps.
Qed.

Lemma list_available_drivers_connects (env : environment) :
  connects_exactly [] (test_orca_odbc.list_available_drivers env).
Proof.
  unfold test_orca_odbc.list_available_drivers. keeps.
  apply keeps_for_each. intros x. apply keeps_print.
Qed.

(** A connection that the driver refuses makes [test_connection] return
    [None] after this single call. *)
Lemma test_connection_refused (env : environment) (connection_string driver_name : str)
    (e : exn) (w : world) :
  env (length (history w)) (connect connection_string (Some 10%Z)) = Raise e ->
  is_Exception e = true ->
  exists line,
    test_orca_odbc.test_connection env connection_string driver_name w
    = (Ret None,
       World (connect connection_string (Some 10%Z) :: history w)
         (stdout w
          ++ [ nl ++ u "=== Testing " ++ driver_name ++ u " Driver ===";
               u "Connection string: " ++ connection_string; line ])).
Proof.
  intros Hc He. unfold test_orca_odbc.test_connection.
  rewrite !try_body_print. cbn [history stdout].
  rewrite try_body_perform. cbn [history stdout]. rewrite Hc.
  unfold handle.
  destruct e; try discriminate He; cbn [find fst snd is_pyodbc_Error is_Exception];
    rewrite run_print; unfold ret; cbn [history stdout];
    rewrite <- !app_assoc; eexists; reflexivity.
Qed.

(** A connection that goes through makes it return the values fetched. *)
Lemma test_connection_success (env : environment) (connection_string driver_name : str)
    (version database user encoding : cell) (w : world) :
  answers env (length (history w))
    (successful_connection connection_string version database user encoding) ->
  exists w',
    test_orca_odbc.test_connection env connection_string driver_name w
    = (Ret (Some (test_orca_odbc.ConnectionInfo driver_name version database user encoding)),
       w')
    /\ take 2 (history w') = [connection_close; cursor_close].
Proof.
  intros (H1 & H2 & H3 & H4 & H5 & H6 & H7 & H8 & H9 & H10 & H11 & H12 & _).
  unfold test_orca_odbc.test_connection.
  rewrite !try_body_print. cbn [history stdout].
  rewrite try_body_perform. cbn [history stdout length]. rewrite H1.
  rewrite try_body_perform. cbn [history stdout length]. rewrite H2.
  rewrite try_body_perform. cbn [history stdout length]. rewrite H3.
  rewrite try_body_fetchone_0. cbv zeta. cbn [history stdout length]. rewrite H4.
  rewrite try_body_perform. cbn [history stdout length]. rewrite H5.
  rewrite try_body_fetchone_0. cbv zeta. cbn [history stdout length]. rewrite H6.
  rewrite try_body_perform. cbn [history stdout length]. rewrite H7.
  rewrite try_body_fetchone_0. cbv zeta. cbn [history stdout length]. rewrite H8.
  rewrite try_body_perform. cbn [history stdout length]. rewrite H9.
  rewrite try_body_fetchone_0. cbv zeta. cbn [history stdout length]. rewrite H10.
  rewrite !try_body_print. cbn [history stdout].
  rewrite try_body_perform. cbn [history stdout length]. rewrite H11.
  rewrite try_body_perform. cbn [history stdout length]. rewrite H12.
  rewrite try_body_ret. eexists. split; reflexivity.
Qed.

Section ConnectsPrefix.

Context {A : Type}.

Lemma prefix_of_keeps (candidates : list str) (m : M A) :
  connects_exactly [] m -> connects_prefix candidates m.
Proof. intros H w. exists 0. split; [lia|]. rewrite take_0. apply H. Qed.

Lemma prefix_after_connection {B} (made : str) (candidates : list str) (m : M B)
    (k : B -> M A) :
  connects_exactly [made] m -> (forall b, connects_prefix candidates (k b)) ->
  connects_prefix (made :: candidates) (bind m k).
Proof.
  intros Hm Hk w. unfold bind. specialize (Hm w).
  destruct (m w) as [[b|e] w']; cbn [fst snd] in *.
  - destruct (Hk b w') as (n & Hn & Hconn).
    exists (S n). cbn [length take rev]. split; [lia|].
    rewrite Hconn, Hm. cbn [rev app]. rewrite <- app_assoc. reflexivity.
  - exists 1. cbn [length take rev]. split; [lia|].
    rewrite take_0. exact Hm.
Qed.

Lemma prefix_after_keeps {B} (candidates : list str) (m : M B) (k : B -> M A) :
  connects_exactly [] m -> (forall b, connects_prefix candidates (k b)) ->
  connects_prefix candidates (bind m k).
Proof.
  intros Hm Hk w. unfold bind. specialize (Hm w).
  destruct (m w) as [[b|e] w']; cbn [fst snd] in *.
  - destruct (Hk b w') as (n & Hn & Hconn).
    exists n. split; [exact Hn|]. rewrite Hconn, Hm. reflexivity.
  - exists 0. split; [lia|]. rewrite take_0. exact Hm.
Qed.

Lemma prefix_then_keeps {B} (candidates : list str) (m : M B) (k : B -> M A) :
  connects_prefix candidates m -> (forall b, connects_exactly [] (k b)) ->
  connects_prefix candidates (bind m k).
Proof.
  intros Hm Hk w. unfold bind. destruct (Hm w) as (n & Hn & Hconn).
  destruct (m w) as [[b|e] w']; cbn [fst snd] in *.
  - exists n. split; [exact Hn|]. rewrite (Hk b w'). exact Hconn.
  - exists n. split; [exact Hn|exact Hconn].
Qed.

End ConnectsPrefix.

Lemma try_alternatives_prefix (env : environment) (alts : list (str * str * str)) :
  connects_prefix (map alternative_connection_string alts)
    (test_orca_odbc.try_alternatives env alts).
Proof.
  induction alts as [|[[database uid] pwd] rest IH];
    cbn [test_orca_odbc.try_alternatives map alternative_connection_string].
  - apply prefix_of_keeps, keeps_ret.
  - apply prefix_after_keeps; [apply keeps_print|intros _].
    apply prefix_after_connection; [apply test_connection_connects|intros result].
    destruct result; [apply prefix_of_keeps, keeps_ret|exact IH].
Qed.

Lemma test_orca_database_prefix (env : environment) :
  connects_prefix fallback_connection_strings (test_orca_odbc.test_orca_database env).
Proof.
  unfold test_orca_odbc.test_orca_database, fallback_connection_strings.
  apply prefix_after_keeps; [apply keeps_print|intros _].
  apply prefix_after_keeps; [apply keeps_print|intros _].
  apply prefix_after_keeps; [apply list_available_drivers_connects|intros _].
  apply prefix_after_connection; [apply test_connection_connects|intros result_ansi].
  apply prefix_then_keeps; [|intros _; keeps].
  destruct result_ansi as [info|]; [apply prefix_of_keeps, keeps_ret|].
  apply prefix_after_connection; [apply test_connection_connects|intros result_unicode].
  destruct result_unicode as [info|]; [apply prefix_of_keeps, keeps_ret|].
  apply prefix_after_keeps; [apply keeps_print|intros _].
  apply try_alternatives_prefix.
Qed.

Lemma run_ret {A B} (a : A) (k : A -> M B) (w : world) : bind (ret a) k w = k a w.
Proof. reflexivity. Qed.

Lemma bind_assoc {A B C} (m : M A) (f : A -> M B) (k : B -> M C) (w : world) :
  bind (bind m f) k w = bind m (fun a => bind (f a) k) w.
Proof. unfold bind. destruct (m w) as [[a|e] w']; reflexivity. Qed.

Lemma run_list_available_drivers (env : environment) (ds : list str) (w : world) :
  env (length (history w)) drivers = Ret ds ->
  exists out,
    test_orca_odbc.list_available_drivers env w = (Ret ds, World (drivers :: history w) out).
Proof.
  intros Hd. unfold test_orca_odbc.list_available_drivers.
  rewrite run_print. cbn [history stdout].
  rewrite (run_perform env drivers ds) by exact Hd. cbn [history stdout].
  erewrite run_bind by apply for_each_print.
  cbn [history stdout]. unfold ret. eexists. reflexivity.
Qed.

(** When every connection is refused, the loop over the alternative
    parameters tries them all. *)
Lemma try_alternatives_refused (env : environment) :
  (forall n cs, exists e,
      env n (connect cs (Some 10%Z)) = Raise e /\ is_Exception e = true) ->
  forall alts w, exists out,
    test_orca_odbc.try_alternatives env alts w
    = (Ret tt,
       World (rev (map (fun a => connect (alternative_connection_string a) (Some 10%Z)) alts)
              ++ history w) out).
Proof.
  intros Hall alts.
  induction alts as [|[[database uid] pwd] rest IH]; intros w;
    cbn [test_orca_odbc.try_alternatives map rev alternative_connection_string].
  - exists (stdout w). destruct w. reflexivity.
  - rewrite run_print.
    match goal with |- context [bind _ _ ?w0] => set (w1 := w0) end.
    destruct (Hall (length (history w1))
                (test_orca_odbc.driver_connection_string (u "PostgreSQL ANSI") database uid pwd))
      as (e & Hc & He).
    destruct (test_connection_refused env _
                (u "PostgreSQL ANSI (" ++ database ++ u ")") e w1 Hc He) as [line Ht].
    rewrite (run_bind _ _ _ _ _ Ht). cbv beta iota.
    match goal with |- context [test_orca_odbc.try_alternatives _ _ ?w0] =>
      destruct (IH w0) as [out Hout] end.
    exists out. rewrite Hout. subst w1. cbn [history].
    rewrite <- app_assoc. reflexivity.
Qed.

Lemma connects_of_connections (f : str * str * str -> str) (alts : list (str * str * str)) :
  connects (map (fun a => connect (f a) (Some 10%Z)) alts) = map f alts.
Proof. induction alts as [|a alts IH]; cbn [map connects]; [|rewrite IH]; reflexivity. Qed.

Example fallback_connection_strings_listed :
  fallback_connection_strings
  = [ u "DRIVER={PostgreSQL ANSI};SERVER=localhost;PORT=5432;DATABASE=orca;UID=orca;PWD=orca;";
      u "DRIVER={PostgreSQL Unicode};SERVER=localhost;PORT=5432;DATABASE=orca;UID=orca;PWD=orca;";
      u "DRIVER={PostgreSQL ANSI};SERVER=localhost;PORT=5432;DATABASE=receipt;UID=receipt;PWD=receipt;";
      u "DRIVER={PostgreSQL ANSI};SERVER=localhost;PORT=5432;DATABASE=weborca;UID=weborca;PWD=weborca;";
      u "DRIVER={PostgreSQL ANSI};SERVER=localhost;PORT=5432;DATABASE=postgres;UID=postgres;PWD=;" ].
Proof. vm_compute. reflexivity. Qed.

(** X14. Whatever the driver answers, and however the run ends, the
    connections that [test_orca_database] makes are the first [k] of its
    five candidates, in the order of the source: ANSI and Unicode with the
    [orca] parameters, then the ANSI driver with [receipt], [weborca] and
    [postgres].  The five candidates differ from each other, so that it
    never connects twice with the same string, and it never skips a
    candidate. *)
Theorem fallback_connections_in_order (env : environment) (w : world) :
  NoDup fallback_connection_strings
  /\ exists k,
       k <= 5
       /\ connects (history (snd (test_orca_odbc.test_orca_database env w)))
          = rev (take k fallback_connection_strings) ++ connects (history w).
Proof.
  split; [apply (bool_decide_eq_true_1 _); vm_compute; reflexivity|].
  destruct (test_orca_database_prefix env w) as (k & Hk & Hconn).
  exists k. split; [|exact Hconn].
  etransitivity; [exact Hk|]. vm_compute. reflexivity.
Qed.

(** X15. When the drivers can be listed and the first candidate connects
    and answers its four queries, [test_orca_database] returns after this
    single connection, and the hints for the case that all connections
    failed are still the last lines it prints. *)
Theorem first_success_stops_the_fallback (env : environment) (w : world)
    (ds : list str) (version database user encoding : cell) :
  let run := test_orca_odbc.test_orca_database env w in
  let first :=
    test_orca_odbc.driver_connection_string (u "PostgreSQL ANSI") (u "orca") (u "orca")
      (u "orca") in
  env (length (history w)) drivers = Ret ds ->
  answers env (S (length (history w)))
    (successful_connection first version database user encoding) ->
  fst run = Ret tt
  /\ connects (history (snd run)) = first :: connects (history w)
  /\ exists out, stdout (snd run) = out ++ summary_lines.
Proof.
  intros run first Hd Hs. subst run. unfold test_orca_odbc.test_orca_database.
  rewrite !run_print.
  match goal with |- context [bind (test_orca_odbc.list_available_drivers _) _ ?w0] =>
    set (w1 := w0) end.
  destruct (run_list_available_drivers env ds w1 Hd) as [out1 Hl].
  rewrite !(run_bind _ _ _ _ _ Hl). cbv beta iota.
  match goal with |- context [bind (test_orca_odbc.test_connection _ _ _) _ ?w0] =>
    set (w2 := w0) end.
  destruct (test_connection_success env first (u "PostgreSQL ANSI")
              version database user encoding w2 Hs) as (w3 & Ht & _).
  pose proof (test_connection_connects env first (u "PostgreSQL ANSI") w2) as Hconn.
  fold first. rewrite Ht in Hconn. rewrite !(run_bind _ _ _ _ _ Ht). cbv beta iota.
  rewrite !run_ret, !run_print, !run_print_last.
  cbn [fst snd history stdout] in *.
  split; [reflexivity|]. split; [exact Hconn|].
  exists (stdout w3). unfold summary_lines. rewrite <- !app_assoc. reflexivity.
Qed.

Lemma first_success_stops_the_fallback_witness :
  let run := test_orca_odbc.test_orca_database Scenario.reachable start in
  fst run = Ret tt
  /\ connects (history (snd run))
     = [ test_orca_odbc.driver_connection_string (u "PostgreSQL ANSI") (u "orca") (u "orca")
           (u "orca") ]
  /\ exists out, stdout (snd run) = out ++ summary_lines.
Proof.
  apply (first_success_stops_the_fallback Scenario.reachable start
           [u "PostgreSQL ANSI"; u "PostgreSQL Unicode"]
           (Str (u "PostgreSQL 14.9")) (Str (u "PostgreSQL 14.9"))
           (Str (u "PostgreSQL 14.9")) (Str (u "PostgreSQL 14.9"))).
  - reflexivity.
  - repeat split.
Defined.

(** X16. When the drivers can be listed and every connection is refused
    with an exception, [test_orca_database] tries all five candidates in
    order, returns normally and ends with the hints. *)
Theorem all_refused_tries_every_candidate (env : environment) (w : world) (ds : list str) :
  let run := test_orca_odbc.test_orca_database env w in
  env (length (history w)) drivers = Ret ds ->
  (forall n cs, exists e,
      env n (connect cs (Some 10%Z)) = Raise e /\ is_Exception e = true) ->
  fst run = Ret tt
  /\ connects (history (snd run)) = rev fallback_connection_strings ++ connects (history w)
  /\ exists out, stdout (snd run) = out ++ summary_lines.
Proof.
  intros run Hd Hall. subst run. unfold test_orca_odbc.test_orca_database.
  rewrite !run_print.
  match goal with |- context [bind (test_orca_odbc.list_available_drivers _) _ ?w0] =>
    set (w1 := w0) end.
  destruct (run_list_available_drivers env ds w1 Hd) as [out1 Hl].
  rewrite !(run_bind _ _ _ _ _ Hl). cbv beta iota.
  match goal with |- context [bind (test_orca_odbc.test_connection _ ?cs _) _ ?w0] =>
    set (first := cs); set (w2 := w0) end.
  destruct (Hall (length (history w2)) first) as (e1 & Hc1 & He1).
  destruct (test_connection_refused env first (u "PostgreSQL ANSI") e1 w2 Hc1 He1)
    as [line1 Ht1].
  rewrite !(run_bind _ _ _ _ _ Ht1). cbv beta iota.
  rewrite !bind_assoc.
  match goal with |- context [bind (test_orca_odbc.test_connection _ ?cs _) _ ?w0] =>
    set (second := cs); set (w3 := w0) end.
  destruct (Hall (length (history w3)) second) as (e2 & Hc2 & He2).
  destruct (test_connection_refused env second (u "PostgreSQL Unicode") e2 w3 Hc2 He2)
    as [line2 Ht2].
  rewrite !(run_bind _ _ _ _ _ Ht2). cbv beta iota.
  rewrite !bind_assoc, !run_print.
  match goal with |- context [bind (test_orca_odbc.try_alternatives _ _) _ ?w0] =>
    set (w4 := w0) end.
  destruct (try_alternatives_refused env Hall test_orca_odbc.alternative_params w4)
    as [out4 Ha].
  rewrite !(run_bind _ _ _ _ _ Ha). cbv beta iota.
  rewrite !run_print, !run_print_last.
  subst w4 w3 w2 w1. cbn [fst snd history stdout].
  split; [reflexivity|]. split.
  - rewrite connects_app, connects_rev, connects_of_connections.
    cbn [connects]. unfold fallback_connection_strings. fold first second.
    cbn [rev]. rewrite <- !app_assoc. reflexivity.
  - exists out4. unfold summary_lines. rewrite <- !app_assoc. reflexivity.
Qed.

Lemma all_refused_tries_every_candidate_witness :
  let run := test_orca_odbc.test_orca_database Cases.no_server start in
  fst run = Ret tt
  /\ connects (history (snd run)) = rev fallback_connection_strings ++ []
  /\ exists out, stdout (snd run) = out ++ summary_lines.
Proof.
  apply (all_refused_tries_every_candidate Cases.no_server start
           [u "PostgreSQL ANSI"; u "PostgreSQL Unicode"]).
  - reflexivity.
  - intros n cs. eexists. split; reflexivity.
Defined.

(** ** The troubleshooting tool: diagnoses, rules and credential sets *)

Lemma fifth_character_differs (a b : str) : nth 4 a 0%N <> nth 4 b 0%N -> a <> b.
Proof. intros H ->. apply H. reflexivity. Qed.

(** X17. The diagnosis of a failed attempt never touches the driver,
    always returns and prints at most two lines.  A message about a
    missing pg_hba.conf entry is explained exactly when the text
    100.89.18.15, the address the tool takes for its own, occurs in it:
    then the first line printed says that this address is not allowed,
    and otherwise nothing is printed.  The test is on the text, so that a
    message about the address 100.89.18.150 is explained in the same way.
    And a message about a missing pg_hba.conf entry is never explained as
    a wrong password or a missing database, whatever else it says. *)
Theorem analyze_diagnoses (database error_msg : str) (w : world) :
  exists lines,
    connection_troubleshoot.analyze database error_msg w
    = (Ret tt, World (history w) (stdout w ++ lines))
    /\ length lines <= 2
    /\ (contains (u "pg_hba.conf entry") error_msg = true ->
        (contains (u "100.89.18.15") error_msg = false -> lines = [])
        /\ (contains (u "100.89.18.15") error_msg = true ->
            lines !! 0
            = Some (u "  → Authentication issue: Your IP (100.89.18.15) is not allowed"))
        /\ ~ In (u "  → Wrong username/password") lines
        /\ ~ In (u "  → Database '" ++ database ++ u "' does not exist") lines).
Proof.
  unfold connection_troubleshoot.analyze.
  destruct (contains (u "pg_hba.conf entry") error_msg).
  - destruct (contains (u "100.89.18.15") error_msg).
    + rewrite run_print. cbn [history stdout].
      destruct (contains (u "SSL encryption") error_msg);
        [|destruct (contains (u "no encryption") error_msg)];
        try rewrite run_print_last; unfold ret; cbn [history stdout];
        try rewrite <- app_assoc; cbn [app];
        eexists; (split; [reflexivity|]); (split; [cbn [length]; lia|]);
        intros _; (split; [discriminate|]); (split; [intros _; reflexivity|]);
        (split; intros Hin; cbn [In] in Hin;
         repeat (destruct Hin as [Hin|Hin];
                 [revert Hin; apply fifth_character_differs; vm_compute; discriminate|]);
         exact Hin).
    + exists []. rewrite app_nil_r. unfold ret. destruct w.
      split; [reflexivity|]. split; [cbn [length]; lia|].
      intros _. split; [reflexivity|]. split; [discriminate|]. split; intros [].
  - destruct (contains (u "authentication failed") error_msg);
      [|destruct (contains (u "database") error_msg && contains (u "does not exist") error_msg)];
      try rewrite run_print_last; unfold ret; cbn [history stdout];
      first [ eexists; split; [reflexivity|]; split; [cbn [length]; lia|]; discriminate
            | exists []; rewrite app_nil_r; destruct w;
              split; [reflexivity|]; split; [cbn [length]; lia|]; discriminate ].
Qed.

Example analyze_matches_longer_address :
  connection_troubleshoot.analyze (u "orca")
    (u "FATAL: no pg_hba.conf entry for host 100.89.18.150, no encryption") start
  = (Ret tt,
     World []
       [ u "  → Authentication issue: Your IP (100.89.18.15) is not allowed";
         u "  → Server allows non-SSL but your IP is not in pg_hba.conf" ]).
Proof. vm_compute. reflexivity. Qed.

Lemma length_flat_map_constant {A B} (n : nat) (xs : list A) (f : A -> list B) :
  (forall x, length (f x) = n) -> length (flat_map f xs) = length xs * n.
Proof.
  intros Hf. induction xs as [|x xs IH]; cbn [flat_map length]; [reflexivity|].
  rewrite length_app, Hf, IH. lia.
Qed.

(** X18. The generated pg_hba.conf text has three heading lines, two
    rules for every pair of a database with a user and five closing
    lines, so that with no database or no user it is these eight lines
    alone.  As long as no name is longer than twelve characters every rule
    has the same width, so that the columns line up. *)
Theorem pg_hba_rules_align (databases users : list str) (client_ip : str) :
  Forall (fun name => length name <= 12) (databases ++ users) ->
  let entries := connection_troubleshoot.pg_hba_entries databases users client_ip in
  let pairs := length databases * length users in
  length entries = 8 + 2 * pairs
  /\ Forall (fun line => length line = 51 + length client_ip)
       (take (2 * pairs) (drop 3 entries)).
Proof.
  intros Hnames entries pairs. subst entries pairs.
  apply Forall_app in Hnames as [Hdb Huser].
  unfold connection_troubleshoot.pg_hba_entries. cbn [app skipn].
  match goal with |- context [flat_map ?f databases] => set (rules_of := f) end.
  assert (Hlen : length (flat_map rules_of databases) = 2 * (length databases * length users)).
  { rewrite (length_flat_map_constant (2 * length users)); [lia|].
    intros db. subst rules_of. cbv beta.
    rewrite (length_flat_map_constant 2); [lia|]. intros user. reflexivity. }
  split.
  - cbn [length]. rewrite length_app, Hlen. cbn [length]. lia.
  - rewrite drop_0, take_app_length' by (symmetry; exact Hlen).
    apply Forall_flat_map. rewrite Forall_forall in Hdb, Huser. apply Forall_forall.
    intros db Hin_db. apply Forall_flat_map, Forall_forall. intros user Hin_user.
    specialize (Hdb db Hin_db). specialize (Huser user Hin_user).
    assert (H1 : length (u "hostssl    ") = 11) by (vm_compute; reflexivity).
    assert (H2 : length (u "host       ") = 11) by (vm_compute; reflexivity).
    assert (H3 : length (u " ") = 1) by (vm_compute; reflexivity).
    assert (H4 : length (u "/32        md5") = 14) by (vm_compute; reflexivity).
    apply Forall_cons_2; [|apply Forall_cons_2; [|apply Forall_nil_2]];
      rewrite !length_app, !length_pad, ?H1, ?H2, ?H3, ?H4; lia.
Qed.

Lemma pg_hba_rules_align_witness :
  let databases := map (fun c => fst (fst c)) connection_troubleshoot.test_configs in
  let users := map (fun c => snd (fst c)) connection_troubleshoot.test_configs in
  let entries := connection_troubleshoot.pg_hba_entries databases users (u "100.89.18.15") in
  length entries = 40
  /\ Forall (fun line => length line = 63) (take 32 (drop 3 entries)).
Proof.
  apply (pg_hba_rules_align
           (map (fun c => fst (fst c)) connection_troubleshoot.test_configs)
           (map (fun c => snd (fst c)) connection_troubleshoot.test_configs)
           (u "100.89.18.15")).
  apply (bool_decide_eq_true_1 _). vm_compute. reflexivity.
Defined.

(** X19. The loop over the credential sets does not stop at a success:
    when it returns, the sets it returns are a sublist of the sets given,
    in their order, the number of connections made is at least the number
    of sets and at most four times that number, and when it returns no
    set the connections made are all four modes of every set, set after
    set. *)
Theorem test_all_tests_every_credential_set (env : environment) (server port : str)
    (configs successful : list (str * str * str)) (w w' : world) :
  connection_troubleshoot.test_all env server port configs w = (Ret successful, w') ->
  sublist successful configs
  /\ exists made,
       connects (history w') = rev made ++ connects (history w)
       /\ length configs <= length made <= 4 * length configs
       /\ (successful = [] ->
           made = flat_map (credential_connection_strings server port) configs).
Proof.
  revert successful w w'.
  induction configs as [|[[database user] password] rest IH]; intros successful w w' Hrun;
    cbn [connection_troubleshoot.test_all] in Hrun.
  - unfold ret in Hrun. injection Hrun as <- <-.
    split; [apply sublist_nil|]. exists []. cbn [rev app length flat_map].
    split; [reflexivity|]. split; [lia|reflexivity].
  - destruct (connection_troubleshoot.test_connection_with_ssl_modes env server port
                database user password w) as [[result|e] w1] eqn:Htest;
      rewrite (run_bind _ _ _ _ _ Htest) in Hrun; [|discriminate Hrun].
    destruct (connection_troubleshoot.test_all env server port rest w1)
      as [[later|e] w2] eqn:Hrest;
      rewrite (run_bind _ _ _ _ _ Hrest) in Hrun; [|discriminate Hrun].
    unfold ret in Hrun. injection Hrun as Hsucc Hw. subst w2.
    destruct (IH later w1 w' Hrest) as (Hsub & made & Hmade & Hlen & Hnone).
    unfold connection_troubleshoot.test_connection_with_ssl_modes in Htest.
    rewrite !run_print in Htest.
    match type of Htest with connection_troubleshoot.try_ssl_modes _ _ _ _ _ _ _ ?w0 = _ =>
      pose proof (try_ssl_modes_cases env server port database user password
                    connection_troubleshoot.ssl_modes w0) as (k & Hk & Hconn & Hres)
    end.
    cbv zeta in Hconn, Hres. rewrite Htest in Hconn, Hres.
    cbn [fst snd history] in Hconn, Hres.
    assert (Hmodes : length connection_troubleshoot.ssl_modes = 4) by reflexivity.
    rewrite Hmodes in Hk.
    set (cs := connection_troubleshoot.connection_string server port database user password)
      in *.
    set (names := map fst connection_troubleshoot.ssl_modes) in *.
    assert (Hnames : length names = 4) by (subst names; rewrite length_map; exact Hmodes).
    assert (Htried : 1 <= k /\ (connection_troubleshoot.success result = false -> k = 4)).
    { destruct result as [ssl_mode version|]; cbn [connection_troubleshoot.success].
      - destruct Hres as [Hk1 _]. split; [exact Hk1|discriminate].
      - split; [lia|intros _; lia]. }
    destruct Htried as [Hk1 Hfail].
    split.
    + subst successful. destruct (connection_troubleshoot.success result).
      * apply sublist_skip. exact Hsub.
      * apply sublist_cons. exact Hsub.
    + exists (map cs (take k names) ++ made).
      split; [|split].
      * rewrite Hmade, Hconn, rev_app_distr, <- app_assoc. reflexivity.
      * rewrite length_app, length_map, length_take, Hnames. cbn [length]. lia.
      * intros Hnil. subst successful.
        destruct (connection_troubleshoot.success result); [discriminate Hnil|].
        rewrite (Hfail eq_refl), (Hnone Hnil).
        cbn [flat_map credential_connection_strings]. fold cs names.
        rewrite <- Hnames, firstn_all. reflexivity.
Qed.

Lemma test_all_tests_every_credential_set_witness :
  let run :=
    connection_troubleshoot.test_all Scenario.reachable (u "100.126.66.97") (u "5432")
      connection_troubleshoot.test_configs start in
  exists successful,
    fst run = Ret successful
    /\ sublist successful connection_troubleshoot.test_configs
    /\ exists made,
         connects (history (snd run)) = rev made ++ []
         /\ 4 <= length made <= 16.
Proof.
  exists connection_troubleshoot.test_configs.
  split; [vm_compute; reflexivity|].
  destruct (test_all_tests_every_credential_set Scenario.reachable (u "100.126.66.97")
              (u "5432") connection_troubleshoot.test_configs
              connection_troubleshoot.test_configs start
              (snd (connection_troubleshoot.test_all Scenario.reachable (u "100.126.66.97")
                      (u "5432") connection_troubleshoot.test_configs start)))
    as (Hsub & made & Hmade & Hlen & _).
  - vm_compute. reflexivity.
  - split; [exact Hsub|]. exists made. split; [exact Hmade|exact Hlen].
Defined.

(** ** The second report of check_today_visits.py *)

Lemma date_str_text (ukeymd : option str) :
  exists d, check_today_visits_rows.date_str (text ukeymd) = Ret (Str d).
Proof. destruct ukeymd as [[|c s]|]; eexists; reflexivity. Qed.

Lemma recent_row_text (ukeymd uketime name sryka full_name kananame : option str)
    (ptid : Z) (w : world) :
  exists d t,
    check_today_visits_rows.date_str (text ukeymd) = Ret (Str d)
    /\ check_today_visits.time_str (text uketime) = Ret (Str t)
    /\ check_today_visits_rows.recent_row
         [ text ukeymd; text uketime; Int ptid; text name; text sryka; text full_name;
           text kananame ] w
       = (Ret tt,
          World (history w)
            (stdout w ++
             [ u "Date: " ++ d ++ u ", Time: " ++ t ++ u ", Patient: "
               ++ str_of_cell (test_orca_odbc.or_cell (text name) (text full_name)) ])).
Proof.
  destruct (date_str_text ukeymd) as (d & Hd).
  destruct (time_str_text uketime) as (t & Ht & _).
  exists d, t. split; [exact Hd|]. split; [exact Ht|].
  unfold check_today_visits_rows.recent_row.
  change (check_today_visits.time_str (text uketime))
    with (test_orca_odbc.time_str (text uketime)).
  rewrite Hd, Ht, !run_lift_ret, run_print_last. reflexivity.
Qed.

Lemma date_str_shown (ukeymd : option str) :
  check_today_visits_rows.date_str (text ukeymd)
  = Ret (Str match ukeymd with
             | Some (c :: s) =>
               take 4 (c :: s) ++ u "/" ++ take 2 (drop 4 (c :: s)) ++ u "/"
               ++ take 2 (drop 6 (c :: s))
             | _ => u "未設定"
             end).
Proof. destruct ukeymd as [[|c s]|]; reflexivity. Qed.

(** X20. The second report of check_today_visits.py prints the line "No
    recent visits found" when there is no visit of the last seven days,
    and otherwise one line per visit, in the order of the rows: the date
    with a slash after its fourth and after its sixth character, the
    formatted time, and the name of the visit (that of the patient record
    when the visit has none). *)
Theorem recent_report_lines (w : world) :
  check_today_visits_rows.recent_report [] w
  = (Ret tt, World (history w) (stdout w ++ [u "No recent visits found"]))
  /\ (forall visits,
        Forall (fun visit =>
                  exists ukeymd ptid uketime name sryka full_name kananame,
                    visit = [ text ukeymd; text uketime; Int ptid; text name; text sryka;
                              text full_name; text kananame ]) visits ->
        visits <> [] ->
        exists lines,
          check_today_visits_rows.recent_report visits w
          = (Ret tt, World (history w) (stdout w ++ lines))
          /\ length lines = length visits
          /\ Forall2
               (fun visit line =>
                  exists ukeymd ptid uketime name sryka full_name kananame t,
                    visit = [ text ukeymd; text uketime; Int ptid; text name; text sryka;
                              text full_name; text kananame ]
                    /\ check_today_visits.time_str (text uketime) = Ret (Str t)
                    /\ line
                       = u "Date: "
                         ++ match ukeymd with
                            | Some (c :: s) =>
                              take 4 (c :: s) ++ u "/" ++ take 2 (drop 4 (c :: s)) ++ u "/"
                              ++ take 2 (drop 6 (c :: s))
                            | _ => u "未設定"
                            end
                         ++ u ", Time: " ++ t ++ u ", Patient: "
                         ++ match name with
                            | Some (c :: s) => c :: s
                            | _ => match full_name with Some f => f | None => u "None" end
                            end)
               visits lines).
Proof.
  split; [reflexivity|].
  intros visits Hrows Hne.
  unfold check_today_visits_rows.recent_report.
  destruct visits as [|visit visits]; [congruence|].
  match goal with |- context [for_each ?xs _ _] => set (rows := xs) in * end.
  clear Hne.
  destruct (for_each_lines
              (fun visit line =>
                 exists ukeymd ptid uketime name sryka full_name kananame t,
                   visit = [ text ukeymd; text uketime; Int ptid; text name; text sryka;
                             text full_name; text kananame ]
                   /\ check_today_visits.time_str (text uketime) = Ret (Str t)
                   /\ line
                      = u "Date: "
                        ++ match ukeymd with
                           | Some (c :: s) =>
                             take 4 (c :: s) ++ u "/" ++ take 2 (drop 4 (c :: s)) ++ u "/"
                             ++ take 2 (drop 6 (c :: s))
                           | _ => u "未設定"
                           end
                        ++ u ", Time: " ++ t ++ u ", Patient: "
                        ++ match name with
                           | Some (c :: s) => c :: s
                           | _ => match full_name with Some f => f | None => u "None" end
                           end)
              check_today_visits_rows.recent_row rows) with (w := w)
    as (lines & Hrun & Hlines).
  - eapply Forall_impl; [exact Hrows|]. cbv beta.
    intros row (ukeymd & ptid & uketime & name & sryka & full_name & kananame & ->) w0.
    destruct (recent_row_text ukeymd uketime name sryka full_name kananame ptid w0)
      as (d & t & Hd & Ht & Hrow).
    rewrite date_str_shown in Hd. injection Hd as <-.
    rewrite str_of_name in Hrow.
    eexists. split; [exact Hrow|].
    exists ukeymd, ptid, uketime, name, sryka, full_name, kananame, t.
    split; [reflexivity|]. split; [exact Ht|reflexivity].
  - exists lines. split; [exact Hrun|]. split; [|exact Hlines].
    symmetry. exact (Forall2_length _ _ _ Hlines).
Qed.

Lemma recent_report_lines_witness :
  exists lines,
    check_today_visits_rows.recent_report
      [ [ text (Some (u "20240115")); text (Some (u "093000")); Int 12;
          text (Some (u "Tanaka")); text None; text None; text None ] ] start
    = (Ret tt, World (history start) (stdout start ++ lines))
    /\ lines = [u "Date: 2024/01/15, Time: 09:30:00, Patient: Tanaka"].
Proof.
  destruct (proj2 (recent_report_lines start)
              [ [ text (Some (u "20240115")); text (Some (u "093000")); Int 12;
                  text (Some (u "Tanaka")); text None; text None; text None ] ])
    as (lines & Hrun & _ & _).
  - apply Forall_cons. split; [|apply Forall_nil; exact I].
    exists (Some (u "20240115")), 12%Z, (Some (u "093000")), (Some (u "Tanaka")),
      None, None, None. reflexivity.
  - discriminate.
  - exists lines. split; [exact Hrun|].
    vm_compute in Hrun. injection Hrun as <-. vm_compute. reflexivity.
Defined.

(** ** The connections of the data routines of test_orca_odbc.py *)

Lemma keeps_index (r : row) (i : nat) : connects_exactly [] (index r i).
Proof. unfold index. destruct (r !! i); [apply keeps_ret|apply keeps_raise]. Qed.

Lemma prefix_of_exactly {A} (made : list str) (m : M A) :
  connects_exactly made m -> connects_prefix made m.
Proof.
  intros H w. exists (length made). split; [lia|].
  rewrite firstn_all. apply H.
Qed.

Ltac keeps_all :=
  repeat lazymatch goal with
  | |- connects_exactly [] (bind _ _) => apply keeps_bind; [|intros ?]
  | |- connects_exactly [] (ret _) => apply keeps_ret
  | |- connects_exactly [] (raise _) => apply keeps_raise
  | |- connects_exactly [] (lift _) => apply keeps_lift
  | |- connects_exactly [] (print _) => apply keeps_print
  | |- connects_exactly [] (fetchone_0 _) => apply keeps_fetchone_0
  | |- connects_exactly [] (perform ?e ?c) => exact (keeps_perform e c I)
  | |- connects_exactly [] (index _ _) => apply keeps_index
  | |- connects_exactly [] (test_orca_odbc.fmt _ _ _) => unfold test_orca_odbc.fmt
  | |- connects_exactly [] (for_each _ _) => apply keeps_for_each; intros ?
  | |- connects_exactly [] (test_orca_odbc.list_patients_row _) =>
    unfold test_orca_odbc.list_patients_row
  | |- connects_exactly [] (test_orca_odbc.show_todays_visits_row _) =>
    unfold test_orca_odbc.show_todays_visits_row
  | |- connects_exactly [] (test_orca_odbc.search_patients_row _) =>
    unfold test_orca_odbc.search_patients_row
  | |- connects_exactly [] (test_orca_odbc.department_count_row _) =>
    unfold test_orca_odbc.department_count_row
  | |- connects_exactly [] (let _ := _ in _) => cbv zeta
  | |- connects_exactly [] (match ?x with _ => _ end) => destruct x
  end.

Lemma database_handlers_keep (h : (exn -> bool) * (exn -> M unit)) (e : exn) :
  In h test_orca_odbc.database_handlers -> connects_exactly [] (snd h e).
Proof.
  unfold test_orca_odbc.database_handlers.
  intros [<-|[<-|[]]]; cbn [snd]; apply keeps_print.
Qed.

Lemma list_patients_connects (env : environment) :
  connects_exactly [test_orca_odbc.connection_string] (test_orca_odbc.list_patients env).
Proof.
  unfold test_orca_odbc.list_patients.
  apply adds_after_print, adds_try_except; [|apply database_handlers_keep].
  apply adds_bind; [apply adds_connect|intros _]. keeps_all.
Qed.

Lemma show_todays_visits_connects (env : environment) :
  connects_exactly [test_orca_odbc.connection_string]
    (test_orca_odbc.show_todays_visits env).
Proof.
  unfold test_orca_odbc.show_todays_visits.
  apply adds_after_print, adds_try_except; [|apply database_handlers_keep].
  apply adds_bind; [apply adds_connect|intros _]. keeps_all.
Qed.

Lemma patient_summary_connects (env : environment) (argv0 : str) :
  connects_exactly [test_orca_odbc.connection_string]
    (test_orca_odbc.patient_summary env argv0).
Proof.
  unfold test_orca_odbc.patient_summary.
  apply adds_try_except.
  - apply adds_bind; [apply adds_connect|intros _]. keeps_all.
  - intros h e [<-|[]]. cbn [snd]. apply keeps_print.
Qed.

Lemma search_patients_connects (env : environment) :
  connects_prefix [test_orca_odbc.connection_string] (test_orca_odbc.search_patients env).
Proof.
  unfold test_orca_odbc.search_patients.
  apply prefix_after_keeps; [apply keeps_print|intros _].
  apply prefix_after_keeps; [apply keeps_perform; exact I|intros typed].
  cbv zeta. destruct (strip typed) as [|c search_term].
  - apply prefix_of_keeps, keeps_print.
  - apply prefix_of_exactly, adds_try_except; [|apply database_handlers_keep].
    apply adds_bind; [apply adds_connect|intros _]. keeps_all.
Qed.

(** X21. Each data routine opens the database once, with the one
    connection string written in the script, however the routine ends:
    the patient list, today's visits and the patient summary make exactly
    this connection; the search makes it at most once.  No routine
    connects a second time after a failure. *)
Theorem data_routines_connect_once (env : environment) (argv0 : str) :
  connects_exactly [test_orca_odbc.connection_string] (test_orca_odbc.list_patients env)
  /\ connects_exactly [test_orca_odbc.connection_string]
       (test_orca_odbc.show_todays_visits env)
  /\ connects_exactly [test_orca_odbc.connection_string]
       (test_orca_odbc.patient_summary env argv0)
  /\ connects_prefix [test_orca_odbc.connection_string] (test_orca_odbc.search_patients env).
Proof.
  split; [apply list_patients_connects|].
  split; [apply show_todays_visits_connects|].
  split; [apply patient_summary_connects|apply search_patients_connects].
Qed.

(** X22. Without an option the script first runs the connection test and
    then the patient summary.  The summary does not reuse the candidate
    that connected: whenever the run comes to its end, its last
    connection is the one written in the script, the Unicode driver with
    the [orca] parameters, which is the second candidate of the test,
    after the [k] candidates that the test tried. *)
Theorem default_mode_connections (env : environment) (argv0 : str) (w : world) :
  let run := test_orca_odbc.dispatch env argv0 [] w in
  fallback_connection_strings !! 1 = Some test_orca_odbc.connection_string
  /\ exists k,
       k <= 5
       /\ (connects (history (snd run))
           = rev (take k fallback_connection_strings) ++ connects (history w)
           \/ connects (history (snd run))
              = test_orca_odbc.connection_string
                :: rev (take k fallback_connection_strings) ++ connects (history w))
       /\ (fst run = Ret tt ->
           connects (history (snd run))
           = test_orca_odbc.connection_string
             :: rev (take k fallback_connection_strings) ++ connects (history w)).
Proof.
  intros run. subst run. split; [vm_compute; reflexivity|].
  cbn [test_orca_odbc.dispatch].
  destruct (test_orca_database_prefix env w) as (k & Hk & Hconn).
  exists k. split; [etransitivity; [exact Hk|]; vm_compute; reflexivity|].
  destruct (test_orca_odbc.test_orca_database env w) as [[[]|e] w1] eqn:Htest;
    rewrite !(run_bind _ _ _ _ _ Htest); cbn [fst snd] in Hconn |- *.
  - rewrite !run_print. cbn [history stdout].
    match goal with
    | |- context [test_orca_odbc.patient_summary _ _ ?w0] =>
      pose proof (patient_summary_connects env argv0 w0) as Hsum
    end.
    cbn [rev app history] in Hsum. rewrite Hsum, Hconn.
    split; [right; reflexivity|intros _; reflexivity].
  - split; [left; exact Hconn|discriminate].
Qed.

(** ** The custom connection test *)

(** X23. When a database and a user are given, the custom test makes
    exactly one connection, however it ends.  Its connection string holds
    the five answers, with localhost and 5432 in place of an empty server
    and port.  The ANSI driver is used only when the answer to the driver
    question is empty or the digit 1; every other answer, and not only the
    digit 2, selects the Unicode driver. *)
Theorem custom_test_connection (env : environment) (w : world)
    (server port database username password choice : str) :
  let n := length (history w) in
  let driver :=
    match choice with
    | [] => u "PostgreSQL ANSI"
    | _ => if bool_decide (choice = u "1") then u "PostgreSQL ANSI"
           else u "PostgreSQL Unicode"
    end in
  answers env n
    [ answer (input (u "Enter server (default: localhost): ")) (Ret server);
      answer (input (u "Enter port (default: 5432): ")) (Ret port);
      answer (input (u "Enter database name: ")) (Ret database);
      answer (input (u "Enter username: ")) (Ret username);
      answer (input (u "Enter password: ")) (Ret password);
      answer (input (u "Choose driver (1 or 2, default: 1): ")) (Ret choice) ] ->
  database <> [] -> username <> [] ->
  connects (history (snd (test_orca_odbc.test_specific_connection env w)))
  = (u "DRIVER={" ++ driver ++ u "};"
     ++ u "SERVER=" ++ match server with [] => u "localhost" | _ => server end ++ u ";"
     ++ u "PORT=" ++ match port with [] => u "5432" | _ => port end ++ u ";"
     ++ u "DATABASE=" ++ database ++ u ";" ++ u "UID=" ++ username ++ u ";"
     ++ u "PWD=" ++ password ++ u ";")
    :: connects (history w).
Proof.
  intros n driver (H1 & H2 & H3 & H4 & H5 & H6 & _) Hdb Huser. subst n.
  unfold test_orca_odbc.test_specific_connection.
  rewrite run_print. cbn [history stdout].
  rewrite (run_input_or env _ _ server) by exact H1. cbn [history stdout length].
  rewrite (run_input_or env _ _ port) by exact H2. cbn [history stdout length].
  run.
  destruct database as [|d database]; [congruence|].
  destruct username as [|n username]; [congruence|].
  rewrite !run_print. cbn [history stdout].
  rewrite (run_input_or env _ _ choice) by exact H6. cbn [history stdout length].
  cbv zeta.
  assert (Hdriver :
            (if bool_decide (match choice with [] => u "1" | _ :: _ => choice end = u "1")
             then u "PostgreSQL ANSI" else u "PostgreSQL Unicode") = driver).
  { subst driver. destruct choice as [|c choice]; [|reflexivity].
    rewrite bool_decide_eq_true_2 by reflexivity. reflexivity. }
  rewrite !Hdriver.
  match goal with
  | |- context [bind (test_orca_odbc.test_connection _ ?cs ?name) ?k ?w0] =>
    pose proof (adds_bind [cs] (test_orca_odbc.test_connection env cs name) k
                  (test_connection_connects env cs name) (fun _ => keeps_ret tt) w0) as Hconn
  end.
  etransitivity; [exact Hconn|]. reflexivity.
Qed.

Lemma custom_test_connection_witness :
  connects
    (history
       (snd (test_orca_odbc.test_specific_connection
               (fun n c =>
                  match c return result (reply c) with
                  | input _ =>
                    match n with
                    | 0 | 1 | 4 => Ret []
                    | 5 => Ret (u "3")
                    | _ => Ret (u "orca")
                    end
                  | c => Scenario.reachable n c
                  end) start)))
  = [ u "DRIVER={PostgreSQL Unicode};SERVER=localhost;PORT=5432;DATABASE=orca;UID=orca;PWD=;" ].
Proof.
  etransitivity;
    [apply (custom_test_connection _ start [] [] (u "orca") (u "orca") [] (u "3"))|].
  - repeat split.
  - discriminate.
  - discriminate.
  - vm_compute. reflexivity.
Defined.
